(** * kmz2geotiff: a shallow embedding of [kmz2geotiff.py]

    The script converts every KMZ archive found next to it into a GeoTIFF.
    It is one stateful procedure, [convert_kmz], driven by [main], plus the
    log writer [log_successful_conversions].  The embedding threads an
    explicit [World] (file system, the three module-level outcome lists,
    standard output and a trace of the library calls made) through a state
    and exception monad, so that Python's [try]/[except] and the mutation of
    the global lists are written the way the script has them.

    Conventions of the model:
    - text is a byte string (Rocq's [string]); non-ASCII text is its UTF-8
      encoding, on which bytewise order is code point order;
    - paths follow [posixpath] ([os.sep] is "/"), and a path names a node of
      the file system by its literal text (no symbolic links, no
      normalisation);
    - [print] always succeeds;
    - a library call that fails leaves the file system as it found it;
    - what [zipfile], [ElementTree] and GDAL decode from or encode into the
      bytes of a file is given by a [Platform] of decoders, over which every
      theorem is universally quantified. *)

From Stdlib Require Import ZArith Ascii String List Lia Sorting Permutation.
From stdpp Require Import base option list strings gmap fin_maps sorting.

Local Open Scope Z_scope.

(** ** Python's [str] operations used by the script *)

Module Str.

Definition is_sep (c : ascii) : bool := bool_decide (c = "/"%char).
Definition is_dot (c : ascii) : bool := bool_decide (c = "."%char).

Fixpoint existsb (f : ascii -> bool) (s : string) : bool :=
  match s with
  | EmptyString => false
  | String c s' => f c || existsb f s'
  end.

Fixpoint map (f : ascii -> ascii) (s : string) : string :=
  match s with
  | EmptyString => EmptyString
  | String c s' => String (f c) (map f s')
  end.

(** [str.lower], on the ASCII letters. *)
Definition lower_ascii (c : ascii) : ascii :=
  let n := N_of_ascii c in
  if ((65 <=? n) && (n <=? 90))%N then ascii_of_N (n + 32) else c.

Definition lower : string -> string := map lower_ascii.

(** [s.startswith(p)] and [s.endswith(p)]. *)
Fixpoint startswith (s p : string) : bool :=
  match p, s with
  | EmptyString, _ => true
  | String a p', String b s' => bool_decide (a = b) && startswith s' p'
  | String _ _, EmptyString => false
  end.

Definition endswith (s p : string) : bool :=
  startswith (String.rev s) (String.rev p).

(** Python's whitespace, on ASCII: TAB, LF, VT, FF, CR, FS, GS, RS, US
    and the space. *)
Definition is_space (c : ascii) : bool :=
  let n := N_of_ascii c in
  (((9 <=? n) && (n <=? 13)) || ((28 <=? n) && (n <=? 32)))%N.

Fixpoint lstrip (s : string) : string :=
  match s with
  | String c s' => if is_space c then lstrip s' else s
  | EmptyString => EmptyString
  end.

(** [s.strip()]. *)
Definition strip (s : string) : string :=
  String.rev (lstrip (String.rev (lstrip s))).

(** [s.split()]: the maximal runs of non-whitespace characters.
    [cur] is the run being read, reversed. *)
Fixpoint split_ws_go (cur : string) (s : string) : list string :=
  match s with
  | EmptyString =>
      match cur with EmptyString => [] | _ => [String.rev cur] end
  | String c s' =>
      if is_space c then
        match cur with
        | EmptyString => split_ws_go EmptyString s'
        | _ => String.rev cur :: split_ws_go EmptyString s'
        end
      else split_ws_go (String c cur) s'
  end.

Definition split_ws : string -> list string := split_ws_go EmptyString.

(** [s.split(",")]: the fields between the commas, empty ones included;
    never the empty list. *)
Fixpoint split_on_go (d : ascii) (cur : string) (s : string) : list string :=
  match s with
  | EmptyString => [String.rev cur]
  | String c s' =>
      if bool_decide (c = d) then String.rev cur :: split_on_go d EmptyString s'
      else split_on_go d (String c cur) s'
  end.

Definition split_on (d : ascii) : string -> list string :=
  split_on_go d EmptyString.

(** [sub in s]. *)
Fixpoint contains (s sub : string) : bool :=
  startswith s sub ||
  match s with
  | EmptyString => false
  | String _ s' => contains s' sub
  end.

(** [", ".join(l)]. *)
Fixpoint join (sep : string) (l : list string) : string :=
  match l with
  | [] => EmptyString
  | [x] => x
  | x :: l' => x +:+ sep +:+ join sep l'
  end.

(** [s[:n]] and [s[n:]]. *)
Fixpoint take (n : nat) (s : string) : string :=
  match n, s with
  | S n', String c s' => String c (take n' s')
  | _, _ => EmptyString
  end.

Fixpoint drop (n : nat) (s : string) : string :=
  match n, s with
  | S n', String _ s' => drop n' s'
  | _, _ => s
  end.

(** [s.rfind(c)]: the last index of [c], or -1. *)
Fixpoint rfind_go (f : ascii -> bool) (i : Z) (best : Z) (s : string) : Z :=
  match s with
  | EmptyString => best
  | String c s' => rfind_go f (i + 1) (if f c then i else best) s'
  end.

Definition rfind (f : ascii -> bool) (s : string) : Z := rfind_go f 0 (-1) s.

End Str.

(** ** [posixpath] *)

Module Path.

(** [os.path.join(a, b)]. *)
Definition join (a b : string) : string :=
  if Str.startswith b "/" then b
  else if bool_decide (a = EmptyString) || Str.endswith a "/" then a +:+ b
  else a +:+ "/" +:+ b.

(** [os.path.basename(p)]: what follows the last separator. *)
Definition basename (p : string) : string :=
  Str.drop (Z.to_nat (Str.rfind Str.is_sep p + 1)) p.

(** [os.path.splitext(p)]: split at the last dot, provided that dot comes
    after the last separator and some character of the file name before
    it is not a dot. *)
Definition splitext (p : string) : string * string :=
  let sepIndex := Str.rfind Str.is_sep p in
  let dotIndex := Str.rfind Str.is_dot p in
  if (sepIndex <? dotIndex) &&
     Str.existsb (fun c => negb (Str.is_dot c))
       (Str.take (Z.to_nat (dotIndex - (sepIndex + 1)))
                 (Str.drop (Z.to_nat (sepIndex + 1)) p))
  then (Str.take (Z.to_nat dotIndex) p, Str.drop (Z.to_nat dotIndex) p)
  else (p, EmptyString).

(** The proper ancestors of [p], outermost first: the text before each
    separator that is not the leading one. *)
Fixpoint ancestors_go (pre : string) (s : string) : list string :=
  match s with
  | EmptyString => []
  | String c s' =>
      if Str.is_sep c then
        match pre with
        | EmptyString => ancestors_go (String c pre) s'
        | _ => String.rev pre :: ancestors_go (String c pre) s'
        end
      else ancestors_go (String c pre) s'
  end.

Definition ancestors : string -> list string := ancestors_go EmptyString.

End Path.

(** ** Exceptions and results *)

(** The exception classes the script can meet; all derive from Python's
    [Exception], so the handler of [convert_kmz] catches every one. *)
Inductive exn_class :=
| PlainException      (* raise Exception(...) written in the script *)
| ValueError          (* float() on a non-numeric field *)
| AttributeError      (* attribute access on None *)
| IndexError          (* tuple index out of range *)
| OSError             (* FileExistsError, NotADirectoryError, ... *)
| BadZipFile          (* zipfile *)
| ParseError          (* xml.etree.ElementTree *)
| RuntimeError.       (* GDAL, under gdal.UseExceptions() *)

Record exn := Exn { exn_cls : exn_class; exn_msg : string }.

(** [str(e)], what the f-string ["{e}"] prints. *)
Definition str_of_exn (e : exn) : string := exn_msg e.

Inductive result (A : Type) :=
| Ok (a : A)
| Raise (e : exn).
Arguments Ok {A} a.
Arguments Raise {A} e.

Definition is_ok {A} (r : result A) : bool :=
  match r with Ok _ => true | Raise _ => false end.

(** Left-to-right traversal that stops at the first exception: a list
    comprehension, or [tuple(map(f, l))]. *)
Fixpoint traverse {A B} (f : A -> result B) (l : list A) : result (list B) :=
  match l with
  | [] => Ok []
  | x :: l' =>
      match f x with
      | Raise e => Raise e
      | Ok y =>
          match traverse f l' with
          | Raise e => Raise e
          | Ok ys => Ok (y :: ys)
          end
      end
  end.

(** ** Python's [float(str)] *)

Module PyFloat.

(** The value a literal denotes, kept exact: [(-1)^neg * mant * 10^exp10],
    or one of the special values.  The rounding to binary64 that Python
    then performs is not modelled; the script does no arithmetic on the
    coordinates, it only hands them to GDAL. *)
Inductive t :=
| Finite (neg : bool) (mant : N) (exp10 : Z)
| Inf (neg : bool)
| NaN.

Definition digit (c : ascii) : option N :=
  let n := N_of_ascii c in
  if ((48 <=? n) && (n <=? 57))%N then Some (n - 48)%N else None.

(** digitpart ::= digit (["_"] digit)*  -- continued after a first digit.
    Returns the accumulated number, the count of digits read and the
    rest of the text. *)
Fixpoint digits_go (acc : N) (n : nat) (s : string) : N * nat * string :=
  match s with
  | String c s' =>
      match digit c with
      | Some d => digits_go (10 * acc + d)%N (S n) s'
      | None =>
          if bool_decide (c = "_"%char) then
            match s' with
            | String c' s'' =>
                match digit c' with
                | Some d => digits_go (10 * acc + d)%N (S n) s''
                | None => (acc, n, s)
                end
            | EmptyString => (acc, n, s)
            end
          else (acc, n, s)
      end
  | EmptyString => (acc, n, s)
  end.

Definition digitpart (acc : N) (s : string) : option (N * nat * string) :=
  match s with
  | String c s' =>
      match digit c with
      | Some d => Some (digits_go (10 * acc + d)%N 1 s')
      | None => None
      end
  | EmptyString => None
  end.

Definition sign (s : string) : bool * string :=
  match s with
  | String "-" s' => (true, s')
  | String "+" s' => (false, s')
  | _ => (false, s)
  end.

(** number ::= [digitpart] "." digitpart | digitpart ["."]
    Returns mantissa, number of fraction digits, rest. *)
Definition number (s : string) : option (N * nat * string) :=
  match digitpart 0 s with
  | Some (m, _, String "." r) =>
      match digitpart m r with
      | Some (m', k, r') => Some (m', k, r')
      | None => Some (m, 0%nat, r)
      end
  | Some (m, _, r) => Some (m, 0%nat, r)
  | None =>
      match s with
      | String "." r => digitpart 0 r
      | _ => None
      end
  end.

(** exponent ::= ("e" | "E") [sign] digitpart, then the end of the text. *)
Definition exponent (s : string) : option Z :=
  match s with
  | EmptyString => Some 0
  | String c r =>
      if bool_decide (c = "e"%char) || bool_decide (c = "E"%char) then
        let '(neg, r') := sign r in
        match digitpart 0 r' with
        | Some (e, _, EmptyString) =>
            Some (if neg then - Z.of_N e else Z.of_N e)
        | _ => None
        end
      else None
  end.

Definition absfloatvalue (neg : bool) (s : string) : option t :=
  let l := Str.lower s in
  if bool_decide (l = "inf") || bool_decide (l = "infinity") then Some (Inf neg)
  else if bool_decide (l = "nan") then Some NaN
  else
    match number s with
    | Some (m, k, r) =>
        match exponent r with
        | Some e => Some (Finite neg m (e - Z.of_nat k))
        | None => None
        end
    | None => None
    end.

(** [float(s)]: [None] stands for the [ValueError]. *)
Definition of_string (s : string) : option t :=
  let '(neg, r) := sign (Str.strip s) in absfloatvalue neg r.

End PyFloat.

(** ** Coordinates (lines 58-60) *)

Definition float_field (f : string) : result PyFloat.t :=
  match PyFloat.of_string f with
  | Some x => Ok x
  | None => Raise (Exn ValueError ("could not convert string to float: '" +:+ f +:+ "'"))
  end.

(** [tuple(map(float, c.split(",")))] *)
Definition parse_point (c : string) : result (list PyFloat.t) :=
  traverse float_field (Str.split_on "," c).

(** [[tuple(map(float, c.split(","))) for c in text.strip().split()]] *)
Definition parse_coords (text : string) : result (list (list PyFloat.t)) :=
  traverse parse_point (Str.split_ws (Str.strip text)).

(** ** [xml.etree.ElementTree] *)

(** An element: its namespace-qualified tag ("{uri}local"), its [text]
    ([None] when the element has no text) and its children in document
    order. *)
#[warnings="-register-all"]
Inductive Element :=
| Elem (tag : string) (text : option string) (children : list Element).

Module ET.

Definition tag (e : Element) : string := let 'Elem t _ _ := e in t.
Definition text (e : Element) : option string := let 'Elem _ t _ := e in t.
Definition children (e : Element) : list Element := let 'Elem _ _ c := e in c.

(** [e.iter()]: the element and all its descendants, in document order. *)
Fixpoint iter (e : Element) : list Element :=
  match e with
  | Elem _ _ cs => e :: flat_map iter cs
  end.

(** The two kinds of ElementPath step the script uses:
    ".//tag" (descendants, the element itself excluded) and "tag"
    (children). *)
Inductive step :=
| Descendant (t : string)
| Child (t : string).

Definition has_tag (t : string) (e : Element) : bool := bool_decide (tag e = t).

Definition select (s : step) (ctx : list Element) : list Element :=
  match s with
  | Descendant t =>
      flat_map (fun e => List.filter (has_tag t) (flat_map iter (children e))) ctx
  | Child t =>
      flat_map (fun e => List.filter (has_tag t) (children e)) ctx
  end.

Definition findall (path : list step) (e : Element) : list Element :=
  fold_left (fun ctx s => select s ctx) path [e].

(** [e.find(path)]: the first match, or [None]. *)
Definition find (path : list step) (e : Element) : option Element :=
  head (findall path e).

End ET.

Definition kml_ns : string := "http://www.opengis.net/kml/2.2".
Definition gx_ns : string := "http://www.google.com/kml/ext/2.2".

(** [f"{{{ns}}}name"] *)
Definition qname (ns name : string) : string := "{" +:+ ns +:+ "}" +:+ name.

(** ".//{gx}LatLonQuad/{kml}coordinates" (line 54) *)
Definition latlon_quad_path : list ET.step :=
  [ET.Descendant (qname gx_ns "LatLonQuad"); ET.Child (qname kml_ns "coordinates")].

(** ".//{kml}GroundOverlay" (line 63) *)
Definition ground_overlay_path : list ET.step :=
  [ET.Descendant (qname kml_ns "GroundOverlay")].

(** "{kml}Icon/{kml}href" (line 64) *)
Definition icon_href_path : list ET.step :=
  [ET.Child (qname kml_ns "Icon"); ET.Child (qname kml_ns "href")].

(** ** GDAL values *)

(** [gdal.GCP(x, y, z, pixel, line)] *)
Record GCP := mkGCP {
  GCPX : PyFloat.t;
  GCPY : PyFloat.t;
  GCPZ : Z;
  GCPPixel : Z;
  GCPLine : Z
}.

(** An open dataset: the file it was opened from, its bytes and its raster
    size. *)
Record Dataset := mkDataset {
  ds_path : string;
  ds_data : string;
  RasterXSize : Z;
  RasterYSize : Z
}.

(** ** The world *)

Inductive node :=
| Dir
| File (data : string).

(** The calls into [zipfile], [ElementTree], GDAL and [os.remove], with
    their arguments, in the order they are made.  The trace is ghost state:
    the script does not read it. *)
Inductive call :=
| ZipExtractAll (src dst : string)
| EtParse (path : string)
| GdalOpen (path : string)
| GdalTranslate (dst : string) (src : Dataset) (GCPs : list GCP) (outputSRS : string)
| GdalWarp (dst src : string) (dstSRS : string) (tps : bool)
           (creationOptions : list string)
| OsRemove (path : string).

Record World := mkWorld {
  fs : gmap string node;
  success_list : list string;      (* line 16 *)
  failed_list : list string;       (* line 17 *)
  skipped_list : list string;      (* line 18 *)
  stdout : list string;            (* one entry per print *)
  calls : list call
}.

(** The world in which the script starts: the lists of lines 16-18 are
    empty. *)
Definition initial_world (files : gmap string node) : World :=
  mkWorld files [] [] [] [] [].

(** ** The state and exception monad *)

Definition M (A : Type) : Type := World -> result A * World.

Global Instance M_ret : MRet M := fun A x w => (Ok x, w).
Global Instance M_bind : MBind M := fun A B f m w =>
  match m w with
  | (Ok x, w') => f x w'
  | (Raise e, w') => (Raise e, w')
  end.

Definition raise {A} (e : exn) : M A := fun w => (Raise e, w).

(** [try: body  except Exception as e: handler(e)] *)
Definition try_except {A} (body : M A) (handler : exn -> M A) : M A := fun w =>
  match body w with
  | (Ok x, w') => (Ok x, w')
  | (Raise e, w') => handler e w'
  end.

Definition get_fs : M (gmap string node) := fun w => (Ok (fs w), w).

Definition set_fs (f : gmap string node) : M unit := fun w =>
  (Ok tt, mkWorld f (success_list w) (failed_list w) (skipped_list w)
                  (stdout w) (calls w)).

Definition print (line : string) : M unit := fun w =>
  (Ok tt, mkWorld (fs w) (success_list w) (failed_list w) (skipped_list w)
                  (stdout w ++ [line]) (calls w)).

Definition trace (c : call) : M unit := fun w =>
  (Ok tt, mkWorld (fs w) (success_list w) (failed_list w) (skipped_list w)
                  (stdout w) (calls w ++ [c])).

(** [success_list.append(x)] and its two siblings. *)
Definition success_list_append (x : string) : M unit := fun w =>
  (Ok tt, mkWorld (fs w) (success_list w ++ [x]) (failed_list w) (skipped_list w)
                  (stdout w) (calls w)).
Definition failed_list_append (x : string) : M unit := fun w =>
  (Ok tt, mkWorld (fs w) (success_list w) (failed_list w ++ [x]) (skipped_list w)
                  (stdout w) (calls w)).
Definition skipped_list_append (x : string) : M unit := fun w =>
  (Ok tt, mkWorld (fs w) (success_list w) (failed_list w) (skipped_list w ++ [x])
                  (stdout w) (calls w)).

Definition get_success_list : M (list string) := fun w => (Ok (success_list w), w).
Definition get_skipped_list : M (list string) := fun w => (Ok (skipped_list w), w).
Definition get_failed_list : M (list string) := fun w => (Ok (failed_list w), w).

Definition lift {A} (r : result A) : M A := fun w => (r, w).

(** A [for] loop over a list. *)
Fixpoint for_each {A} (l : list A) (body : A -> M unit) : M unit :=
  match l with
  | [] => mret tt
  | x :: l' => body x ;; for_each l' body
  end.

(** ** [os] and the file system *)

Module Os.

Definition os_error (msg path : string) : exn :=
  Exn OSError (msg +:+ ": '" +:+ path +:+ "'").

(** [os.path.exists(p)] *)
Definition path_exists (p : string) : M bool :=
  f ← get_fs; mret (bool_decide (is_Some (f !! p))).

(** One level of [os.makedirs(.., exist_ok=True)]: make [d] a directory
    unless it is one; a file in the way is an error. *)
Definition mkdir_exist_ok (d : string) : M unit :=
  f ← get_fs;
  match f !! d with
  | None => set_fs (<[d := Dir]> f)
  | Some Dir => mret tt
  | Some (File _) => raise (os_error "[Errno 17] File exists" d)
  end.

(** [os.makedirs(p, exist_ok=True)] *)
Definition makedirs (p : string) : M unit :=
  for_each (Path.ancestors p ++ [p]) mkdir_exist_ok.

(** The names of the entries of [d]: the keys "d/name" with a non-empty
    [name] free of separators.  The order in which [os.listdir] returns
    them is unspecified; the model takes the enumeration order of the
    map. *)
Definition entry_name (d : string) (key : string) : option string :=
  let pre := d +:+ "/" in
  if Str.startswith key pre then
    let n := Str.drop (String.length pre) key in
    if bool_decide (n = EmptyString) || Str.existsb Str.is_sep n then None
    else Some n
  else None.

Definition listdir (d : string) : M (list string) :=
  f ← get_fs;
  match f !! d with
  | Some Dir => mret (omap (fun kv => entry_name d (fst kv)) (map_to_list f))
  | Some (File _) => raise (os_error "[Errno 20] Not a directory" d)
  | None => raise (os_error "[Errno 2] No such file or directory" d)
  end.

(** Reading the bytes of a file. *)
Definition read_file (p : string) : M string :=
  f ← get_fs;
  match f !! p with
  | Some (File data) => mret data
  | Some Dir => raise (os_error "[Errno 21] Is a directory" p)
  | None => raise (os_error "[Errno 2] No such file or directory" p)
  end.

(** Creating or replacing the file [p].  The parent directory is not
    looked at: the script writes below the output folder, which line 11
    creates before anything else runs, and below directories it has just
    made. *)
Definition write_file (p : string) (data : string) : M unit :=
  f ← get_fs;
  match f !! p with
  | Some Dir => raise (os_error "[Errno 21] Is a directory" p)
  | _ => set_fs (<[p := File data]> f)
  end.

(** [open(p, "a").write(text)]: the file is created if missing and the
    text goes after what it holds. *)
Definition append_file (p : string) (text : string) : M unit :=
  f ← get_fs;
  match f !! p with
  | Some Dir => raise (os_error "[Errno 21] Is a directory" p)
  | Some (File data) => set_fs (<[p := File (data +:+ text)]> f)
  | None => set_fs (<[p := File text]> f)
  end.

(** [os.remove(p)] *)
Definition remove (p : string) : M unit :=
  trace (OsRemove p) ;;
  f ← get_fs;
  match f !! p with
  | Some (File _) => set_fs (delete p f)
  | Some Dir => raise (os_error "[Errno 21] Is a directory" p)
  | None => raise (os_error "[Errno 2] No such file or directory" p)
  end.

End Os.

(** ** The libraries' view of file contents *)

(** What the external libraries make of the bytes of a file, and the two
    facts of the run the script reads from its environment.  A decoder
    answers [Raise] where the library raises. *)
Record Platform := {
  (** [os.path.dirname(os.path.abspath(__file__))], line 9 *)
  SCRIPT_DIR : string;
  (** [datetime.now().strftime("%m/%d/%Y %H:%M:%S")], line 120 *)
  timestamp : string;
  (** [zipfile]: the members of an archive, as (sanitised relative name,
      bytes) in archive order *)
  zip_members : string -> result (list (string * string));
  (** [ET.parse(..).getroot()] *)
  xml_root : string -> result Element;
  (** [gdal.Open]: width and height of a raster *)
  raster_size : string -> result (Z * Z);
  (** the bytes [gdal.Translate] writes *)
  translate_output : Dataset -> list GCP -> string -> result string;
  (** the bytes [gdal.Warp] writes, from the bytes of its source *)
  warp_output : string -> string -> bool -> list string -> result string
}.

Definition nl : string := String "010"%char EmptyString.

(** Subscripting: [l[i]] raises IndexError outside the range. *)
Definition subscript {A} (kind : string) (l : list A) (i : nat) : result A :=
  match nth_error l i with
  | Some x => Ok x
  | None => Raise (Exn IndexError (kind +:+ " index out of range"))
  end.

(** Attribute access [o.attr] where [o] may be None. *)
Definition attr_of {A} (o : option A) (attr : string) : result A :=
  match o with
  | Some x => Ok x
  | None => Raise (Exn AttributeError
              ("'NoneType' object has no attribute '" +:+ attr +:+ "'"))
  end.

(** [gdal.GCP(coords[i][0], coords[i][1], 0, pixel, line)] *)
Definition gcp_at (coords : list (list PyFloat.t)) (i : nat) (pixel line : Z)
  : result GCP :=
  match subscript "list" coords i with
  | Raise e => Raise e
  | Ok c =>
      match subscript "tuple" c 0 with
      | Raise e => Raise e
      | Ok x =>
          match subscript "tuple" c 1 with
          | Raise e => Raise e
          | Ok y => Ok (mkGCP x y 0 pixel line)
          end
      end
  end.

(** Lines 75-80: the four ground-control points. *)
Definition build_gcps (coords : list (list PyFloat.t)) (width height : Z)
  : result (list GCP) :=
  traverse (fun '(i, pixel, line) => gcp_at coords i pixel line)
    [ (0%nat, 0, height); (1%nat, width, height); (2%nat, width, 0); (3%nat, 0, 0) ].

(** The creation options of lines 93-100. *)
Definition creation_options : list string :=
  ["TILED=YES"; "COMPRESS=JPEG"; "JPEG_QUALITY=50"; "BIGTIFF=IF_SAFER";
   "BLOCKXSIZE=512"; "BLOCKYSIZE=512"].

Section Script.

Context (P : Platform).

(** Line 10 and line 13. *)
Definition OUTPUT_FOLDER : string := Path.join (SCRIPT_DIR P) "Converted GeoTIFFs".
Definition LOG_FILE : string := Path.join OUTPUT_FOLDER "conversion_log.txt".

(** *** Library calls *)

Definition gdal_error (msg : string) : exn := Exn RuntimeError msg.

(** GDAL reading and writing a file: its failures are RuntimeErrors. *)
Definition gdal_read (p : string) : M string :=
  f ← get_fs;
  match f !! p with
  | Some (File data) => mret data
  | _ => raise (gdal_error (p +:+ ": No such file or directory"))
  end.

Definition gdal_write (p : string) (data : string) : M unit :=
  f ← get_fs;
  match f !! p with
  | Some Dir => raise (gdal_error ("Attempt to create new tiff file `" +:+ p +:+ "' failed"))
  | _ => set_fs (<[p := File data]> f)
  end.

(** [with zipfile.ZipFile(src, "r") as z: z.extractall(dst)]: every member
    is written below [dst], its parent directories made on the way. *)
Definition extract_member (dst : string) (m : string * string) : M unit :=
  let target := dst +:+ "/" +:+ fst m in
  for_each (Path.ancestors target) Os.mkdir_exist_ok;;
  Os.write_file target (snd m).

Definition zip_extractall (src dst : string) : M unit :=
  trace (ZipExtractAll src dst);;
  data ← Os.read_file src;
  members ← lift (zip_members P data);
  for_each members (extract_member dst).

(** [ET.parse(path).getroot()] *)
Definition ET_parse (path : string) : M Element :=
  trace (EtParse path);;
  data ← Os.read_file path;
  lift (xml_root P data).

(** [gdal.Open(path)]; under [gdal.UseExceptions()] (line 7) a failure
    raises, so the answer is never None. *)
Definition gdal_Open (path : string) : M (option Dataset) :=
  trace (GdalOpen path);;
  data ← gdal_read path;
  '(w, h) ← lift (raster_size P data);
  mret (Some (mkDataset path data w h)).

(** [gdal.Translate(dst, ds, GCPs=gcps, outputSRS=srs)] *)
Definition gdal_Translate (dst : string) (ds : Dataset) (gcps : list GCP)
    (srs : string) : M unit :=
  trace (GdalTranslate dst ds gcps srs);;
  out ← lift (translate_output P ds gcps srs);
  gdal_write dst out.

(** [gdal.Warp(dst, src, dstSRS=.., tps=.., options=WarpOptions(creationOptions=..))],
    with the arguments as the script passes them. *)
Definition gdal_Warp (dst src : string) (dstSRS : string) (tps : bool)
    (opts : list string) : M unit :=
  trace (GdalWarp dst src dstSRS tps opts);;
  data ← gdal_read src;
  out ← lift (warp_output P data dstSRS tps opts);
  gdal_write dst out.

(** *** [convert_kmz] (lines 21-110) *)

(** Lines 35-48: unzip the archive into its working directory, find the
    KML and parse it. *)
Definition open_descriptor (kmz_path base : string) : M (string * Element) :=
  let tmp_dir := Path.join (Path.join OUTPUT_FOLDER "_temp") base in
  Os.makedirs tmp_dir;;
  zip_extractall kmz_path tmp_dir;;
  names ← Os.listdir tmp_dir;
  let kml_files := List.filter (fun f => Str.endswith (Str.lower f) ".kml") names in
  match kml_files with
  | [] => raise (Exn PlainException "No KML found")
  | kml :: _ =>
      let kml_path := Path.join tmp_dir kml in
      root ← ET_parse kml_path;
      mret (tmp_dir, root)
  end.

(** Lines 50-67: the corner coordinates and the image file.  With
    [os.sep] = "/", [icon.text.replace("/", os.sep)] is [icon.text]. *)
Definition read_descriptor (tmp_dir : string) (root : Element)
  : M (list (list PyFloat.t) * string) :=
  match ET.find latlon_quad_path root with
  | None => raise (Exn PlainException "No LatLonQuad found")
  | Some latlon_quad =>
      text ← lift (attr_of (ET.text latlon_quad) "strip");
      coords ← lift (parse_coords text);
      if negb (length coords =? 4)%nat then
        raise (Exn PlainException "LatLonQuad does not have 4 points")
      else
        go ← lift (attr_of (ET.find ground_overlay_path root) "find");
        icon ← lift (attr_of (ET.find icon_href_path go) "text");
        href ← lift (attr_of (ET.text icon) "replace");
        let img_file := Path.join tmp_dir href in
        found ← Os.path_exists img_file;
        if negb found then
          raise (Exn PlainException ("Image file not found: " +:+ img_file))
        else mret (coords, img_file)
  end.

(** Lines 69-106: open the image, attach the control points, warp,
    remove the intermediate file and record the success. *)
Definition rectify_and_encode (base out_tif : string)
    (coords : list (list PyFloat.t)) (img_file : string) : M unit :=
  ds ← gdal_Open img_file;
  match ds with
  | None => raise (Exn PlainException "Failed to open image file")
  | Some ds =>
      let width := RasterXSize ds in
      let height := RasterYSize ds in
      gcps ← lift (build_gcps coords width height);
      let tmp_tif := Path.join OUTPUT_FOLDER (base +:+ "_with_gcps.tif") in
      gdal_Translate tmp_tif ds gcps "EPSG:4326";;
      gdal_Warp out_tif tmp_tif "EPSG:4326" true creation_options;;
      Os.remove tmp_tif;;
      success_list_append base;;
      print ("  ✅ Saved GeoTIFF: " +:+ out_tif)
  end.

(** The body of the [try] block, lines 34-106. *)
Definition convert_body (kmz_path base out_tif : string) : M unit :=
  '(tmp_dir, root) ← open_descriptor kmz_path base;
  '(coords, img_file) ← read_descriptor tmp_dir root;
  rectify_and_encode base out_tif coords img_file.

(** The handler, lines 108-110. *)
Definition on_failure (base : string) (e : exn) : M unit :=
  failed_list_append base;;
  print ("  ❌ Failed: " +:+ base +:+ " → " +:+ str_of_exn e).

Definition base_of (kmz_path : string) : string :=
  fst (Path.splitext (Path.basename kmz_path)).

Definition out_tif_of (kmz_path : string) : string :=
  Path.join OUTPUT_FOLDER (base_of kmz_path +:+ ".tif").

Definition convert_kmz (kmz_path : string) : M unit :=
  let base := base_of kmz_path in
  let out_tif := out_tif_of kmz_path in
  found ← Os.path_exists out_tif;
  if found : bool then
    print (nl +:+ "⏭️ Skipping " +:+ base +:+ " (already exists)");;
    skipped_list_append base
  else
    print (nl +:+ "Processing " +:+ base +:+ " ...");;
    try_except (convert_body kmz_path base out_tif) (on_failure base).

(** *** [log_successful_conversions] (lines 113-125) *)

(** [sorted(set(l))]: in whatever order the set is enumerated, sorting
    yields the same list; the model enumerates it as [remove_dups]. *)
Definition sorted_set (l : list string) : list string :=
  merge_sort String.le (remove_dups l).

Definition log_section (names : list string) : list string :=
  [nl +:+ "--- Conversion on " +:+ timestamp P +:+ " ---" +:+ nl]
  ++ map (fun name => name +:+ nl) names
  ++ [nl].

Definition log_successful_conversions : M unit :=
  s ← get_success_list;
  match s with
  | [] => mret tt
  | _ =>
      let sorted_names := sorted_set s in
      Os.append_file LOG_FILE "";;     (* open(LOG_FILE, "a") *)
      Os.append_file LOG_FILE
        (nl +:+ "--- Conversion on " +:+ timestamp P +:+ " ---" +:+ nl);;
      for_each sorted_names (fun name => Os.append_file LOG_FILE (name +:+ nl));;
      Os.append_file LOG_FILE nl
  end.

(** *** [main] (lines 130-151) *)

Definition rule : string := "──────────────────────────────".

Definition print_unless_empty (label : string) (l : list string) : M unit :=
  match l with
  | [] => mret tt
  | _ => print (label +:+ " " +:+ Str.join ", " l)
  end.

(** The body of the loop, line 137. *)
Definition process (kmz : string) : M unit :=
  convert_kmz (Path.join (SCRIPT_DIR P) kmz).

(** Lines 132-151, for the list of archives found. *)
Definition batch (kmz_files : list string) : M unit :=
  match kmz_files with
  | [] => print ("No KMZ files found in: " +:+ SCRIPT_DIR P)
  | _ =>
      for_each kmz_files process;;
      print (nl +:+ rule);;
      s ← get_success_list; print_unless_empty "✅ Successful:" s;;
      k ← get_skipped_list; print_unless_empty "⏭️ Skipped:" k;;
      f ← get_failed_list; print_unless_empty "❌ Failed:" f;;
      print rule;;
      print "✅ CONVERSION COMPLETE ✅";;
      print ("New Files Located: " +:+ OUTPUT_FOLDER);;
      log_successful_conversions
  end.

Definition main : M unit :=
  names ← Os.listdir (SCRIPT_DIR P);
  batch (List.filter (fun f => Str.endswith (Str.lower f) ".kmz") names).

(** Running the file: line 11 makes the output folder when the module is
    loaded, lines 156-157 call [main]. *)
Definition script : M unit :=
  Os.makedirs OUTPUT_FOLDER;;
  main.

End Script.

(** ** Frame relations

  [preserves R m]: whatever [m] does and however it ends, the world it
  leaves is [R]-related to the one it started in. *)

Definition preserves {A} (R : relation World) (m : M A) : Prop :=
  forall w, R w (snd (m w)).

(** The relations used below. *)

(** The three outcome lists are untouched. *)
Definition same_lists : relation World := fun w w' =>
  success_list w' = success_list w /\
  failed_list w' = failed_list w /\
  skipped_list w' = skipped_list w.

(** Nothing was printed. *)
Definition same_stdout : relation World := fun w w' => stdout w' = stdout w.

(** Every directory is still a directory. *)
Definition dirs_kept : relation World := fun w w' =>
  forall d, fs w !! d = Some Dir -> fs w' !! d = Some Dir.

(** The node at path [k] is untouched. *)
Definition same_node (k : string) : relation World := fun w w' =>
  fs w' !! k = fs w !! k.

(** The calls of the ground-control-point translate step and of the
    warp/encode step. *)
Definition is_encoder_call (c : call) : bool :=
  match c with
  | GdalTranslate _ _ _ _ | GdalWarp _ _ _ _ _ => true
  | _ => false
  end.

Definition encoder_calls (w : World) : list call :=
  List.filter is_encoder_call (calls w).

Definition same_encoder_calls : relation World := fun w w' =>
  encoder_calls w' = encoder_calls w.

(** The file system is untouched. *)
Definition same_fs : relation World := fun w w' => fs w' = fs w.

(** No library call at all was made. *)
Definition same_calls : relation World := fun w w' => calls w' = calls w.

(** The trace only grows. *)
Definition calls_grow : relation World := fun w w' => calls w `prefix_of` calls w'.

(** The failure and skip lists are untouched. *)
Definition same_failed_skipped : relation World := fun w w' =>
  failed_list w' = failed_list w /\ skipped_list w' = skipped_list w.

Section Paths.

Context (P : Platform).

Definition tmp_tif_of (kmz_path : string) : string :=
  Path.join (OUTPUT_FOLDER P) (base_of kmz_path +:+ "_with_gcps.tif").

Definition tmp_dir_of (kmz_path : string) : string :=
  Path.join (Path.join (OUTPUT_FOLDER P) "_temp") (base_of kmz_path).

End Paths.

(** * One conversion *)

Section Conversion.

Context (P : Platform).

(** The world once "Processing ..." has been printed (line 31). *)
Definition announced (kmz_path : string) (w : World) : World :=
  mkWorld (fs w) (success_list w) (failed_list w) (skipped_list w)
    (stdout w ++ [nl +:+ "Processing " +:+ base_of kmz_path +:+ " ..."])
    (calls w).

(** The world the skip path leaves (lines 27-28). *)
Definition skipped (kmz_path : string) (w : World) : World :=
  mkWorld (fs w) (success_list w) (failed_list w)
    (skipped_list w ++ [base_of kmz_path])
    (stdout w ++ [nl +:+ "⏭️ Skipping " +:+ base_of kmz_path +:+ " (already exists)"])
    (calls w).

(** The world the handler leaves (lines 109-110). *)
Definition failed (kmz_path : string) (e : exn) (w : World) : World :=
  mkWorld (fs w) (success_list w) (failed_list w ++ [base_of kmz_path])
    (skipped_list w)
    (stdout w ++ ["  ❌ Failed: " +:+ base_of kmz_path +:+ " → " +:+ str_of_exn e])
    (calls w).

Definition body_of (kmz_path : string) : M unit :=
  convert_body P kmz_path (base_of kmz_path) (out_tif_of P kmz_path).

End Conversion.

(** * A concrete platform and a concrete folder *)

Module Sample.

(** A KML document with one ground overlay: the text of its coordinates
    element and the text of its image reference. *)
Definition kml_doc (coordinates href : option string) : Element :=
  Elem (qname kml_ns "kml") None
    [Elem (qname kml_ns "GroundOverlay") None
       [Elem (qname kml_ns "name") (Some "overlay") [];
        Elem (qname kml_ns "Icon") None [Elem (qname kml_ns "href") href []];
        Elem (qname gx_ns "LatLonQuad") None
          [Elem (qname kml_ns "coordinates") coordinates []]]].

Definition quad4 : string :=
  "-122.5,37.8,0 -122.4,37.8,0 -122.4,37.7,0 -122.5,37.7,0".

Definition table {A} (rows : list (string * A)) (miss : exn) (key : string)
  : result A :=
  match List.find (fun row => bool_decide (fst row = key)) rows with
  | Some row => Ok (snd row)
  | None => Raise miss
  end.

(** File contents are named by short tags; the decoders are look-up
    tables.  "png16" is an image GDAL opens and translates but cannot
    write with JPEG compression. *)
Definition platform : Platform := {|
  SCRIPT_DIR := "/maps";
  timestamp := "11/03/2026 09:00:00";
  zip_members := table
    [("zip-good",  [("doc.kml", "kml-good"); ("files/overlay.png", "png")]);
     ("zip-three", [("doc.kml", "kml-three"); ("files/overlay.png", "png")]);
     ("zip-four-fields", [("doc.kml", "kml-four-fields"); ("files/overlay.png", "png")]);
     ("zip-png16", [("doc.kml", "kml-good"); ("files/overlay.png", "png16")])]
    (Exn BadZipFile "File is not a zip file");
  xml_root := table
    [("kml-good", kml_doc (Some quad4) (Some "files/overlay.png"));
     ("kml-three", kml_doc (Some "1,2 3,4 5,6") (Some "files/overlay.png"));
     ("kml-four-fields",
       kml_doc (Some "1,2,0,9 3,4,0,9 5,6,0,9 7,8,0,9") (Some "files/overlay.png"))]
    (Exn ParseError "syntax error: line 1, column 0");
  raster_size := table [("png", (100, 200)); ("png16", (100, 200))]
    (Exn RuntimeError "not recognized as being in a supported file format");
  translate_output := fun ds _ _ => Ok ("gcps+" +:+ ds_data ds);
  warp_output := fun data _ _ _ =>
    table [("gcps+png", "geotiff")]
      (Exn RuntimeError "JPEG compression failed") data
|}.

Definition files : gmap string node :=
  list_to_map
    [("/maps", Dir); ("/maps/Converted GeoTIFFs", Dir);
     ("/maps/a.kmz", File "zip-good");
     ("/maps/b.KMZ", File "zip-three");
     ("/maps/c.kmz", File "zip-png16");
     ("/maps/d.kmz", File "not a zip");
     ("/maps/e.kmz", File "zip-four-fields");
     ("/maps/readme.txt", File "hello")].

Definition world : World := initial_world files.

(** The same folder after an earlier run has produced "a.tif". *)
Definition world_with_output : World :=
  initial_world (<["/maps/Converted GeoTIFFs/a.tif" := File "geotiff"]> files).

End Sample.

(** * The coordinate parser *)

Definition numeric (field : string) : bool :=
  match PyFloat.of_string field with Some _ => true | None => false end.

(** The points of [build_gcps] cut to their first two fields. *)
Definition lon_lat (point : list PyFloat.t) : list PyFloat.t := firstn 2 point.

(** * The batch *)

Inductive outcome := Succeeded | WasSkipped | HasFailed.

Definition outcome_eqb (a b : outcome) : bool :=
  match a, b with
  | Succeeded, Succeeded | WasSkipped, WasSkipped | HasFailed, HasFailed => true
  | _, _ => false
  end.

Definition line_unless_empty (label : string) (l : list string) : list string :=
  match l with
  | [] => []
  | _ => [label +:+ " " +:+ Str.join ", " l]
  end.

Definition with_fs (f : gmap string node) (w : World) : World :=
  mkWorld f (success_list w) (failed_list w) (skipped_list w) (stdout w) (calls w).

(** The text of the file at [p]; empty when there is none. *)
Definition text_at (p : string) (f : gmap string node) : string :=
  match f !! p with
  | Some (File data) => data
  | _ => ""
  end.

Definition concat_str (l : list string) : string := foldr String.app "" l.

Section Batch.

Context (P : Platform).

(** The base names a run records with outcome [o]; [run] lists the
    archives in processing order with their outcomes. *)
Definition recorded (o : outcome) (run : list (string * outcome)) : list string :=
  map (fun r => base_of (Path.join (SCRIPT_DIR P) (fst r)))
      (List.filter (fun r => outcome_eqb (snd r) o) run).

(** The final summary, lines 139-148. *)
Definition summary_lines (w : World) : list string :=
  [nl +:+ rule]
  ++ line_unless_empty "✅ Successful:" (success_list w)
  ++ line_unless_empty "⏭️ Skipped:" (skipped_list w)
  ++ line_unless_empty "❌ Failed:" (failed_list w)
  ++ [rule; "✅ CONVERSION COMPLETE ✅"; "New Files Located: " +:+ OUTPUT_FOLDER P].

(** The text of one log section. *)
Definition section_text (names : list string) : string :=
  concat_str (log_section P names).

(** The world after some lines have been printed. *)
Definition printed (lines : list string) (w : World) : World :=
  mkWorld (fs w) (success_list w) (failed_list w) (skipped_list w)
    (stdout w ++ lines) (calls w).

End Batch.

(** * Notions for the further properties *)

(** [below dir k]: the path [k] lies below the directory [dir]. *)
Definition below (dir k : string) : bool := Str.startswith k (dir +:+ "/").

(** The node [n] at path [k], if it is there, stays as it is. *)
Definition kept (k : string) (n : node) : relation World := fun w w' =>
  fs w !! k = Some n -> fs w' !! k = Some n.

(** The calls into GDAL. *)
Definition is_gdal_call (c : call) : bool :=
  match c with
  | GdalOpen _ | GdalTranslate _ _ _ _ | GdalWarp _ _ _ _ _ => true
  | _ => false
  end.

Definition gdal_calls (w : World) : list call :=
  List.filter is_gdal_call (calls w).

Definition same_gdal_calls : relation World := fun w w' =>
  gdal_calls w' = gdal_calls w.

(** A text made of whitespace only. *)
Definition all_space (s : string) : bool := negb (Str.existsb (fun c => negb (Str.is_space c)) s).

(** A point with a longitude and a latitude at least. *)
Definition has_lon_lat (point : list PyFloat.t) : bool := (2 <=? length point)%nat.

Section Stages.

Context (P : Platform).

(** Lines 35-38: the working directory is made and the archive extracted
    into it. *)
Definition extract_stage (kmz_path : string) : M unit :=
  Os.makedirs (tmp_dir_of P kmz_path);;
  zip_extractall P kmz_path (tmp_dir_of P kmz_path).

(** Lines 35-67: the descriptor is found, parsed and read. *)
Definition descriptor_stage (kmz_path : string)
  : M (list (list PyFloat.t) * string) :=
  '(tmp_dir, root) ← open_descriptor P kmz_path (base_of kmz_path);
  read_descriptor tmp_dir root.

(** The six library calls of a conversion that succeeds, in order. *)
Definition pipeline_calls (kmz_path kml img : string) (ds : Dataset)
    (gcps : list GCP) : list call :=
  [ZipExtractAll kmz_path (tmp_dir_of P kmz_path);
   EtParse (Path.join (tmp_dir_of P kmz_path) kml);
   GdalOpen img;
   GdalTranslate (tmp_tif_of P kmz_path) ds gcps "EPSG:4326";
   GdalWarp (out_tif_of P kmz_path) (tmp_tif_of P kmz_path) "EPSG:4326" true
     creation_options;
   OsRemove (tmp_tif_of P kmz_path)].

End Stages.

(** * A second folder, with archives that fail in other ways *)

Module Folder.

Definition quad4 : string :=
  "-122.5,37.8,0 -122.4,37.8,0 -122.4,37.7,0 -122.5,37.7,0".

Definition icon (href : option string) : Element :=
  Elem (qname kml_ns "Icon") None [Elem (qname kml_ns "href") href []].

Definition quad (coordinates : option string) : Element :=
  Elem (qname gx_ns "LatLonQuad") None
    [Elem (qname kml_ns "coordinates") coordinates []].

Definition kml (children : list Element) : Element :=
  Elem (qname kml_ns "kml") None children.

Definition overlay (children : list Element) : Element :=
  Elem (qname kml_ns "GroundOverlay") None children.

(** A well-formed descriptor. *)
Definition kml_good : Element :=
  kml [overlay [icon (Some "img.png"); quad (Some quad4)]].

(** An overlay placed by a box, not by a quad. *)
Definition kml_noquad : Element :=
  kml [overlay [icon (Some "img.png"); Elem (qname kml_ns "LatLonBox") None []]].

(** A quad, but in a photo overlay: there is no ground overlay. *)
Definition kml_nooverlay : Element :=
  kml [Elem (qname kml_ns "PhotoOverlay") None [icon (Some "img.png"); quad (Some quad4)]].

(** Four points of one field each. *)
Definition kml_short : Element :=
  kml [overlay [icon (Some "img.png"); quad (Some "1 2 3 4")]].

(** An empty coordinates element. *)
Definition kml_notext : Element :=
  kml [overlay [icon (Some "img.png"); quad None]].

Definition platform : Platform := {|
  SCRIPT_DIR := "/in";
  timestamp := "01/02/2027 10:20:30";
  zip_members := Sample.table
    [("zip-good",      [("doc.kml", "kml-good"); ("img.png", "png")]);
     ("zip-nokml",     [("img.png", "png"); ("notes.txt", "text")]);
     ("zip-noquad",    [("doc.kml", "kml-noquad"); ("img.png", "png")]);
     ("zip-noimage",   [("Doc.KML", "kml-good")]);
     ("zip-nooverlay", [("doc.kml", "kml-nooverlay"); ("img.png", "png")]);
     ("zip-short",     [("doc.kml", "kml-short"); ("img.png", "png")]);
     ("zip-notext",    [("doc.kml", "kml-notext"); ("img.png", "png")])]
    (Exn BadZipFile "File is not a zip file");
  xml_root := Sample.table
    [("kml-good", kml_good); ("kml-noquad", kml_noquad);
     ("kml-nooverlay", kml_nooverlay); ("kml-short", kml_short);
     ("kml-notext", kml_notext)]
    (Exn ParseError "syntax error: line 1, column 0");
  raster_size := Sample.table [("png", (640, 480))]
    (Exn RuntimeError "not recognized as being in a supported file format");
  translate_output := fun ds _ _ => Ok ("gcps+" +:+ ds_data ds);
  warp_output := fun data _ _ _ => Ok ("geotiff of " +:+ data)
|}.

Definition files : gmap string node :=
  list_to_map
    [("/in", Dir); ("/in/Converted GeoTIFFs", Dir);
     ("/in/site.kmz", File "zip-good");
     ("/in/site_with_gcps.kmz", File "zip-good");
     ("/in/Converted GeoTIFFs/site_with_gcps.tif", File "an earlier output");
     ("/in/nokml.kmz", File "zip-nokml");
     ("/in/noquad.kmz", File "zip-noquad");
     ("/in/noimage.kmz", File "zip-noimage");
     ("/in/nooverlay.kmz", File "zip-nooverlay");
     ("/in/short.kmz", File "zip-short");
     ("/in/notext.kmz", File "zip-notext")].

Definition world : World := initial_world files.

End Folder.

(** * Examples, lemmas and the claims *)

Example basename_ex : Path.basename "/srv/maps/Site A.kmz" = "Site A.kmz".
Proof. reflexivity. Qed.
Example splitext_ex : Path.splitext "Site A.kmz" = ("Site A", ".kmz").
Proof. reflexivity. Qed.
Example splitext_hidden : Path.splitext ".kmz" = (".kmz", "").
Proof. reflexivity. Qed.
Example splitext_dots : Path.splitext "a.b.KMZ" = ("a.b", ".KMZ").
Proof. reflexivity. Qed.
Example join_ex : Path.join "/srv/out" "_temp" = "/srv/out/_temp".
Proof. reflexivity. Qed.
Example join_abs : Path.join "/srv/out" "/etc/x" = "/etc/x".
Proof. reflexivity. Qed.
Example ancestors_ex :
  Path.ancestors "/srv/out/_temp/a" = ["/srv"; "/srv/out"; "/srv/out/_temp"].
Proof. reflexivity. Qed.
Example split_ws_ex :
  Str.split_ws ("  a,b   c" +:+ String "010" (String "009" " d ")) = ["a,b"; "c"; "d"].
Proof. reflexivity. Qed.
Example split_on_ex : Str.split_on "," "1,,2," = ["1"; ""; "2"; ""].
Proof. reflexivity. Qed.
Example endswith_ex : Str.endswith (Str.lower "Site.KMZ") ".kmz" = true.
Proof. reflexivity. Qed.

Example float_ex1 : PyFloat.of_string "-122.5" = Some (PyFloat.Finite true 1225 (-1)).
Proof. reflexivity. Qed.
Example float_ex2 : PyFloat.of_string "1_0.e-3" = Some (PyFloat.Finite false 10 (-3)).
Proof. reflexivity. Qed.
Example float_ex3 : PyFloat.of_string ".5E2" = Some (PyFloat.Finite false 5 1).
Proof. reflexivity. Qed.
Example float_ex4 : PyFloat.of_string "-Infinity" = Some (PyFloat.Inf true).
Proof. reflexivity. Qed.
Example float_bad :
  map PyFloat.of_string [""; "."; "abc"; "1_"; "1__0"; "1e"; "0x10"; "1.5.2"; "--1"; "1 2"]
  = [None; None; None; None; None; None; None; None; None; None].
Proof. reflexivity. Qed.

Example parse_coords_ex :
  parse_coords "-122.5,37.8,0 -122.4,37.8,0 -122.4,37.7,0 -122.5,37.7,0" =
  Ok [[PyFloat.Finite true 1225 (-1); PyFloat.Finite false 378 (-1); PyFloat.Finite false 0 0];
      [PyFloat.Finite true 1224 (-1); PyFloat.Finite false 378 (-1); PyFloat.Finite false 0 0];
      [PyFloat.Finite true 1224 (-1); PyFloat.Finite false 377 (-1); PyFloat.Finite false 0 0];
      [PyFloat.Finite true 1225 (-1); PyFloat.Finite false 377 (-1); PyFloat.Finite false 0 0]].
Proof. reflexivity. Qed.

(** * Reasoning about the monad *)

Lemma run_bind {A B} (m : M A) (f : A -> M B) (w : World) :
  (m ≫= f) w =
  match m w with
  | (Ok x, w') => f x w'
  | (Raise e, w') => (Raise e, w')
  end.
Proof. reflexivity. Qed.

Lemma run_bind_assoc {A B C} (m : M A) (f : A -> M B) (g : B -> M C) (w : World) :
  ((m ≫= f) ≫= g) w = (m ≫= (fun x => f x ≫= g)) w.
Proof. rewrite !run_bind. by destruct (m w) as [[x|e] w1]. Qed.

Lemma run_try_except {A} (body : M A) (h : exn -> M A) (w : World) :
  try_except body h w =
  match body w with
  | (Ok x, w') => (Ok x, w')
  | (Raise e, w') => h e w'
  end.
Proof. reflexivity. Qed.

Lemma run_for_each_cons {A} (x : A) (l : list A) (body : A -> M unit) (w : World) :
  for_each (x :: l) body w =
  match body x w with
  | (Ok _, w') => for_each l body w'
  | (Raise e, w') => (Raise e, w')
  end.
Proof. reflexivity. Qed.

Section Preserves.

Context (R : relation World) `{!PreOrder R}.

Lemma preserves_ret {A} (x : A) : preserves R (mret x).
Proof. intros w. reflexivity. Qed.

Lemma preserves_raise {A} (e : exn) : preserves R (@raise A e).
Proof. intros w. reflexivity. Qed.

Lemma preserves_lift {A} (r : result A) : preserves R (lift r).
Proof. intros w. reflexivity. Qed.

Lemma preserves_get_fs : preserves R get_fs.
Proof. intros w. reflexivity. Qed.

Lemma preserves_get_success_list : preserves R get_success_list.
Proof. intros w. reflexivity. Qed.

Lemma preserves_get_skipped_list : preserves R get_skipped_list.
Proof. intros w. reflexivity. Qed.

Lemma preserves_get_failed_list : preserves R get_failed_list.
Proof. intros w. reflexivity. Qed.

Lemma preserves_bind {A B} (m : M A) (f : A -> M B) :
  preserves R m -> (forall x, preserves R (f x)) -> preserves R (m ≫= f).
Proof.
  intros Hm Hf w. rewrite run_bind.
  specialize (Hm w). destruct (m w) as [[x|e] w1]; simpl in *.
  - etrans; [exact Hm | apply Hf].
  - exact Hm.
Qed.

Lemma preserves_try_except {A} (body : M A) (h : exn -> M A) :
  preserves R body -> (forall e, preserves R (h e)) ->
  preserves R (try_except body h).
Proof.
  intros Hb Hh w. rewrite run_try_except.
  specialize (Hb w). destruct (body w) as [[x|e] w1]; simpl in *.
  - exact Hb.
  - etrans; [exact Hb | apply Hh].
Qed.

Lemma preserves_for_each {A} (l : list A) (body : A -> M unit) :
  (forall x, x ∈ l -> preserves R (body x)) -> preserves R (for_each l body).
Proof.
  induction l as [|x l IH]; intros Hb.
  - apply preserves_ret.
  - simpl. apply preserves_bind.
    + apply Hb. left.
    + intros _. apply IH. intros y Hy. apply Hb. by right.
Qed.

End Preserves.

Create HintDb frame.

(** Decomposition of a monadic program along its structure; what is left
    are the primitive operations, closed from the hint database [frame]. *)
Ltac frame_step :=
  lazymatch goal with
  | |- preserves _ (mbind _ _) => apply preserves_bind; [ try apply _ | | intros ? ]
  | |- preserves _ (mret _) => apply preserves_ret; try apply _
  | |- preserves _ (raise _) => apply preserves_raise; try apply _
  | |- preserves _ (lift _) => apply preserves_lift; try apply _
  | |- preserves _ get_fs => apply preserves_get_fs; try apply _
  | |- preserves _ get_success_list => apply preserves_get_success_list; try apply _
  | |- preserves _ get_skipped_list => apply preserves_get_skipped_list; try apply _
  | |- preserves _ get_failed_list => apply preserves_get_failed_list; try apply _
  | |- preserves _ (try_except _ _) =>
      apply preserves_try_except; [ try apply _ | | intros ? ]
  | |- preserves _ (for_each _ _) =>
      apply preserves_for_each; [ try apply _ | intros ? ? ]
  | |- preserves _ (match ?x with _ => _ end) => destruct x
  | |- preserves _ (let '(_, _) := ?x in _) => destruct x
  end.

Ltac frame := repeat frame_step; eauto with frame.

Global Instance same_lists_preorder : PreOrder same_lists.
Proof.
  split.
  - intros w. by repeat split.
  - intros w1 w2 w3 (?&?&?) (?&?&?). repeat split; congruence.
Qed.

Global Instance same_stdout_preorder : PreOrder same_stdout.
Proof. split; [intros w; reflexivity | intros w1 w2 w3; unfold same_stdout; congruence]. Qed.

Global Instance dirs_kept_preorder : PreOrder dirs_kept.
Proof. split; [intros w d; auto | intros w1 w2 w3 H12 H23 d Hd; auto]. Qed.

Global Instance same_node_preorder k : PreOrder (same_node k).
Proof. split; [intros w; reflexivity | intros w1 w2 w3; unfold same_node; congruence]. Qed.

Global Instance same_encoder_calls_preorder : PreOrder same_encoder_calls.
Proof.
  split; [intros w; reflexivity | intros w1 w2 w3; unfold same_encoder_calls; congruence].
Qed.

Global Instance same_fs_preorder : PreOrder same_fs.
Proof. split; [intros w; reflexivity | intros w1 w2 w3; unfold same_fs; congruence]. Qed.

Global Instance same_calls_preorder : PreOrder same_calls.
Proof. split; [intros w; reflexivity | intros w1 w2 w3; unfold same_calls; congruence]. Qed.

Global Instance calls_grow_preorder : PreOrder calls_grow.
Proof.
  split.
  - intros w. unfold calls_grow. reflexivity.
  - intros w1 w2 w3 H12 H23. unfold calls_grow in *. by etrans.
Qed.

(** The primitive operations are run symbolically: one case per shape of
    the node they look at. *)
Ltac run_primitive :=
  let w := fresh "w" in
  intros w;
  cbv [Os.path_exists Os.mkdir_exist_ok Os.listdir Os.read_file Os.write_file
       Os.append_file Os.remove gdal_read gdal_write trace print
       success_list_append failed_list_append skipped_list_append
       mbind M_bind mret M_ret get_fs set_fs raise lift];
  cbn [fs success_list failed_list skipped_list stdout calls snd fst];
  repeat (case_match; cbn [fs success_list failed_list skipped_list stdout calls snd fst]).

Ltac fs_case d :=
  lazymatch goal with
  | |- <[?p := _]> _ !! _ = _ =>
      let e := fresh "e" in
      destruct (decide (p = d)) as [e|];
      [congruence | by rewrite lookup_insert_ne]
  | |- delete ?p _ !! _ = _ =>
      let e := fresh "e" in
      destruct (decide (p = d)) as [e|];
      [congruence | by rewrite lookup_delete_ne]
  | _ => assumption
  end.

Global Hint Extern 5 (preserves same_lists _) =>
  solve [run_primitive; by repeat split] : frame.
Global Hint Extern 5 (preserves same_stdout _) =>
  solve [run_primitive; reflexivity] : frame.
Global Hint Extern 5 (preserves same_fs _) =>
  solve [run_primitive; reflexivity] : frame.
Global Hint Extern 5 (preserves same_calls _) =>
  solve [run_primitive; reflexivity] : frame.
Global Hint Extern 5 (preserves same_encoder_calls _) =>
  solve [run_primitive; unfold same_encoder_calls, encoder_calls; cbn [calls];
         rewrite ?List.filter_app; cbn; by rewrite ?app_nil_r] : frame.
Global Hint Extern 5 (preserves calls_grow _) =>
  solve [run_primitive; unfold calls_grow; cbn [calls];
         first [reflexivity | by apply prefix_app_r]] : frame.
Global Hint Extern 5 (preserves dirs_kept _) =>
  solve [run_primitive; let d := fresh "d" in let Hd := fresh "Hd" in
         intros d Hd; cbn [fs]; fs_case d] : frame.

Global Instance same_failed_skipped_preorder : PreOrder same_failed_skipped.
Proof.
  split.
  - intros w. by split.
  - intros w1 w2 w3 (?&?) (?&?). split; congruence.
Qed.

Global Hint Extern 5 (preserves same_failed_skipped _) =>
  solve [run_primitive; by split] : frame.

(** ** Frames of the library calls and of the stages of [convert_kmz] *)

Ltac unfold_script :=
  unfold convert_body, rectify_and_encode, read_descriptor, open_descriptor,
    gdal_Warp, gdal_Translate, gdal_Open, ET_parse, zip_extractall,
    extract_member, Os.makedirs.

Ltac script_frame := unfold_script; frame.

Section ScriptFrames.

Context (P : Platform).

Lemma open_descriptor_lists kmz base :
  preserves same_lists (open_descriptor P kmz base).
Proof. script_frame. Qed.

Lemma open_descriptor_stdout kmz base :
  preserves same_stdout (open_descriptor P kmz base).
Proof. script_frame. Qed.

Lemma open_descriptor_encoder kmz base :
  preserves same_encoder_calls (open_descriptor P kmz base).
Proof. script_frame. Qed.

Lemma read_descriptor_lists tmp_dir root :
  preserves same_lists (read_descriptor tmp_dir root).
Proof. script_frame. Qed.

Lemma read_descriptor_stdout tmp_dir root :
  preserves same_stdout (read_descriptor tmp_dir root).
Proof. script_frame. Qed.

Lemma read_descriptor_fs tmp_dir root :
  preserves same_fs (read_descriptor tmp_dir root).
Proof. script_frame. Qed.

Lemma read_descriptor_calls tmp_dir root :
  preserves same_calls (read_descriptor tmp_dir root).
Proof. script_frame. Qed.

Lemma convert_body_failed_skipped kmz base out_tif :
  preserves same_failed_skipped (convert_body P kmz base out_tif).
Proof. script_frame. Qed.

Lemma convert_body_dirs kmz base out_tif :
  preserves dirs_kept (convert_body P kmz base out_tif).
Proof. script_frame. Qed.

Lemma convert_body_calls_grow kmz base out_tif :
  preserves calls_grow (convert_body P kmz base out_tif).
Proof. script_frame. Qed.

End ScriptFrames.

(** ** What the library calls leave behind when they succeed *)

(** One step of symbolic execution: run the first command of a sequence
    and name its result, the exception it may raise and the world it
    leaves. *)
Tactic Notation "step" "as" simple_intropattern(x) ident(e) ident(w1) ident(E) :=
  rewrite run_bind;
  lazymatch goal with
  | |- context [match ?m ?w with _ => _ end] =>
      destruct (m w) as [[x|e] w1] eqn:E
  end.

Tactic Notation "step" "in" hyp(H) "as" simple_intropattern(x) ident(e) ident(w1) ident(E) :=
  rewrite run_bind in H;
  lazymatch type of H with
  | context [match ?m ?w with _ => _ end] =>
      destruct (m w) as [[x|e] w1] eqn:E
  end.

Ltac framed R m w E :=
  let F := fresh "F" in
  assert (F : preserves R m) by script_frame;
  specialize (F w); rewrite E in F; cbn [snd] in F.

Section LibraryCalls.

Context (P : Platform).

Lemma gdal_write_ok p data w w' :
  gdal_write p data w = (Ok tt, w') -> fs w' = <[p := File data]> (fs w).
Proof.
  cbv [gdal_write mbind M_bind get_fs set_fs raise].
  repeat case_match; intros [= <-]; reflexivity.
Qed.

Lemma gdal_Warp_ok dst src srs tps opts w w' :
  gdal_Warp P dst src srs tps opts w = (Ok tt, w') ->
  exists data, fs w' !! dst = Some (File data).
Proof.
  unfold gdal_Warp. intros H.
  step in H as [] e1 w1 E1; [|discriminate].
  step in H as data e2 w2 E2; [|discriminate].
  step in H as out e3 w3 E3; [|discriminate].
  apply gdal_write_ok in H. eexists. rewrite H. apply lookup_insert_eq.
Qed.

Lemma gdal_Translate_ok dst ds gcps srs w w' :
  gdal_Translate P dst ds gcps srs w = (Ok tt, w') ->
  exists data, fs w' !! dst = Some (File data).
Proof.
  unfold gdal_Translate. intros H.
  step in H as [] e1 w1 E1; [|discriminate].
  step in H as out e2 w2 E2; [|discriminate].
  apply gdal_write_ok in H. eexists. rewrite H. apply lookup_insert_eq.
Qed.

(** A warp that raises has written nothing. *)
Lemma gdal_Warp_raise dst src srs tps opts w e w' :
  gdal_Warp P dst src srs tps opts w = (Raise e, w') -> fs w' = fs w.
Proof.
  cbv [gdal_Warp trace gdal_read gdal_write lift mbind M_bind mret M_ret
       get_fs set_fs raise].
  cbn [fs]. repeat case_match; intros Hrun; simplify_eq; reflexivity.
Qed.

(** The defect behind C5, in general: when [gdal.Translate] has written the
    intermediate file and [gdal.Warp] then raises, the intermediate file is
    still there, and the handler does not touch the file system. *)
Lemma failed_warp_keeps_intermediate tmp_tif out_tif ds gcps w w1 e w2 :
  gdal_Translate P tmp_tif ds gcps "EPSG:4326" w = (Ok tt, w1) ->
  gdal_Warp P out_tif tmp_tif "EPSG:4326" true creation_options w1 = (Raise e, w2) ->
  exists data, fs w2 !! tmp_tif = Some (File data).
Proof.
  intros [data Ht]%gdal_Translate_ok Hw%gdal_Warp_raise.
  exists data. by rewrite Hw.
Qed.

Lemma remove_ok p w w' :
  Os.remove p w = (Ok tt, w') -> fs w' = delete p (fs w).
Proof.
  cbv [Os.remove trace mbind M_bind get_fs set_fs raise]. cbn [fs].
  repeat case_match; intros [= <-]; reflexivity.
Qed.

Lemma makedirs_ok p w w' :
  Os.makedirs p w = (Ok tt, w') -> fs w' !! p = Some Dir.
Proof.
  unfold Os.makedirs. generalize (Path.ancestors p) as l.
  intros l; revert w. induction l as [|d l IH]; intros w; cbn [app].
  - rewrite run_for_each_cons.
    cbv [Os.mkdir_exist_ok mbind M_bind get_fs set_fs raise mret M_ret for_each].
    destruct (fs w !! p) as [[|data]|] eqn:Hp; intros H; simplify_eq/=.
    + exact Hp.
    + apply lookup_insert_eq.
  - rewrite run_for_each_cons.
    destruct (Os.mkdir_exist_ok d w) as [[[]|e] w1]; [apply IH | discriminate].
Qed.

(** The last stage of a conversion: either it raises, and then nothing
    was recorded, or it ends with the output written, the intermediate
    file gone and the base name recorded as a success. *)
Lemma rectify_and_encode_outcome base out_tif coords img w :
  let tmp_tif := Path.join (OUTPUT_FOLDER P) (base +:+ "_with_gcps.tif") in
  match rectify_and_encode P base out_tif coords img w with
  | (Ok _, w1) =>
      success_list w1 = success_list w ++ [base] /\
      fs w1 !! tmp_tif = None /\
      (out_tif <> tmp_tif -> exists data, fs w1 !! out_tif = Some (File data))
  | (Raise _, w1) => success_list w1 = success_list w
  end.
Proof.
  intros tmp_tif. unfold rectify_and_encode. fold tmp_tif.
  step as ds e0 w0 E0.
  2:{ framed same_lists (gdal_Open P img) w E0. by destruct F. }
  framed same_lists (gdal_Open P img) w E0. destruct F as (Hs0 & _).
  destruct ds as [ds|]; [|exact Hs0].
  step as gcps e1 w1 E1; cbv [lift] in E1; simplify_eq; [|exact Hs0].
  step as [] e2 w2 E2;
    framed same_lists (gdal_Translate P tmp_tif ds gcps "EPSG:4326") w1 E2;
    destruct F as (Hs2 & _); [|congruence].
  step as [] e3 w3 E3;
    framed same_lists
      (gdal_Warp P out_tif tmp_tif "EPSG:4326" true creation_options) w2 E3;
    destruct F as (Hs3 & _); [|congruence].
  apply gdal_Warp_ok in E3 as [data Hout].
  step as [] e4 w4 E4;
    framed same_lists (Os.remove tmp_tif) w3 E4;
    destruct F as (Hs4 & _); [|congruence].
  apply remove_ok in E4.
  cbv [success_list_append print mbind M_bind]. cbn [success_list fs].
  split; [congruence|]. rewrite E4. split.
  - apply lookup_delete_eq.
  - intros Hne. exists data. by rewrite lookup_delete_ne.
Qed.

End LibraryCalls.

(** ** Paths of one conversion *)

Lemma startswith_nil (s : string) : Str.startswith s "" = true.
Proof. by destruct s. Qed.

Lemma startswith_sep_app (b s1 s2 : string) :
  Str.startswith s1 "/" = false -> Str.startswith s2 "/" = false ->
  Str.startswith (b +:+ s1) "/" = Str.startswith (b +:+ s2) "/".
Proof.
  intros H1 H2. destruct b as [|c b].
  - change (Str.startswith s1 "/" = Str.startswith s2 "/"). congruence.
  - change (String c b +:+ s1) with (String c (b +:+ s1)).
    change (String c b +:+ s2) with (String c (b +:+ s2)).
    cbn [Str.startswith]. by rewrite !startswith_nil.
Qed.

(** Two names made of the same stem and of different relative endings are
    joined to different paths. *)
Lemma join_stem_inj (a b s1 s2 : string) :
  Str.startswith s1 "/" = false -> Str.startswith s2 "/" = false ->
  Path.join a (b +:+ s1) = Path.join a (b +:+ s2) -> s1 = s2.
Proof.
  intros H1 H2. unfold Path.join.
  rewrite (startswith_sep_app b s1 s2 H1 H2).
  destruct (Str.startswith (b +:+ s2) "/").
  - apply (inj (String.app b)).
  - destruct (bool_decide (a = "") || Str.endswith a "/").
    + intros H. apply (inj (String.app a)) in H. by apply (inj (String.app b)) in H.
    + intros H. apply (inj (String.app a)) in H. apply (inj (String.app "/")) in H.
      by apply (inj (String.app b)) in H.
Qed.

Section PathsFacts.

Context (P : Platform).

(** The intermediate file is never the output file. *)
Lemma out_tif_ne_tmp_tif kmz_path : out_tif_of P kmz_path <> tmp_tif_of P kmz_path.
Proof.
  unfold out_tif_of, tmp_tif_of. intros H.
  apply join_stem_inj in H; [discriminate | reflexivity | reflexivity].
Qed.

End PathsFacts.

Section ConversionFacts.

Context (P : Platform).

Lemma convert_kmz_skip kmz_path w :
  is_Some (fs w !! out_tif_of P kmz_path) ->
  convert_kmz P kmz_path w = (Ok tt, skipped kmz_path w).
Proof.
  intros Hex. unfold convert_kmz. rewrite run_bind.
  cbv [Os.path_exists mbind M_bind get_fs mret M_ret].
  by rewrite bool_decide_eq_true_2.
Qed.

Lemma convert_kmz_run kmz_path w :
  fs w !! out_tif_of P kmz_path = None ->
  convert_kmz P kmz_path w =
  match body_of P kmz_path (announced kmz_path w) with
  | (Ok x, w1) => (Ok x, w1)
  | (Raise e, w1) => (Ok tt, failed kmz_path e w1)
  end.
Proof.
  intros Hno. unfold convert_kmz. rewrite run_bind.
  cbv [Os.path_exists mbind M_bind get_fs mret M_ret].
  rewrite bool_decide_eq_false_2 by (rewrite Hno; by intros [? ?]).
  cbv [print]. rewrite run_try_except. reflexivity.
Qed.

(** How the [try] block ends: with everything done and the success
    recorded, or with an exception and no list touched. *)
Lemma convert_body_outcome kmz_path w :
  match body_of P kmz_path w with
  | (Ok _, w1) =>
      success_list w1 = success_list w ++ [base_of kmz_path] /\
      failed_list w1 = failed_list w /\
      skipped_list w1 = skipped_list w /\
      fs w1 !! tmp_tif_of P kmz_path = None /\
      exists data, fs w1 !! out_tif_of P kmz_path = Some (File data)
  | (Raise _, w1) => same_lists w w1
  end.
Proof.
  pose proof (convert_body_failed_skipped P kmz_path (base_of kmz_path)
                (out_tif_of P kmz_path) w) as Hfs.
  unfold body_of in *. unfold convert_body in *.
  rewrite run_bind in *.
  pose proof (open_descriptor_lists P kmz_path (base_of kmz_path) w) as F1.
  destruct (open_descriptor P kmz_path (base_of kmz_path) w)
    as [[[tmp_dir root]|e1] w1]; cbn [snd] in *; [|exact F1].
  rewrite run_bind in *.
  pose proof (read_descriptor_lists tmp_dir root w1) as F2.
  destruct (read_descriptor tmp_dir root w1)
    as [[[coords img]|e2] w2]; cbn [snd] in *; [|by etrans].
  pose proof (rectify_and_encode_outcome P (base_of kmz_path)
                (out_tif_of P kmz_path) coords img w2) as F3.
  cbv zeta in F3.
  destruct (rectify_and_encode P (base_of kmz_path) (out_tif_of P kmz_path)
              coords img w2) as [[[]|e3] w3]; cbn [snd] in *.
  - destruct F1 as (S1 & _), F2 as (S2 & _), F3 as (S3 & Htmp & Hout),
      Hfs as (Hf & Hk).
    repeat split; [congruence | exact Hf | exact Hk | exact Htmp |].
    apply Hout, out_tif_ne_tmp_tif.
  - destruct F1 as (S1 & _), F2 as (S2 & _), Hfs as (Hf & Hk).
    repeat split; congruence.
Qed.

End ConversionFacts.

(** * The claims *)

Section Claims.

Context (P : Platform).

(** Every conversion returns normally, having done exactly one of three
    things. *)
Lemma convert_kmz_cases kmz_path w :
  (is_Some (fs w !! out_tif_of P kmz_path) /\
   convert_kmz P kmz_path w = (Ok tt, skipped kmz_path w))
  \/
  (fs w !! out_tif_of P kmz_path = None /\
   exists w1,
     body_of P kmz_path (announced kmz_path w) = (Ok tt, w1) /\
     convert_kmz P kmz_path w = (Ok tt, w1))
  \/
  (fs w !! out_tif_of P kmz_path = None /\
   exists e w1,
     body_of P kmz_path (announced kmz_path w) = (Raise e, w1) /\
     convert_kmz P kmz_path w = (Ok tt, failed kmz_path e w1)).
Proof.
  destruct (fs w !! out_tif_of P kmz_path) as [n|] eqn:Hout.
  - left. split; [by eexists|]. apply convert_kmz_skip. rewrite Hout. by eexists.
  - right. rewrite (convert_kmz_run P kmz_path w Hout).
    destruct (body_of P kmz_path (announced kmz_path w)) as [[[]|e] w1] eqn:Hb.
    + left. split; [done|]. by exists w1.
    + right. split; [done|]. by exists e, w1.
Qed.

(** C2. When the output file of an archive already exists, converting the
    archive does nothing but record it as skipped: the file system
    (the existing output included) is unchanged, no library is called (no
    extraction, no parsing, no encoding), the base name goes to the end of
    the skipped list, and the success and failure lists are untouched. *)
Theorem existing_output_is_skipped kmz_path w :
  is_Some (fs w !! out_tif_of P kmz_path) ->
  exists w',
    convert_kmz P kmz_path w = (Ok tt, w') /\
    fs w' = fs w /\
    calls w' = calls w /\
    skipped_list w' = skipped_list w ++ [base_of kmz_path] /\
    success_list w' = success_list w /\
    failed_list w' = failed_list w.
Proof.
  intros Hex. exists (skipped kmz_path w).
  split; [by apply convert_kmz_skip|]. by repeat split.
Qed.

(** A conversion that succeeded leaves the output in place, so converting
    the same archive again takes the skip path. *)
Lemma convert_again_after_success kmz_path w w1 :
  fs w !! out_tif_of P kmz_path = None ->
  body_of P kmz_path (announced kmz_path w) = (Ok tt, w1) ->
  (convert_kmz P kmz_path ;; convert_kmz P kmz_path) w =
  (Ok tt, skipped kmz_path w1).
Proof.
  intros Hno Hb. rewrite run_bind, (convert_kmz_run P kmz_path w Hno), Hb.
  apply convert_kmz_skip.
  pose proof (convert_body_outcome P kmz_path (announced kmz_path w)) as H.
  rewrite Hb in H. destruct H as (_ & _ & _ & _ & data & ->). by eexists.
Qed.

(** C10. One call of [convert_kmz] returns normally and appends the base
    name to exactly one of the three lists.  Skip path: the skipped list,
    nothing else changes but the printed line.  Success path: the success
    list, and by then the output is written and the intermediate file is
    gone.  Any exception: the failed list.  In each case the two other
    lists are as before. *)
Theorem exactly_one_outcome kmz_path w :
  exists w',
    convert_kmz P kmz_path w = (Ok tt, w') /\
    ((is_Some (fs w !! out_tif_of P kmz_path) /\
      w' = skipped kmz_path w /\
      skipped_list w' = skipped_list w ++ [base_of kmz_path] /\
      success_list w' = success_list w /\
      failed_list w' = failed_list w)
     \/
     (body_of P kmz_path (announced kmz_path w) = (Ok tt, w') /\
      success_list w' = success_list w ++ [base_of kmz_path] /\
      skipped_list w' = skipped_list w /\
      failed_list w' = failed_list w /\
      fs w' !! tmp_tif_of P kmz_path = None /\
      exists data, fs w' !! out_tif_of P kmz_path = Some (File data))
     \/
     ((exists e w1, body_of P kmz_path (announced kmz_path w) = (Raise e, w1) /\
                    w' = failed kmz_path e w1) /\
      failed_list w' = failed_list w ++ [base_of kmz_path] /\
      success_list w' = success_list w /\
      skipped_list w' = skipped_list w)).
Proof.
  destruct (convert_kmz_cases kmz_path w)
    as [[Hex Hrun] | [[Hno (w1 & Hb & Hrun)] | [Hno (e & w1 & Hb & Hrun)]]].
  - exists (skipped kmz_path w). split; [exact Hrun|]. left. by repeat split.
  - exists w1. split; [exact Hrun|]. right; left.
    pose proof (convert_body_outcome P kmz_path (announced kmz_path w)) as H.
    rewrite Hb in H. destruct H as (Hs & Hf & Hk & Htmp & Hout).
    by repeat split.
  - exists (failed kmz_path e w1). split; [exact Hrun|]. right; right.
    pose proof (convert_body_outcome P kmz_path (announced kmz_path w)) as H.
    rewrite Hb in H. destruct H as (Hs & Hf & Hk).
    split; [by exists e, w1|]. cbn. cbn in Hs, Hf, Hk.
    repeat split; congruence.
Qed.

(** A conversion never turns a directory into something else, nor removes
    one. *)
Lemma convert_kmz_dirs kmz_path : preserves dirs_kept (convert_kmz P kmz_path).
Proof. unfold convert_kmz, on_failure. script_frame. Qed.

(** C9, as the code has it.  When the processing of an archive raises,
    the handler appends the base name (and nothing else) to the failure
    list, prints the description of the error in the status line of that
    archive, and the loop goes on with the next archive. *)
Theorem failure_is_recorded_and_run_goes_on kmz rest w e w1 :
  let kmz_path := Path.join (SCRIPT_DIR P) kmz in
  fs w !! out_tif_of P kmz_path = None ->
  body_of P kmz_path (announced kmz_path w) = (Raise e, w1) ->
  exists w',
    process P kmz w = (Ok tt, w') /\
    failed_list w' = failed_list w ++ [base_of kmz_path] /\
    stdout w' =
      stdout w1 ++ ["  ❌ Failed: " +:+ base_of kmz_path +:+ " → " +:+ str_of_exn e] /\
    for_each (kmz :: rest) (process P) w = for_each rest (process P) w'.
Proof.
  intros kmz_path Hno Hb. exists (failed kmz_path e w1).
  assert (Hrun : process P kmz w = (Ok tt, failed kmz_path e w1)).
  { unfold process. fold kmz_path.
    by rewrite (convert_kmz_run P kmz_path w Hno), Hb. }
  pose proof (convert_body_outcome P kmz_path (announced kmz_path w)) as H.
  rewrite Hb in H. destruct H as (_ & Hf & _). cbn in Hf.
  split; [exact Hrun|]. split; [cbn; congruence|]. split; [reflexivity|].
  by rewrite run_for_each_cons, Hrun.
Qed.

(** C3. When the coordinate text of the descriptor parses to a number of
    tuples other than four, the conversion fails with "LatLonQuad does not
    have 4 points": the archive is recorded as failed with that message,
    and neither [gdal.Translate] nor [gdal.Warp] is called for it. *)
Theorem wrong_point_count_fails kmz_path w tmp_dir root w1 quad text coords :
  fs w !! out_tif_of P kmz_path = None ->
  open_descriptor P kmz_path (base_of kmz_path) (announced kmz_path w)
    = (Ok (tmp_dir, root), w1) ->
  ET.find latlon_quad_path root = Some quad ->
  ET.text quad = Some text ->
  parse_coords text = Ok coords ->
  length coords <> 4%nat ->
  exists w',
    convert_kmz P kmz_path w = (Ok tt, w') /\
    w' = failed kmz_path
           (Exn PlainException "LatLonQuad does not have 4 points") w1 /\
    failed_list w' = failed_list w ++ [base_of kmz_path] /\
    success_list w' = success_list w /\
    skipped_list w' = skipped_list w /\
    encoder_calls w' = encoder_calls w.
Proof.
  intros Hno Hopen Hquad Htext Hparse Hlen.
  eexists. split; [|split; [reflexivity|]].
  - rewrite (convert_kmz_run P kmz_path w Hno).
    unfold body_of, convert_body. rewrite run_bind, Hopen.
    rewrite run_bind. unfold read_descriptor. rewrite Hquad, Htext.
    cbn [attr_of]. rewrite run_bind. cbv [lift]. rewrite run_bind, Hparse.
    apply Nat.eqb_neq in Hlen. rewrite Hlen. reflexivity.
  - pose proof (open_descriptor_lists P kmz_path (base_of kmz_path)
                  (announced kmz_path w)) as (Hs & Hf & Hk).
    pose proof (open_descriptor_encoder P kmz_path (base_of kmz_path)
                  (announced kmz_path w)) as Henc.
    rewrite Hopen in Hs, Hf, Hk, Henc. cbn in Hs, Hf, Hk. cbn [snd] in Henc.
    cbn. repeat split; [congruence | congruence | congruence |].
    exact Henc.
Qed.

(** C1. For an image that opens with size (W, H) and four corner points
    (each a longitude, a latitude and possibly more fields), the
    rectification builds exactly four ground-control points: corner 0 at
    pixel (0, H), corner 1 at (W, H), corner 2 at (W, 0), corner 3 at
    (0, 0), each with Z = 0; and these are the points handed to
    [gdal.Translate]. *)
Theorem gcps_bind_corners base out_tif img data W H w
    lon0 lat0 z0 lon1 lat1 z1 lon2 lat2 z2 lon3 lat3 z3 :
  fs w !! img = Some (File data) ->
  raster_size P data = Ok (W, H) ->
  let coords := [lon0 :: lat0 :: z0; lon1 :: lat1 :: z1;
                 lon2 :: lat2 :: z2; lon3 :: lat3 :: z3] in
  let gcps := [mkGCP lon0 lat0 0 0 H; mkGCP lon1 lat1 0 W H;
               mkGCP lon2 lat2 0 W 0; mkGCP lon3 lat3 0 0 0] in
  build_gcps coords W H = Ok gcps /\
  length gcps = 4%nat /\
  exists later,
    calls (snd (rectify_and_encode P base out_tif coords img w)) =
    calls w ++
    [GdalOpen img;
     GdalTranslate (Path.join (OUTPUT_FOLDER P) (base +:+ "_with_gcps.tif"))
       (mkDataset img data W H) gcps "EPSG:4326"] ++ later.
Proof.
  intros Himg Hsize coords gcps.
  assert (Hg : build_gcps coords W H = Ok gcps) by reflexivity.
  split; [exact Hg|]. split; [reflexivity|].
  unfold rectify_and_encode.
  assert (Hopen : gdal_Open P img w =
            (Ok (Some (mkDataset img data W H)),
             mkWorld (fs w) (success_list w) (failed_list w) (skipped_list w)
               (stdout w) (calls w ++ [GdalOpen img]))).
  { unfold gdal_Open, gdal_read.
    cbv [mbind M_bind trace get_fs lift mret M_ret]. cbn [fs].
    by rewrite Himg, Hsize. }
  rewrite run_bind, Hopen. cbn [RasterXSize RasterYSize].
  rewrite run_bind. cbv [lift]. rewrite Hg.
  unfold gdal_Translate at 1. rewrite run_bind_assoc, run_bind.
  cbv [trace].
  lazymatch goal with
  | |- context [snd (?m ?w2)] =>
      assert (F : preserves calls_grow m) by script_frame;
      destruct (F w2) as [later Hlater]
  end.
  exists later. rewrite Hlater. cbn [calls]. by rewrite <- !app_assoc.
Qed.

End Claims.

(** C2, at the sample folder in which "a.tif" already exists. *)
Lemma existing_output_is_skipped_witness :
  is_Some (fs Sample.world_with_output !! out_tif_of Sample.platform "/maps/a.kmz") /\
  exists w',
    convert_kmz Sample.platform "/maps/a.kmz" Sample.world_with_output = (Ok tt, w') /\
    fs w' = fs Sample.world_with_output /\
    calls w' = calls Sample.world_with_output /\
    skipped_list w' = skipped_list Sample.world_with_output ++ [base_of "/maps/a.kmz"] /\
    success_list w' = success_list Sample.world_with_output /\
    failed_list w' = failed_list Sample.world_with_output.
Proof.
  assert (H : is_Some (fs Sample.world_with_output
                         !! out_tif_of Sample.platform "/maps/a.kmz"))
    by (vm_compute; by eexists).
  split; [exact H|].
  exact (existing_output_is_skipped Sample.platform "/maps/a.kmz"
           Sample.world_with_output H).
Defined.

(** C4 as stated fails: after the conversion of "a.kmz", which succeeds,
    and after that of "b.KMZ", which fails, the working directory and the
    files extracted into it are still there. *)
Lemma working_area_left_behind :
  let w1 := snd (convert_kmz Sample.platform "/maps/a.kmz" Sample.world) in
  let w2 := snd (convert_kmz Sample.platform "/maps/b.KMZ" Sample.world) in
  (success_list w1 = ["a"] /\
   fs w1 !! tmp_dir_of Sample.platform "/maps/a.kmz" = Some Dir /\
   fs w1 !! "/maps/Converted GeoTIFFs/_temp/a/doc.kml" = Some (File "kml-good")) /\
  (failed_list w2 = ["b"] /\
   fs w2 !! tmp_dir_of Sample.platform "/maps/b.KMZ" = Some Dir /\
   fs w2 !! "/maps/Converted GeoTIFFs/_temp/b/doc.kml" = Some (File "kml-three")).
Proof. vm_compute. by repeat split. Qed.

(** C5 fails on the code.  "c.kmz" holds an image that GDAL translates but
    cannot warp: the conversion is recorded as failed and the intermediate
    file "c_with_gcps.tif" stays in the output folder. *)
Theorem intermediate_left_when_warp_fails :
  let w' := snd (convert_kmz Sample.platform "/maps/c.kmz" Sample.world) in
  failed_list w' = ["c"] /\
  success_list w' = [] /\
  last (stdout w') = Some "  ❌ Failed: c → JPEG compression failed" /\
  tmp_tif_of Sample.platform "/maps/c.kmz" = "/maps/Converted GeoTIFFs/c_with_gcps.tif" /\
  fs w' !! "/maps/Converted GeoTIFFs/c_with_gcps.tif" = Some (File "gcps+png16") /\
  fs w' !! "/maps/Converted GeoTIFFs/c.tif" = None /\
  List.filter (fun c => match c with OsRemove _ => true | _ => false end) (calls w') = [].
Proof. vm_compute. by repeat split. Qed.

(** C9 as stated fails: "d.kmz" is not a zip file; the failure list then
    holds the base name alone, and the description of the error is only in
    the printed status line. *)
Lemma failure_list_holds_names_only :
  let w' := snd (convert_kmz Sample.platform "/maps/d.kmz" Sample.world) in
  failed_list w' = ["d"] /\
  last (stdout w') = Some "  ❌ Failed: d → File is not a zip file" /\
  List.existsb (fun entry => Str.contains entry "File is not a zip file")
    (failed_list w') = false.
Proof. vm_compute. by repeat split. Qed.

(** C9 as amended, at "d.kmz" of the sample folder, followed by "a.kmz". *)
Lemma failure_is_recorded_and_run_goes_on_witness :
  exists w',
    process Sample.platform "d.kmz" Sample.world = (Ok tt, w') /\
    failed_list w' = failed_list Sample.world ++ [base_of "/maps/d.kmz"] /\
    stdout w' =
      stdout (snd (body_of Sample.platform "/maps/d.kmz"
                     (announced "/maps/d.kmz" Sample.world)))
      ++ ["  ❌ Failed: " +:+ base_of "/maps/d.kmz" +:+ " → " +:+
          str_of_exn (Exn BadZipFile "File is not a zip file")] /\
    for_each ["d.kmz"; "a.kmz"] (process Sample.platform) Sample.world =
    for_each ["a.kmz"] (process Sample.platform) w'.
Proof.
  apply (failure_is_recorded_and_run_goes_on Sample.platform "d.kmz" ["a.kmz"]
           Sample.world (Exn BadZipFile "File is not a zip file")
           (snd (body_of Sample.platform "/maps/d.kmz"
                   (announced "/maps/d.kmz" Sample.world)))).
  - vm_compute. reflexivity.
  - vm_compute. reflexivity.
Defined.

(** C3, at "b.KMZ" of the sample folder, whose descriptor has three
    points. *)
Lemma wrong_point_count_fails_witness :
  exists w',
    convert_kmz Sample.platform "/maps/b.KMZ" Sample.world = (Ok tt, w') /\
    w' = failed "/maps/b.KMZ"
           (Exn PlainException "LatLonQuad does not have 4 points")
           (snd (open_descriptor Sample.platform "/maps/b.KMZ" (base_of "/maps/b.KMZ")
                   (announced "/maps/b.KMZ" Sample.world))) /\
    failed_list w' = failed_list Sample.world ++ [base_of "/maps/b.KMZ"] /\
    success_list w' = success_list Sample.world /\
    skipped_list w' = skipped_list Sample.world /\
    encoder_calls w' = encoder_calls Sample.world.
Proof.
  apply (wrong_point_count_fails Sample.platform "/maps/b.KMZ" Sample.world
           "/maps/Converted GeoTIFFs/_temp/b"
           (Sample.kml_doc (Some "1,2 3,4 5,6") (Some "files/overlay.png"))
           (snd (open_descriptor Sample.platform "/maps/b.KMZ" (base_of "/maps/b.KMZ")
                   (announced "/maps/b.KMZ" Sample.world)))
           (Elem (qname kml_ns "coordinates") (Some "1,2 3,4 5,6") [])
           "1,2 3,4 5,6"
           [[PyFloat.Finite false 1 0; PyFloat.Finite false 2 0];
            [PyFloat.Finite false 3 0; PyFloat.Finite false 4 0];
            [PyFloat.Finite false 5 0; PyFloat.Finite false 6 0]]).
  - vm_compute. reflexivity.
  - vm_compute. reflexivity.
  - vm_compute. reflexivity.
  - reflexivity.
  - vm_compute. reflexivity.
  - simpl. lia.
Defined.

(** C1, at the 100 x 200 image of "a.kmz" in the sample folder, once the
    archive is extracted. *)
Lemma gcps_bind_corners_witness :
  let w := snd (open_descriptor Sample.platform "/maps/a.kmz" "a" Sample.world) in
  let x0 := PyFloat.Finite true 1225 (-1) in
  let x1 := PyFloat.Finite true 1224 (-1) in
  let y0 := PyFloat.Finite false 378 (-1) in
  let y1 := PyFloat.Finite false 377 (-1) in
  let z := [PyFloat.Finite false 0 0] in
  let coords := [x0 :: y0 :: z; x1 :: y0 :: z; x1 :: y1 :: z; x0 :: y1 :: z] in
  let gcps := [mkGCP x0 y0 0 0 200; mkGCP x1 y0 0 100 200;
               mkGCP x1 y1 0 100 0; mkGCP x0 y1 0 0 0] in
  build_gcps coords 100 200 = Ok gcps /\
  length gcps = 4%nat /\
  exists later,
    calls (snd (rectify_and_encode Sample.platform "a"
                  "/maps/Converted GeoTIFFs/a.tif" coords
                  "/maps/Converted GeoTIFFs/_temp/a/files/overlay.png" w)) =
    calls w ++
    [GdalOpen "/maps/Converted GeoTIFFs/_temp/a/files/overlay.png";
     GdalTranslate (Path.join (OUTPUT_FOLDER Sample.platform) ("a" +:+ "_with_gcps.tif"))
       (mkDataset "/maps/Converted GeoTIFFs/_temp/a/files/overlay.png" "png" 100 200)
       gcps "EPSG:4326"] ++ later.
Proof.
  intros w x0 x1 y0 y1 z.
  apply (gcps_bind_corners Sample.platform "a" "/maps/Converted GeoTIFFs/a.tif"
           "/maps/Converted GeoTIFFs/_temp/a/files/overlay.png" "png" 100 200 w
           x0 y0 z x1 y0 z x1 y1 z x0 y1 z).
  - vm_compute. reflexivity.
  - vm_compute. reflexivity.
Defined.

Lemma forallb_pointwise {A} (f g : A -> bool) (l : list A) :
  (forall x, f x = g x) -> forallb f l = forallb g l.
Proof. intros H. induction l as [|x l IH]; cbn; [reflexivity | by rewrite H, IH]. Qed.

Lemma traverse_is_ok {A B} (f : A -> result B) (l : list A) :
  is_ok (traverse f l) = forallb (fun x => is_ok (f x)) l.
Proof.
  induction l as [|x l IH]; [reflexivity|]. cbn.
  destruct (f x) as [y|e]; [|reflexivity]. cbn. rewrite <- IH.
  by destruct (traverse f l).
Qed.

Lemma traverse_length {A B} (f : A -> result B) (l : list A) (ys : list B) :
  traverse f l = Ok ys -> length ys = length l.
Proof.
  revert ys. induction l as [|x l IH]; intros ys; cbn.
  - by intros [= <-].
  - destruct (f x) as [y|e]; [|discriminate].
    destruct (traverse f l) as [ys'|e]; [|discriminate].
    intros [= <-]. cbn. f_equal. by apply IH.
Qed.

(** The exception of a failed traversal is that of one of its elements. *)
Lemma traverse_raise {A B} (f : A -> result B) (l : list A) (e : exn) :
  traverse f l = Raise e -> exists x, In x l /\ f x = Raise e.
Proof.
  induction l as [|x l IH]; cbn; [discriminate|].
  destruct (f x) as [y|e'] eqn:Hx.
  - destruct (traverse f l) as [ys|e'']; [discriminate|].
    intros [= <-]. destruct IH as (x' & Hin & Hx'); [reflexivity|].
    exists x'. by split; [right|].
  - intros [= <-]. exists x. by split; [left|].
Qed.

Lemma float_field_is_ok (field : string) : is_ok (float_field field) = numeric field.
Proof. unfold float_field, numeric. by destruct (PyFloat.of_string field). Qed.

Lemma subscript_lon_lat (point : list PyFloat.t) (i : nat) :
  (i < 2)%nat -> subscript "tuple" (lon_lat point) i = subscript "tuple" point i.
Proof.
  intros Hi. unfold subscript, lon_lat.
  destruct point as [|x [|y rest]]; destruct i as [|[|i]]; try reflexivity; lia.
Qed.

Lemma gcp_at_lon_lat coords i pixel line :
  gcp_at (map lon_lat coords) i pixel line = gcp_at coords i pixel line.
Proof.
  unfold gcp_at, subscript at 1 4. rewrite nth_error_map.
  destruct (nth_error coords i) as [c|]; cbn [option_map]; [|reflexivity].
  by rewrite !subscript_lon_lat by lia.
Qed.

(** C8, as the code has it.  A coordinate token is accepted exactly when
    every one of its comma-separated fields is numeric, whatever their
    number; a rejected token raises ValueError; an accepted point has as
    many coordinates as the token has fields; the coordinate text is
    accepted exactly when all its tokens are; and of an accepted point the
    ground-control points use the first two fields only. *)
Theorem coordinate_fields_are_numeric (c text : string)
    (coords : list (list PyFloat.t)) (W H : Z) :
  is_ok (parse_point c) = forallb numeric (Str.split_on "," c) /\
  match parse_point c with
  | Ok point => length point = length (Str.split_on "," c)
  | Raise e => exn_cls e = ValueError
  end /\
  is_ok (parse_coords text) =
    forallb (fun c => forallb numeric (Str.split_on "," c))
      (Str.split_ws (Str.strip text)) /\
  build_gcps coords W H = build_gcps (map lon_lat coords) W H.
Proof.
  assert (Hpoint : forall c, is_ok (parse_point c) = forallb numeric (Str.split_on "," c)).
  { intros c'. unfold parse_point. rewrite traverse_is_ok.
    apply forallb_pointwise. intros f. apply float_field_is_ok. }
  split; [apply Hpoint|]. split; [|split].
  - unfold parse_point. destruct (traverse float_field (Str.split_on "," c)) as [pt|e] eqn:Ht.
    + by apply traverse_length in Ht.
    + apply traverse_raise in Ht as (f & _ & Hf). unfold float_field in Hf.
      destruct (PyFloat.of_string f); [discriminate|]. by injection Hf as <-.
  - unfold parse_coords. rewrite traverse_is_ok. apply forallb_pointwise. intros c'. apply Hpoint.
  - unfold build_gcps. cbn [traverse]. by rewrite !gcp_at_lon_lat.
Qed.

(** C8 as stated fails: a token of four numeric fields is accepted as a
    point, and the archive "e.kmz", whose four points have four fields each,
    is converted; a token of a single field is accepted by the parser too. *)
Lemma four_field_token_is_accepted :
  parse_point "1,2,0,9" =
    Ok [PyFloat.Finite false 1 0; PyFloat.Finite false 2 0;
        PyFloat.Finite false 0 0; PyFloat.Finite false 9 0] /\
  success_list (snd (convert_kmz Sample.platform "/maps/e.kmz" Sample.world)) = ["e"] /\
  parse_point "7" = Ok [PyFloat.Finite false 7 0].
Proof. vm_compute. by repeat split. Qed.

(** * Paths the script writes to *)

Lemma app_cons (c : ascii) (s t : string) : String c s +:+ t = String c (s +:+ t).
Proof. reflexivity. Qed.

Lemma app_nil_l_str (s : string) : "" +:+ s = s.
Proof. reflexivity. Qed.

Lemma app_assoc_str (s t u : string) : (s +:+ t) +:+ u = s +:+ (t +:+ u).
Proof. induction s as [|c s IH]; [reflexivity|]. by rewrite !app_cons, IH. Qed.

Lemma rev_app_spec (s acc : string) : String.rev_app s acc = String.rev s +:+ acc.
Proof.
  unfold String.rev. revert acc. induction s as [|c s IH]; intros acc; [reflexivity|].
  cbn [String.rev_app]. rewrite IH, (IH (String c "")).
  by rewrite app_assoc_str.
Qed.

Lemma rev_cons (c : ascii) (s : string) :
  String.rev (String c s) = String.rev s +:+ String c "".
Proof. unfold String.rev at 1. cbn [String.rev_app]. apply rev_app_spec. Qed.

Lemma rev_app_distr_str (s t : string) :
  String.rev (s +:+ t) = String.rev t +:+ String.rev s.
Proof.
  induction s as [|c s IH].
  - rewrite app_nil_l_str. change (String.rev "") with "".
    induction (String.rev t) as [|a r IHr]; [reflexivity|]. by rewrite app_cons, <- IHr.
  - by rewrite app_cons, !rev_cons, IH, app_assoc_str.
Qed.

(** A path that ends in a character other than the separator. *)
Lemma endswith_sep_last (a : string) (c : ascii) :
  c <> "/"%char -> Str.endswith (a +:+ String c "") "/" = false.
Proof.
  intros Hc. unfold Str.endswith.
  rewrite rev_app_distr_str. change (String.rev (String c "")) with (String c "").
  change (String.rev "/") with "/". rewrite app_cons. cbn [Str.startswith].
  by rewrite bool_decide_eq_false_2 by congruence.
Qed.

(** Two texts that end in different characters differ. *)
Lemma app_last_inj (s t : string) (c d : ascii) :
  s +:+ String c "" = t +:+ String d "" -> c = d.
Proof.
  revert t. induction s as [|a s IH]; intros [|b t]; rewrite ?app_cons, ?app_nil_l_str.
  - by intros [= ->].
  - intros [= _ H]. destruct t; discriminate.
  - intros [= _ H]. destruct s; discriminate.
  - intros [= _ H]. by apply IH in H.
Qed.

Lemma join_relative (a' : string) (c : ascii) (b : string) :
  c <> "/"%char -> Str.startswith b "/" = false ->
  Path.join (a' +:+ String c "") b = (a' +:+ String c "") +:+ "/" +:+ b.
Proof.
  intros Hc Hb. unfold Path.join. rewrite Hb.
  rewrite bool_decide_eq_false_2 by (destruct a'; discriminate).
  by rewrite (endswith_sep_last a' c Hc).
Qed.

(** *** Base names have no separator *)

Lemma existsb_take f n s : Str.existsb f s = false -> Str.existsb f (Str.take n s) = false.
Proof.
  revert n. induction s as [|c s IH]; intros [|n]; cbn; try reflexivity.
  intros [-> H]%orb_false_iff. cbn. by apply IH.
Qed.

Lemma rfind_go_spec f s i best :
  (Str.existsb f s = false /\ Str.rfind_go f i best s = best) \/
  (exists k : nat, Str.rfind_go f i best s = i + Z.of_nat k /\
                   Str.existsb f (Str.drop (S k) s) = false).
Proof.
  revert i best. induction s as [|c s IH]; intros i best; cbn [Str.rfind_go Str.existsb].
  - by left.
  - destruct (IH (i + 1) (if f c then i else best)) as [[Hno Hr] | (k & Hr & Hno)].
    + destruct (f c) eqn:Hc.
      * right. exists 0%nat. rewrite Hr. split; [lia | exact Hno].
      * left. by rewrite Hno, Hr.
    + right. exists (S k). rewrite Hr. split; [lia | exact Hno].
Qed.

Lemma basename_no_sep p : Str.existsb Str.is_sep (Path.basename p) = false.
Proof.
  unfold Path.basename, Str.rfind.
  destruct (rfind_go_spec Str.is_sep p 0 (-1)) as [[Hno ->] | (k & -> & Hno)].
  - exact Hno.
  - replace (Z.to_nat (0 + Z.of_nat k + 1)) with (S k) by lia. exact Hno.
Qed.

Lemma base_of_no_sep kmz_path : Str.existsb Str.is_sep (base_of kmz_path) = false.
Proof.
  unfold base_of, Path.splitext.
  pose proof (basename_no_sep kmz_path) as H.
  case_match; cbn [fst]; [by apply existsb_take | exact H].
Qed.

Lemma no_sep_relative s t : Str.existsb Str.is_sep s = false ->
  Str.startswith t "/" = false -> Str.startswith (s +:+ t) "/" = false.
Proof.
  intros Hs Ht. destruct s as [|c s]; [exact Ht|].
  rewrite app_cons. cbn in *. apply orb_false_iff in Hs as [Hc _].
  unfold Str.is_sep in Hc. apply bool_decide_eq_false in Hc.
  rewrite bool_decide_eq_false_2 by congruence. reflexivity.
Qed.

(** *** Ancestors are prefixes *)

Lemma ancestors_go_prefix s pre d :
  d ∈ Path.ancestors_go pre s -> exists r, String.rev pre +:+ s = d +:+ r.
Proof.
  revert pre. induction s as [|c s IH]; intros pre; cbn [Path.ancestors_go].
  - by intros ?%elem_of_nil.
  - assert (Hrec : d ∈ Path.ancestors_go (String c pre) s ->
                   exists r, String.rev pre +:+ String c s = d +:+ r).
    { intros (r & Hr)%IH. exists r. rewrite <- Hr, rev_cons, app_assoc_str. reflexivity. }
    destruct (Str.is_sep c); [|exact Hrec].
    destruct pre as [|a pre]; [exact Hrec|].
    intros [->|Hin]%elem_of_cons; [by eexists | by apply Hrec].
Qed.

Lemma ancestors_prefix p d : d ∈ Path.ancestors p -> exists r, p = d +:+ r.
Proof. intros H. by apply ancestors_go_prefix in H. Qed.

Lemma app_nil_r_str (s : string) : s +:+ "" = s.
Proof. induction s as [|c s IH]; [reflexivity|]. by rewrite app_cons, IH. Qed.

Global Hint Extern 5 (preserves (same_node _) _) =>
  solve [run_primitive; reflexivity] : frame.

Section WrittenPaths.

Context (P : Platform).

Lemma OUTPUT_FOLDER_last : exists x, OUTPUT_FOLDER P = x +:+ "s".
Proof.
  unfold OUTPUT_FOLDER, Path.join. cbn [Str.startswith bool_decide decide_rel].
  change (Str.startswith "Converted GeoTIFFs" "/") with false. cbv iota.
  destruct (bool_decide (SCRIPT_DIR P = "") || Str.endswith (SCRIPT_DIR P) "/").
  - exists (SCRIPT_DIR P +:+ "Converted GeoTIFF"). by rewrite app_assoc_str.
  - exists (SCRIPT_DIR P +:+ "/" +:+ "Converted GeoTIFF"). by rewrite !app_assoc_str.
Qed.

Lemma join_output y :
  Str.startswith y "/" = false ->
  Path.join (OUTPUT_FOLDER P) y = OUTPUT_FOLDER P +:+ "/" +:+ y.
Proof.
  intros Hy. destruct OUTPUT_FOLDER_last as [x ->].
  by apply join_relative.
Qed.

Lemma LOG_FILE_eq : LOG_FILE P = OUTPUT_FOLDER P +:+ "/conversion_log.txt".
Proof. unfold LOG_FILE. by rewrite join_output. Qed.

Lemma out_tif_eq kmz_path :
  out_tif_of P kmz_path = OUTPUT_FOLDER P +:+ "/" +:+ base_of kmz_path +:+ ".tif".
Proof.
  unfold out_tif_of. apply join_output, no_sep_relative; [apply base_of_no_sep | reflexivity].
Qed.

Lemma tmp_tif_eq kmz_path :
  tmp_tif_of P kmz_path =
  OUTPUT_FOLDER P +:+ "/" +:+ base_of kmz_path +:+ "_with_gcps.tif".
Proof.
  unfold tmp_tif_of. apply join_output, no_sep_relative; [apply base_of_no_sep | reflexivity].
Qed.

Lemma tmp_dir_eq kmz_path :
  tmp_dir_of P kmz_path = OUTPUT_FOLDER P +:+ "/_temp/" +:+ base_of kmz_path.
Proof.
  unfold tmp_dir_of. rewrite (join_output "_temp") by reflexivity.
  change (OUTPUT_FOLDER P +:+ "/" +:+ "_temp")
    with (OUTPUT_FOLDER P +:+ ("/_tem" +:+ "p")).
  rewrite <- app_assoc_str.
  rewrite join_relative; [| discriminate |].
  - by rewrite !app_assoc_str.
  - rewrite <- (app_nil_r_str (base_of kmz_path)).
    apply no_sep_relative; [apply base_of_no_sep | reflexivity].
Qed.

(** Neither raster file is the log file. *)
Lemma tif_ne_log (stem : string) :
  OUTPUT_FOLDER P +:+ "/" +:+ stem +:+ "f" <> LOG_FILE P.
Proof.
  rewrite LOG_FILE_eq. intros H.
  apply (inj (String.app (OUTPUT_FOLDER P))) in H.
  change ("/conversion_log.txt") with ("/" +:+ "conversion_log.tx" +:+ "t") in H.
  apply (inj (String.app "/")) in H.
  by apply app_last_inj in H.
Qed.

Lemma out_tif_ne_log kmz_path : out_tif_of P kmz_path <> LOG_FILE P.
Proof.
  rewrite out_tif_eq.
  change ".tif" with (".ti" +:+ "f"). rewrite <- (app_assoc_str (base_of kmz_path)).
  apply tif_ne_log.
Qed.

Lemma tmp_tif_ne_log kmz_path : tmp_tif_of P kmz_path <> LOG_FILE P.
Proof.
  rewrite tmp_tif_eq.
  change "_with_gcps.tif" with ("_with_gcps.ti" +:+ "f").
  rewrite <- (app_assoc_str (base_of kmz_path)).
  apply tif_ne_log.
Qed.

(** Nothing at or above a path below "_temp" is the log file. *)
Lemma above_temp_ne_log d r x :
  d +:+ r = OUTPUT_FOLDER P +:+ "/_temp/" +:+ x -> d <> LOG_FILE P.
Proof.
  rewrite LOG_FILE_eq. intros H ->. rewrite app_assoc_str in H.
  apply (inj (String.app (OUTPUT_FOLDER P))) in H. discriminate.
Qed.

End WrittenPaths.

(** ** The conversions leave the log file alone *)

Lemma mkdir_same_node k d : d <> k -> preserves (same_node k) (Os.mkdir_exist_ok d).
Proof. intros Hne. run_primitive; unfold same_node; cbn [fs]; by rewrite ?lookup_insert_ne. Qed.

Lemma write_file_same_node k p data :
  p <> k -> preserves (same_node k) (Os.write_file p data).
Proof. intros Hne. run_primitive; unfold same_node; cbn [fs]; by rewrite ?lookup_insert_ne. Qed.

Lemma gdal_write_same_node k p data :
  p <> k -> preserves (same_node k) (gdal_write p data).
Proof. intros Hne. run_primitive; unfold same_node; cbn [fs]; by rewrite ?lookup_insert_ne. Qed.

Lemma remove_same_node k p : p <> k -> preserves (same_node k) (Os.remove p).
Proof. intros Hne. run_primitive; unfold same_node; cbn [fs]; by rewrite ?lookup_delete_ne. Qed.

Section LogFrame.

Context (P : Platform).

Lemma convert_kmz_log kmz_path :
  preserves (same_node (LOG_FILE P)) (convert_kmz P kmz_path).
Proof.
  unfold convert_kmz, on_failure.
  fold (tmp_dir_of P kmz_path).
  unfold convert_body, open_descriptor, rectify_and_encode.
  fold (tmp_dir_of P kmz_path) (tmp_tif_of P kmz_path).
  unfold read_descriptor, gdal_Warp, gdal_Translate, gdal_Open, ET_parse,
    zip_extractall, extract_member, Os.makedirs.
  repeat frame_step; try solve [eauto with frame].
  - apply mkdir_same_node.
    lazymatch goal with
    | H : _ ∈ _ ++ _ |- _ =>
        apply elem_of_app in H as [(r & Hr)%ancestors_prefix | ->%list_elem_of_singleton]
    end.
    + apply (above_temp_ne_log P _ r (base_of kmz_path)).
      by rewrite <- Hr, tmp_dir_eq.
    + apply (above_temp_ne_log P _ "" (base_of kmz_path)).
      by rewrite app_nil_r_str, tmp_dir_eq.
  - apply mkdir_same_node.
    lazymatch goal with
    | H : _ ∈ Path.ancestors (_ +:+ "/" +:+ ?name) |- _ =>
        apply ancestors_prefix in H as (r & Hr);
        apply (above_temp_ne_log P _ r (base_of kmz_path +:+ "/" +:+ name))
    end.
    by rewrite <- Hr, tmp_dir_eq, !app_assoc_str.
  - apply write_file_same_node.
    lazymatch goal with
    | |- _ +:+ "/" +:+ ?name <> _ =>
        apply (above_temp_ne_log P _ "" (base_of kmz_path +:+ "/" +:+ name))
    end.
    by rewrite app_nil_r_str, tmp_dir_eq, !app_assoc_str.
  - apply gdal_write_same_node, tmp_tif_ne_log.
  - apply gdal_write_same_node, out_tif_ne_log.
  - apply remove_same_node, tmp_tif_ne_log.
Qed.

Lemma loop_log kmz_files :
  preserves (same_node (LOG_FILE P)) (for_each kmz_files (process P)).
Proof. apply preserves_for_each; [apply _|]. intros kmz _. apply convert_kmz_log. Qed.

End LogFrame.

Section BatchFacts.

Context (P : Platform).

Lemma recorded_cons o r run : recorded P o (r :: run) = recorded P o [r] ++ recorded P o run.
Proof. unfold recorded. cbn. by destruct (outcome_eqb r.2 o). Qed.

Lemma process_outcome kmz w :
  exists w' o,
    process P kmz w = (Ok tt, w') /\
    success_list w' = success_list w ++ recorded P Succeeded [(kmz, o)] /\
    skipped_list w' = skipped_list w ++ recorded P WasSkipped [(kmz, o)] /\
    failed_list w' = failed_list w ++ recorded P HasFailed [(kmz, o)].
Proof.
  unfold process. set (kmz_path := Path.join (SCRIPT_DIR P) kmz).
  pose proof (convert_body_outcome P kmz_path (announced kmz_path w)) as Hb.
  destruct (convert_kmz_cases P kmz_path w)
    as [[_ ->] | [[_ (w1 & Hr & ->)] | [_ (e & w1 & Hr & ->)]]].
  - exists (skipped kmz_path w), WasSkipped. cbn. by rewrite !app_nil_r.
  - rewrite Hr in Hb. destruct Hb as (Hs & Hf & Hk & _). cbn in Hs, Hf, Hk.
    exists w1, Succeeded. cbn. by rewrite !app_nil_r.
  - rewrite Hr in Hb. destruct Hb as (Hs & Hf & Hk). cbn in Hs, Hf, Hk.
    exists (failed kmz_path e w1), HasFailed. cbn. rewrite !app_nil_r.
    subst kmz_path. repeat split; congruence.
Qed.

(** The loop of lines 136-137 never stops early, and every archive ends
    in exactly one of the three lists. *)
Lemma loop_outcomes kmz_files w :
  exists w1 run,
    for_each kmz_files (process P) w = (Ok tt, w1) /\
    map fst run = kmz_files /\
    success_list w1 = success_list w ++ recorded P Succeeded run /\
    skipped_list w1 = skipped_list w ++ recorded P WasSkipped run /\
    failed_list w1 = failed_list w ++ recorded P HasFailed run.
Proof.
  revert w. induction kmz_files as [|kmz l IH]; intros w.
  - exists w, []. cbn. by rewrite !app_nil_r.
  - destruct (process_outcome kmz w) as (w' & o & Hrun & Hs & Hk & Hf).
    destruct (IH w') as (w1 & run & Hloop & Hmap & Hs1 & Hk1 & Hf1).
    exists w1, ((kmz, o) :: run). rewrite run_for_each_cons, Hrun.
    split; [exact Hloop|]. split; [cbn; by rewrite Hmap|].
    rewrite !(recorded_cons _ (kmz, o) run), !app_assoc.
    repeat split; congruence.
Qed.

Lemma log_stdout : preserves same_stdout (log_successful_conversions P).
Proof. unfold log_successful_conversions. frame. Qed.

Lemma log_lists : preserves same_lists (log_successful_conversions P).
Proof. unfold log_successful_conversions. frame. Qed.

Lemma print_unless_empty_run label l w :
  print_unless_empty label l w = (Ok tt, printed (line_unless_empty label l) w).
Proof.
  destruct l; cbn; [|reflexivity].
  unfold printed. rewrite app_nil_r. by destruct w.
Qed.

(** After the loop the summary is printed, and then the log is written. *)
Lemma batch_run kmz_files w w1 :
  kmz_files <> [] ->
  for_each kmz_files (process P) w = (Ok tt, w1) ->
  batch P kmz_files w =
  log_successful_conversions P (printed (summary_lines P w1) w1).
Proof.
  intros Hne Hloop. destruct kmz_files as [|kmz l]; [done|].
  unfold batch. rewrite run_bind, Hloop.
  rewrite run_bind. cbv [print].
  rewrite run_bind. cbv [get_success_list]. cbn [success_list].
  rewrite run_bind, print_unless_empty_run.
  rewrite run_bind. cbv [get_skipped_list]. cbn [skipped_list printed].
  rewrite run_bind, print_unless_empty_run.
  rewrite run_bind. cbv [get_failed_list]. cbn [failed_list printed].
  rewrite run_bind, print_unless_empty_run.
  rewrite !run_bind. cbn [printed fs success_list failed_list skipped_list stdout calls].
  unfold summary_lines, printed. by rewrite <- !app_assoc.
Qed.

Lemma batch_summary kmz_files w w1 :
  kmz_files <> [] ->
  for_each kmz_files (process P) w = (Ok tt, w1) ->
  stdout (snd (batch P kmz_files w)) = stdout w1 ++ summary_lines P w1.
Proof.
  intros Hne Hloop. rewrite (batch_run _ _ _ Hne Hloop).
  by rewrite (log_stdout (printed (summary_lines P w1) w1)).
Qed.

End BatchFacts.

(** C6, as the code has it.  Over a non-empty list of archives the loop
    never stops early: every archive is processed, in order, each ends in
    exactly one of the three lists, and the summary of the three lists is
    printed after the last one.  (With no archive at all the script prints a
    notice and returns: there is no summary.) *)
Theorem batch_processes_all_and_reports (P : Platform) (kmz_files : list string)
    (w : World) :
  kmz_files <> [] ->
  exists w1 run,
    for_each kmz_files (process P) w = (Ok tt, w1) /\
    map fst run = kmz_files /\
    success_list w1 = success_list w ++ recorded P Succeeded run /\
    skipped_list w1 = skipped_list w ++ recorded P WasSkipped run /\
    failed_list w1 = failed_list w ++ recorded P HasFailed run /\
    stdout (snd (batch P kmz_files w)) = stdout w1 ++ summary_lines P w1.
Proof.
  intros Hne.
  destruct (loop_outcomes P kmz_files w) as (w1 & run & Hloop & Hmap & Hs & Hk & Hf).
  exists w1, run. repeat split; try assumption.
  by apply batch_summary.
Qed.

(** C6, at the four archives of the sample folder, of which one converts
    and three fail. *)
Lemma batch_processes_all_and_reports_witness :
  exists w1 run,
    for_each ["c.kmz"; "a.kmz"; "b.KMZ"; "d.kmz"] (process Sample.platform) Sample.world
      = (Ok tt, w1) /\
    map fst run = ["c.kmz"; "a.kmz"; "b.KMZ"; "d.kmz"] /\
    success_list w1 = success_list Sample.world ++ recorded Sample.platform Succeeded run /\
    skipped_list w1 = skipped_list Sample.world ++ recorded Sample.platform WasSkipped run /\
    failed_list w1 = failed_list Sample.world ++ recorded Sample.platform HasFailed run /\
    stdout (snd (batch Sample.platform ["c.kmz"; "a.kmz"; "b.KMZ"; "d.kmz"] Sample.world))
      = stdout w1 ++ summary_lines Sample.platform w1.
Proof.
  apply (batch_processes_all_and_reports Sample.platform
           ["c.kmz"; "a.kmz"; "b.KMZ"; "d.kmz"] Sample.world).
  discriminate.
Defined.

(** C6 as stated fails for the empty list of archives: the run prints one
    notice and no summary. *)
Lemma no_summary_without_archives :
  let w' := snd (batch Sample.platform [] Sample.world) in
  stdout w' = ["No KMZ files found in: /maps"] /\
  forall before, stdout w' <> before ++ summary_lines Sample.platform w'.
Proof.
  split; [reflexivity|].
  intros before H. apply (f_equal length) in H.
  rewrite length_app in H.
  change (length (stdout (snd (batch Sample.platform [] Sample.world)))) with 1%nat in H.
  change (length (summary_lines Sample.platform
                    (snd (batch Sample.platform [] Sample.world)))) with 4%nat in H.
  lia.
Qed.

(** * The log *)

Lemma concat_str_app (l1 l2 : list string) :
  concat_str (l1 ++ l2) = concat_str l1 +:+ concat_str l2.
Proof.
  induction l1 as [|x l1 IH]; [reflexivity|].
  change (x +:+ concat_str (l1 ++ l2) = (x +:+ concat_str l1) +:+ concat_str l2).
  by rewrite IH, app_assoc_str.
Qed.

Lemma concat_str_singleton (x : string) : concat_str [x] = x.
Proof. apply app_nil_r_str. Qed.

Section Log.

Context (P : Platform).

Lemma with_fs_id w : with_fs (fs w) w = w.
Proof. by destruct w. Qed.

Lemma append_file_run p text w :
  fs w !! p <> Some Dir ->
  Os.append_file p text w =
  (Ok tt, with_fs (<[p := File (text_at p (fs w) +:+ text)]> (fs w)) w).
Proof.
  intros Hp. unfold text_at.
  cbv [Os.append_file mbind M_bind get_fs set_fs raise]. cbn [fs].
  by destruct (fs w !! p) as [[|data]|].
Qed.

Lemma append_file_again p data text w :
  fs w !! p = Some (File data) ->
  Os.append_file p text w = (Ok tt, with_fs (<[p := File (data +:+ text)]> (fs w)) w).
Proof.
  intros Hp. rewrite append_file_run by (rewrite Hp; discriminate).
  unfold text_at. by rewrite Hp.
Qed.

(** Writing the lines one after the other appends their concatenation. *)
Lemma append_lines p (g : string -> string) names data w :
  fs w !! p = Some (File data) ->
  for_each names (fun name => Os.append_file p (g name)) w =
  (Ok tt, with_fs (<[p := File (data +:+ concat_str (map g names))]> (fs w)) w).
Proof.
  revert data w. induction names as [|n names IH]; intros data w Hp.
  - cbn. rewrite app_nil_r_str, insert_id by exact Hp. by rewrite with_fs_id.
  - rewrite run_for_each_cons, (append_file_again p data (g n) w Hp).
    rewrite (IH (data +:+ g n)) by (cbn; apply lookup_insert_eq).
    cbn. unfold with_fs. cbn. by rewrite insert_insert_eq, app_assoc_str.
Qed.

(** Lines 113-125, run: with a success to report and a log path that is
    not a directory, one section goes to the end of the log file and
    nothing else changes. *)
Lemma log_successful_conversions_run w :
  success_list w <> [] ->
  fs w !! LOG_FILE P <> Some Dir ->
  log_successful_conversions P w =
  (Ok tt, with_fs (<[LOG_FILE P :=
                      File (text_at (LOG_FILE P) (fs w) +:+
                            section_text P (sorted_set (success_list w)))]> (fs w)) w).
Proof.
  intros Hs Hlog. unfold log_successful_conversions.
  rewrite run_bind. cbv [get_success_list].
  destruct (success_list w) as [|s0 ss] eqn:Hsucc; [done|]. rewrite <- Hsucc.
  rewrite run_bind, (append_file_run _ "" w Hlog), app_nil_r_str.
  set (old := text_at (LOG_FILE P) (fs w)).
  rewrite run_bind, (append_file_again _ old) by (cbn; apply lookup_insert_eq).
  rewrite run_bind, (append_lines _ _ _ (old +:+ _)) by (cbn; apply lookup_insert_eq).
  rewrite (append_file_again _ (_ +:+ _)) by (cbn; apply lookup_insert_eq).
  unfold with_fs. cbn [fs success_list failed_list skipped_list stdout calls].
  rewrite !insert_insert_eq.
  unfold section_text, log_section.
  rewrite !concat_str_app, !concat_str_singleton, !app_assoc_str.
  reflexivity.
Qed.

End Log.

(** [sorted(set(l))] is sorted, has no duplicate, has the elements of [l],
    and is the same for every list with these elements. *)
Lemma sorted_set_spec (l : list string) :
  Sorted String.le (sorted_set l) /\
  NoDup (sorted_set l) /\
  (forall x, x ∈ sorted_set l <-> x ∈ l) /\
  (forall l', (forall x, x ∈ l' <-> x ∈ l) -> sorted_set l' = sorted_set l).
Proof.
  assert (Hperm : forall k, sorted_set k ≡ₚ remove_dups k)
    by (intros k; apply merge_sort_Permutation).
  assert (Hsorted : forall k, Sorted String.le (sorted_set k))
    by (intros k; apply (Sorted_merge_sort String.le)).
  assert (Hnodup : forall k, NoDup (sorted_set k))
    by (intros k; rewrite Hperm; apply NoDup_remove_dups).
  assert (Helem : forall k x, x ∈ sorted_set k <-> x ∈ k)
    by (intros k x; rewrite Hperm; apply elem_of_remove_dups).
  repeat split; try apply Hsorted || apply Hnodup || apply Helem.
  intros l' Hl'. apply (Sorted_unique String.le); [apply Hsorted..|].
  apply NoDup_Permutation; [apply Hnodup..|].
  intros x. by rewrite !Helem.
Qed.

(** C7, as the code has it.  In a batch run with at least one successful
    conversion, and with a log path that does not name a directory, exactly
    one section is appended to the log file: what the file held before the
    run is kept, and after it come the timestamp header, the base names
    converted in the run, sorted and without duplicates, one per line, and
    an empty line.  The names listed do not depend on the order of the
    success list. *)
Theorem log_gets_one_sorted_section (P : Platform) (files : gmap string node)
    (kmz_files : list string) :
  let w0 := initial_world files in
  let w1 := snd (for_each kmz_files (process P) w0) in
  let names := sorted_set (success_list w1) in
  success_list w1 <> [] ->
  files !! LOG_FILE P <> Some Dir ->
  exists w' run,
    batch P kmz_files w0 = (Ok tt, w') /\
    map fst run = kmz_files /\
    success_list w1 = recorded P Succeeded run /\
    fs w' = <[LOG_FILE P := File (text_at (LOG_FILE P) files +:+ section_text P names)]>
              (fs w1) /\
    Sorted String.le names /\
    NoDup names /\
    (forall x, x ∈ names <-> x ∈ success_list w1) /\
    (forall l, l ≡ₚ success_list w1 -> sorted_set l = names).
Proof.
  intros w0 w1 names Hsucc Hlog.
  destruct (loop_outcomes P kmz_files w0) as (w1' & run & Hloop & Hmap & Hs & _).
  assert (w1 = w1') as <- by (unfold w1; by rewrite Hloop).
  assert (Hne : kmz_files <> []) by (intros ->; by apply Hsucc).
  pose proof (loop_log P kmz_files w0) as Hframe.
  fold w1 in Hframe. unfold same_node in Hframe. cbn [fs w0 initial_world] in Hframe.
  destruct (sorted_set_spec (success_list w1)) as (Hsorted & Hnodup & Helem & Hcanon).
  eexists _, run. split; [|repeat split; try eassumption].
  - rewrite (batch_run P kmz_files w0 w1 Hne Hloop).
    apply log_successful_conversions_run; cbn [printed fs success_list];
      [exact Hsucc | by rewrite Hframe].
  - unfold text_at. cbn [with_fs fs printed success_list].
    by rewrite Hframe.
  - by apply Helem.
  - by apply Helem.
  - intros l Hl. apply Hcanon. intros x. by rewrite Hl.
Qed.

(** C7, at the sample folder with a log that already holds a line. *)
Lemma log_gets_one_sorted_section_witness :
  let files := <["/maps/Converted GeoTIFFs/conversion_log.txt" := File "earlier"]>
                 Sample.files in
  let kmz_files := ["e.kmz"; "c.kmz"; "a.kmz"] in
  let w0 := initial_world files in
  let w1 := snd (for_each kmz_files (process Sample.platform) w0) in
  let names := sorted_set (success_list w1) in
  (success_list w1 = ["e"; "a"] /\ names = ["a"; "e"]) /\
  exists w' run,
    batch Sample.platform kmz_files w0 = (Ok tt, w') /\
    map fst run = kmz_files /\
    success_list w1 = recorded Sample.platform Succeeded run /\
    fs w' = <[LOG_FILE Sample.platform :=
               File (text_at (LOG_FILE Sample.platform) files +:+
                     section_text Sample.platform names)]> (fs w1) /\
    Sorted String.le names /\
    NoDup names /\
    (forall x, x ∈ names <-> x ∈ success_list w1) /\
    (forall l, l ≡ₚ success_list w1 -> sorted_set l = names).
Proof.
  intros files kmz_files w0 w1 names.
  split; [by vm_compute|].
  apply (log_gets_one_sorted_section Sample.platform files kmz_files).
  - vm_compute. discriminate.
  - vm_compute. discriminate.
Defined.

(** C7 as stated fails when the log cannot be opened: with a directory in
    the place of the log file, the run converts "a.kmz", prints its summary
    and then raises in the log writer (line 121); no section is written. *)
Lemma log_section_not_written :
  let files := <[LOG_FILE Sample.platform := Dir]> Sample.files in
  let run := batch Sample.platform ["a.kmz"] (initial_world files) in
  success_list (snd run) = ["a"] /\
  fs (snd run) !! out_tif_of Sample.platform "/maps/a.kmz" = Some (File "geotiff") /\
  fst run = Raise (Os.os_error "[Errno 21] Is a directory" (LOG_FILE Sample.platform)) /\
  fs (snd run) !! LOG_FILE Sample.platform = Some Dir /\
  stdout (snd run) =
    stdout (snd (for_each ["a.kmz"] (process Sample.platform) (initial_world files)))
    ++ summary_lines Sample.platform (snd run).
Proof. vm_compute. by repeat split. Qed.

Example log_after_sample_run :
  let files := <["/maps/Converted GeoTIFFs/conversion_log.txt" := File "earlier"]>
                 Sample.files in
  fs (snd (batch Sample.platform ["e.kmz"; "c.kmz"; "a.kmz"] (initial_world files)))
    !! "/maps/Converted GeoTIFFs/conversion_log.txt"
  = Some (File ("earlier" +:+ nl +:+ "--- Conversion on 11/03/2026 09:00:00 ---" +:+ nl
                +:+ "a" +:+ nl +:+ "e" +:+ nl +:+ nl)).
Proof. vm_compute. reflexivity. Qed.

(** * Further properties of the script *)

(** ** What a conversion leaves alone *)

Global Instance kept_preorder k n : PreOrder (kept k n).
Proof. split; [intros w; by unfold kept | intros w1 w2 w3 H12 H23 Hk; auto]. Qed.

Global Instance same_gdal_calls_preorder : PreOrder same_gdal_calls.
Proof.
  split; [intros w; reflexivity | intros w1 w2 w3; unfold same_gdal_calls; congruence].
Qed.

Global Hint Extern 5 (preserves (kept _ _) _) =>
  solve [run_primitive; unfold kept; cbn [fs]; intros;
         first [ assumption
               | rewrite lookup_insert_ne by congruence; assumption ]] : frame.

Global Hint Extern 5 (preserves same_gdal_calls _) =>
  solve [run_primitive; unfold same_gdal_calls, gdal_calls; cbn [calls];
         rewrite ?List.filter_app; cbn; by rewrite ?app_nil_r] : frame.

Lemma write_file_kept k n p data :
  p <> k -> preserves (kept k n) (Os.write_file p data).
Proof. intros Hne. run_primitive; unfold kept; cbn [fs]; by rewrite ?lookup_insert_ne. Qed.

Lemma gdal_write_kept k n p data :
  p <> k -> preserves (kept k n) (gdal_write p data).
Proof. intros Hne. run_primitive; unfold kept; cbn [fs]; by rewrite ?lookup_insert_ne. Qed.

Lemma append_file_kept k n p text :
  p <> k -> preserves (kept k n) (Os.append_file p text).
Proof. intros Hne. run_primitive; unfold kept; cbn [fs]; by rewrite ?lookup_insert_ne. Qed.

Lemma remove_kept k n p : p <> k -> preserves (kept k n) (Os.remove p).
Proof. intros Hne. run_primitive; unfold kept; cbn [fs]; by rewrite ?lookup_delete_ne. Qed.

Lemma startswith_app (p r : string) : Str.startswith (p +:+ r) p = true.
Proof.
  induction p as [|c p IH]; [apply startswith_nil|].
  rewrite app_cons. cbn [Str.startswith]. by rewrite bool_decide_eq_true_2, IH.
Qed.

Lemma startswith_inv (s p : string) :
  Str.startswith s p = true -> exists r, s = p +:+ r.
Proof.
  revert s. induction p as [|c p IH]; intros s.
  - intros _. by exists s.
  - destruct s as [|a s]; cbn [Str.startswith]; [discriminate|].
    intros [Hc Hs]%andb_true_iff. apply bool_decide_eq_true in Hc as ->.
    destruct (IH s Hs) as [r ->]. by exists r.
Qed.

Lemma not_below_ne (dir k name : string) :
  below dir k = false -> dir +:+ "/" +:+ name <> k.
Proof.
  unfold below. intros Hb <-. rewrite <- app_assoc_str in Hb.
  by rewrite startswith_app in Hb.
Qed.

Lemma convert_kmz_kept (P : Platform) (kmz_path k : string) (n : node) :
  k <> out_tif_of P kmz_path ->
  k <> tmp_tif_of P kmz_path ->
  below (tmp_dir_of P kmz_path) k = false ->
  preserves (kept k n) (convert_kmz P kmz_path).
Proof.
  intros Hout Htmp Hbelow.
  unfold convert_kmz, on_failure.
  unfold convert_body, open_descriptor, rectify_and_encode.
  fold (tmp_dir_of P kmz_path) (tmp_tif_of P kmz_path) (out_tif_of P kmz_path).
  unfold read_descriptor, gdal_Warp, gdal_Translate, gdal_Open, ET_parse,
    zip_extractall, extract_member, Os.makedirs.
  repeat frame_step; try solve [eauto with frame].
  all: first [ by apply write_file_kept, not_below_ne
             | by apply gdal_write_kept
             | by apply remove_kept ].
Qed.

(** X1. A conversion changes no existing node of the file system other than
    its output file, its intermediate file and what lies below its working
    directory: every other file or directory that was there before is
    there, unchanged, afterwards. *)
Theorem conversion_footprint (P : Platform) (kmz_path k : string) (n : node)
    (w : World) :
  k <> out_tif_of P kmz_path ->
  k <> tmp_tif_of P kmz_path ->
  below (tmp_dir_of P kmz_path) k = false ->
  fs w !! k = Some n ->
  fs (snd (convert_kmz P kmz_path w)) !! k = Some n.
Proof.
  intros Hout Htmp Hbelow. by apply convert_kmz_kept.
Qed.

(** X1, at "readme.txt" of the sample folder while "a.kmz" is converted. *)
Lemma conversion_footprint_witness :
  fs (snd (convert_kmz Sample.platform "/maps/a.kmz" Sample.world))
    !! "/maps/readme.txt" = Some (File "hello").
Proof.
  apply (conversion_footprint Sample.platform "/maps/a.kmz" "/maps/readme.txt"
           (File "hello") Sample.world).
  - by vm_compute.
  - by vm_compute.
  - by vm_compute.
  - by vm_compute.
Defined.

(** ** The input directory *)

Lemma existsb_app f (s t : string) :
  Str.existsb f (s +:+ t) = Str.existsb f s || Str.existsb f t.
Proof.
  induction s as [|c s IH]; [reflexivity|].
  rewrite app_cons. cbn [Str.existsb]. by rewrite IH, orb_assoc.
Qed.

Lemma no_sep_not_absolute (f : string) :
  Str.existsb Str.is_sep f = false -> Str.startswith f "/" = false.
Proof.
  intros Hf. rewrite <- (app_nil_r_str f). by apply no_sep_relative.
Qed.

(** Joining to [a] puts the same text in front of every relative name. *)
Lemma join_prefix (a : string) :
  exists pre, forall g, Str.startswith g "/" = false -> Path.join a g = pre +:+ g.
Proof.
  unfold Path.join.
  destruct (bool_decide (a = "") || Str.endswith a "/").
  - exists a. by intros g ->.
  - exists (a +:+ "/"). intros g ->. by rewrite app_assoc_str.
Qed.

(** An entry of the input directory is no path below the output folder. *)
Lemma entry_not_in_output (P : Platform) (f x : string) :
  Str.existsb Str.is_sep f = false ->
  Path.join (SCRIPT_DIR P) f <> OUTPUT_FOLDER P +:+ "/" +:+ x.
Proof.
  intros Hf. unfold OUTPUT_FOLDER.
  destruct (join_prefix (SCRIPT_DIR P)) as [pre Hpre].
  rewrite (Hpre f) by by apply no_sep_not_absolute.
  rewrite (Hpre "Converted GeoTIFFs") by reflexivity.
  rewrite app_assoc_str. intros H. apply (inj (String.app pre)) in H.
  rewrite H, !existsb_app in Hf. cbn in Hf.
  by rewrite orb_true_r in Hf.
Qed.

Lemma entry_kept_by_conversion (P : Platform) (f kmz_path : string) (n : node) :
  Str.existsb Str.is_sep f = false ->
  preserves (kept (Path.join (SCRIPT_DIR P) f) n) (convert_kmz P kmz_path).
Proof.
  intros Hf. apply convert_kmz_kept.
  - rewrite out_tif_eq. by apply entry_not_in_output.
  - rewrite tmp_tif_eq. by apply entry_not_in_output.
  - unfold below. destruct (Str.startswith _ _) eqn:Hs; [|reflexivity].
    apply startswith_inv in Hs as [r Hr]. exfalso.
    rewrite tmp_dir_eq in Hr.
    change (OUTPUT_FOLDER P +:+ "/_temp/" +:+ base_of kmz_path)
      with (OUTPUT_FOLDER P +:+ "/" +:+ ("_temp/" +:+ base_of kmz_path)) in Hr.
    rewrite !app_assoc_str in Hr.
    by apply entry_not_in_output in Hr.
Qed.

(** X2. A batch run never modifies, replaces or deletes an entry of the
    input directory: every file or directory that sits directly in the
    script's directory before the run, the archives included, is there
    unchanged after it. *)
Theorem batch_keeps_input_directory (P : Platform) (kmz_files : list string)
    (f : string) (n : node) (w : World) :
  Str.existsb Str.is_sep f = false ->
  fs w !! Path.join (SCRIPT_DIR P) f = Some n ->
  fs (snd (batch P kmz_files w)) !! Path.join (SCRIPT_DIR P) f = Some n.
Proof.
  intros Hf.
  set (k := Path.join (SCRIPT_DIR P) f).
  change (kept k n w (snd (batch P kmz_files w))). revert w.
  change (preserves (kept k n) (batch P kmz_files)).
  assert (Hlog : LOG_FILE P <> k).
  { rewrite LOG_FILE_eq. intros H. symmetry in H.
    change (OUTPUT_FOLDER P +:+ "/conversion_log.txt")
      with (OUTPUT_FOLDER P +:+ "/" +:+ "conversion_log.txt") in H.
    by apply entry_not_in_output in H. }
  unfold batch, process, print_unless_empty, log_successful_conversions.
  repeat frame_step; try solve [eauto with frame].
  all: first [ by apply entry_kept_by_conversion | by apply append_file_kept ].
Qed.

(** X2, at the archive "a.kmz" of the sample folder during a run over four
    archives. *)
Lemma batch_keeps_input_directory_witness :
  fs (snd (batch Sample.platform ["c.kmz"; "a.kmz"; "b.KMZ"; "d.kmz"] Sample.world))
    !! Path.join (SCRIPT_DIR Sample.platform) "a.kmz" = Some (File "zip-good").
Proof.
  apply (batch_keeps_input_directory Sample.platform
           ["c.kmz"; "a.kmz"; "b.KMZ"; "d.kmz"] "a.kmz" (File "zip-good")
           Sample.world).
  - reflexivity.
  - by vm_compute.
Defined.

(** ** Failures before the rectification *)

Lemma is_sep_true (c : ascii) : Str.is_sep c = true -> c = "/"%char.
Proof. unfold Str.is_sep. apply bool_decide_eq_true. Qed.

(** An ancestor of a path is followed in it by a separator. *)
Lemma ancestors_go_sep s pre d :
  d ∈ Path.ancestors_go pre s -> exists r, String.rev pre +:+ s = d +:+ "/" +:+ r.
Proof.
  revert pre. induction s as [|c s IH]; intros pre; cbn [Path.ancestors_go].
  - by intros ?%elem_of_nil.
  - assert (Hrec : d ∈ Path.ancestors_go (String c pre) s ->
                   exists r, String.rev pre +:+ String c s = d +:+ "/" +:+ r).
    { intros (r & Hr)%IH. exists r. rewrite <- Hr, rev_cons, app_assoc_str. reflexivity. }
    destruct (Str.is_sep c) eqn:Hc; [|exact Hrec].
    apply is_sep_true in Hc as ->.
    destruct pre as [|a pre]; [exact Hrec|].
    intros [->|Hin]%elem_of_cons; [by exists s | by apply Hrec].
Qed.

Lemma ancestors_sep p d : d ∈ Path.ancestors p -> exists r, p = d +:+ "/" +:+ r.
Proof. intros H. by apply ancestors_go_sep in H. Qed.

(** Two paths that agree have the same first component. *)
Lemma first_component (a b r s : string) :
  Str.existsb Str.is_sep a = false -> Str.existsb Str.is_sep b = false ->
  a +:+ "/" +:+ r = b +:+ "/" +:+ s -> a = b.
Proof.
  revert b. induction a as [|c a IH]; intros [|c' b]; cbn [Str.existsb];
    rewrite ?app_cons, ?app_nil_l_str.
  - done.
  - intros _ [Hc _]%orb_false_iff [= <- _]. by vm_compute in Hc.
  - intros [Hc _]%orb_false_iff _ [= -> _]. by vm_compute in Hc.
  - intros [_ Ha]%orb_false_iff [_ Hb]%orb_false_iff [= -> H].
    f_equal. by apply IH.
Qed.

Section RasterPaths.

Context (P : Platform).

(** A name without separator other than "_temp", taken in the output
    folder, is neither at, nor above, nor below a working directory. *)
Lemma name_ne_above_temp (y d r x : string) :
  Str.existsb Str.is_sep y = false -> y <> "_temp" ->
  d +:+ "/" +:+ r = OUTPUT_FOLDER P +:+ "/_temp/" +:+ x ->
  d <> OUTPUT_FOLDER P +:+ "/" +:+ y.
Proof.
  intros Hy Hne H ->. rewrite !app_assoc_str in H.
  apply (inj (String.app (OUTPUT_FOLDER P))) in H.
  change ("/_temp/" +:+ x) with ("/" +:+ "_temp" +:+ "/" +:+ x) in H.
  apply (inj (String.app "/")) in H.
  by apply first_component in H.
Qed.

Lemma name_ne_temp (y x : string) :
  Str.existsb Str.is_sep y = false ->
  OUTPUT_FOLDER P +:+ "/_temp/" +:+ x <> OUTPUT_FOLDER P +:+ "/" +:+ y.
Proof.
  intros Hy H. apply (inj (String.app (OUTPUT_FOLDER P))) in H.
  change ("/_temp/" +:+ x) with ("/" +:+ "_temp/" +:+ x) in H.
  apply (inj (String.app "/")) in H.
  rewrite <- H in Hy. by rewrite existsb_app in Hy.
Qed.

(** The extraction stage writes neither to [<output folder>/y] ... *)
Lemma open_descriptor_same_name kmz_path (y : string) :
  Str.existsb Str.is_sep y = false -> y <> "_temp" ->
  preserves (same_node (OUTPUT_FOLDER P +:+ "/" +:+ y))
    (open_descriptor P kmz_path (base_of kmz_path)).
Proof.
  intros Hy Hne. unfold open_descriptor.
  fold (tmp_dir_of P kmz_path).
  unfold ET_parse, zip_extractall, extract_member, Os.makedirs.
  repeat frame_step; try solve [eauto with frame].
  - apply mkdir_same_node.
    lazymatch goal with
    | H : _ ∈ _ ++ _ |- _ =>
        apply elem_of_app in H as [(r & Hr)%ancestors_sep | ->%list_elem_of_singleton]
    end.
    + apply (name_ne_above_temp y _ r (base_of kmz_path)); [done..|].
      by rewrite <- Hr, tmp_dir_eq.
    + rewrite tmp_dir_eq. by apply name_ne_temp.
  - apply mkdir_same_node.
    lazymatch goal with
    | H : _ ∈ Path.ancestors (_ +:+ "/" +:+ ?name) |- _ =>
        apply ancestors_sep in H as (r & Hr);
        apply (name_ne_above_temp y _ r (base_of kmz_path +:+ "/" +:+ name));
          [done..|]
    end.
    by rewrite <- Hr, tmp_dir_eq, !app_assoc_str.
  - apply write_file_same_node.
    rewrite tmp_dir_eq, !app_assoc_str. by apply name_ne_temp.
Qed.

Lemma raster_name_ok kmz_path (stem : string) :
  Str.existsb Str.is_sep stem = false ->
  Str.existsb Str.is_sep (base_of kmz_path +:+ stem +:+ "f") = false /\
  base_of kmz_path +:+ stem +:+ "f" <> "_temp".
Proof.
  intros Hs. split.
  - rewrite !existsb_app, base_of_no_sep, Hs. reflexivity.
  - rewrite <- app_assoc_str. change "_temp" with ("_tem" +:+ "p").
    by intros ?%app_last_inj.
Qed.

Lemma out_tif_name kmz_path :
  out_tif_of P kmz_path = OUTPUT_FOLDER P +:+ "/" +:+ (base_of kmz_path +:+ ".ti" +:+ "f").
Proof. by rewrite out_tif_eq. Qed.

Lemma tmp_tif_name kmz_path :
  tmp_tif_of P kmz_path =
  OUTPUT_FOLDER P +:+ "/" +:+ (base_of kmz_path +:+ "_with_gcps.ti" +:+ "f").
Proof. by rewrite tmp_tif_eq. Qed.

Lemma descriptor_stage_out_tif kmz_path :
  preserves (same_node (out_tif_of P kmz_path)) (descriptor_stage P kmz_path).
Proof.
  rewrite out_tif_name. unfold descriptor_stage.
  destruct (raster_name_ok kmz_path ".ti") as [H1 H2]; [reflexivity|].
  apply preserves_bind; [apply _ | by apply open_descriptor_same_name |].
  intros [tmp_dir root]. unfold read_descriptor. frame.
Qed.

Lemma descriptor_stage_tmp_tif kmz_path :
  preserves (same_node (tmp_tif_of P kmz_path)) (descriptor_stage P kmz_path).
Proof.
  rewrite tmp_tif_name. unfold descriptor_stage.
  destruct (raster_name_ok kmz_path "_with_gcps.ti") as [H1 H2]; [reflexivity|].
  apply preserves_bind; [apply _ | by apply open_descriptor_same_name |].
  intros [tmp_dir root]. unfold read_descriptor. frame.
Qed.

Lemma descriptor_stage_gdal kmz_path :
  preserves same_gdal_calls (descriptor_stage P kmz_path).
Proof. unfold descriptor_stage. script_frame. Qed.

Lemma descriptor_stage_lists kmz_path :
  preserves same_lists (descriptor_stage P kmz_path).
Proof. unfold descriptor_stage. script_frame. Qed.

(** The [try] block is the descriptor stage followed by the
    rectification. *)
Lemma body_of_stages kmz_path w :
  body_of P kmz_path w =
  match descriptor_stage P kmz_path w with
  | (Ok (coords, img_file), w1) =>
      rectify_and_encode P (base_of kmz_path) (out_tif_of P kmz_path) coords img_file w1
  | (Raise e, w1) => (Raise e, w1)
  end.
Proof.
  unfold body_of, convert_body, descriptor_stage.
  rewrite !run_bind.
  destruct (open_descriptor P kmz_path (base_of kmz_path) w) as [[[t r]|e] w1];
    [|reflexivity].
  rewrite run_bind. by destruct (read_descriptor t r w1) as [[[c i]|e] w2].
Qed.

Lemma convert_fails_in_descriptor kmz_path w e w1 :
  fs w !! out_tif_of P kmz_path = None ->
  descriptor_stage P kmz_path (announced kmz_path w) = (Raise e, w1) ->
  convert_kmz P kmz_path w = (Ok tt, failed kmz_path e w1).
Proof.
  intros Hno Hd. by rewrite (convert_kmz_run P kmz_path w Hno), body_of_stages, Hd.
Qed.

End RasterPaths.

(** X3. When a conversion fails while it extracts the archive or reads the
    descriptor, it is recorded as failed, no GDAL function has been called,
    and neither an output file nor a new intermediate file is left: the
    output path is still free, so a later run converts the archive again
    instead of skipping it. *)
Theorem descriptor_failure_leaves_nothing (P : Platform) (kmz_path : string)
    (w : World) (e : exn) (w1 : World) :
  fs w !! out_tif_of P kmz_path = None ->
  descriptor_stage P kmz_path (announced kmz_path w) = (Raise e, w1) ->
  exists w',
    convert_kmz P kmz_path w = (Ok tt, w') /\
    failed_list w' = failed_list w ++ [base_of kmz_path] /\
    success_list w' = success_list w /\
    gdal_calls w' = gdal_calls w /\
    fs w' !! out_tif_of P kmz_path = None /\
    fs w' !! tmp_tif_of P kmz_path = fs w !! tmp_tif_of P kmz_path.
Proof.
  intros Hno Hd. exists (failed kmz_path e w1).
  split; [by apply convert_fails_in_descriptor|].
  pose proof (descriptor_stage_lists P kmz_path (announced kmz_path w)) as (Hs & Hf & _).
  pose proof (descriptor_stage_gdal P kmz_path (announced kmz_path w)) as Hg.
  pose proof (descriptor_stage_out_tif P kmz_path (announced kmz_path w)) as Ho.
  pose proof (descriptor_stage_tmp_tif P kmz_path (announced kmz_path w)) as Ht.
  rewrite Hd in Hs, Hf, Hg, Ho, Ht. cbn [snd] in *.
  unfold same_node in Ho, Ht. cbn in Hs, Hf, Ho, Ht.
  cbn. repeat split; [congruence | congruence | exact Hg | congruence | exact Ht].
Qed.

Example folder_run :
  let w := snd (batch Folder.platform
                  ["nokml.kmz"; "noquad.kmz"; "noimage.kmz"; "nooverlay.kmz";
                   "short.kmz"; "notext.kmz"; "site.kmz"] Folder.world) in
  success_list w = ["site"] /\
  failed_list w = ["nokml"; "noquad"; "noimage"; "nooverlay"; "short"; "notext"] /\
  List.filter (fun l => Str.contains l "Failed: ") (stdout w) =
    ["  ❌ Failed: nokml → No KML found";
     "  ❌ Failed: noquad → No LatLonQuad found";
     "  ❌ Failed: noimage → Image file not found: /in/Converted GeoTIFFs/_temp/noimage/img.png";
     "  ❌ Failed: nooverlay → 'NoneType' object has no attribute 'find'";
     "  ❌ Failed: short → tuple index out of range";
     "  ❌ Failed: notext → 'NoneType' object has no attribute 'strip'";
     "❌ Failed: nokml, noquad, noimage, nooverlay, short, notext"].
Proof. vm_compute. by repeat split. Qed.

(** X3, at "noquad.kmz": the descriptor has no quad. *)
Lemma descriptor_failure_leaves_nothing_witness :
  exists w',
    convert_kmz Folder.platform "/in/noquad.kmz" Folder.world = (Ok tt, w') /\
    failed_list w' = failed_list Folder.world ++ [base_of "/in/noquad.kmz"] /\
    success_list w' = success_list Folder.world /\
    gdal_calls w' = gdal_calls Folder.world /\
    fs w' !! out_tif_of Folder.platform "/in/noquad.kmz" = None /\
    fs w' !! tmp_tif_of Folder.platform "/in/noquad.kmz" =
      fs Folder.world !! tmp_tif_of Folder.platform "/in/noquad.kmz".
Proof.
  apply (descriptor_failure_leaves_nothing Folder.platform "/in/noquad.kmz"
           Folder.world (Exn PlainException "No LatLonQuad found")
           (snd (descriptor_stage Folder.platform "/in/noquad.kmz"
                   (announced "/in/noquad.kmz" Folder.world)))).
  - by vm_compute.
  - by vm_compute.
Defined.

(** ** The failures of the descriptor, one by one *)

Lemma listdir_world d w : snd (Os.listdir d w) = w.
Proof.
  cbv [Os.listdir mbind M_bind get_fs mret M_ret raise].
  by destruct (fs w !! d) as [[|data]|].
Qed.

Lemma path_exists_run p w :
  Os.path_exists p w = (Ok (bool_decide (is_Some (fs w !! p))), w).
Proof. reflexivity. Qed.

Section DescriptorFailures.

Context (P : Platform).

Lemma extract_stage_calls kmz_path w w1 :
  extract_stage P kmz_path w = (Ok tt, w1) ->
  calls w1 = calls w ++ [ZipExtractAll kmz_path (tmp_dir_of P kmz_path)].
Proof.
  unfold extract_stage. intros H.
  step in H as [] e0 w0 E0; [|discriminate].
  framed same_calls (Os.makedirs (tmp_dir_of P kmz_path)) w E0.
  unfold zip_extractall in H. rewrite run_bind in H. cbv [trace] in H.
  lazymatch type of H with
  | ?m ?w2 = _ =>
      assert (F' : preserves same_calls m) by script_frame;
      specialize (F' w2); rewrite H in F'
  end.
  unfold same_calls in F, F'. cbn in F'. congruence.
Qed.

Lemma open_descriptor_after_extract kmz_path w w1 :
  extract_stage P kmz_path w = (Ok tt, w1) ->
  open_descriptor P kmz_path (base_of kmz_path) w =
  (names ← Os.listdir (tmp_dir_of P kmz_path);
   match List.filter (fun f => Str.endswith (Str.lower f) ".kml") names with
   | [] => raise (Exn PlainException "No KML found")
   | kml :: _ =>
       root ← ET_parse P (Path.join (tmp_dir_of P kmz_path) kml);
       mret (tmp_dir_of P kmz_path, root)
   end) w1.
Proof.
  unfold extract_stage, open_descriptor. fold (tmp_dir_of P kmz_path).
  intros H. rewrite !run_bind in H. rewrite !run_bind.
  destruct (Os.makedirs (tmp_dir_of P kmz_path) w) as [[[]|e] w0]; [|discriminate].
  rewrite run_bind.
  destruct (zip_extractall P kmz_path (tmp_dir_of P kmz_path) w0) as [[[]|e] w2];
    [|discriminate].
  by injection H as ->.
Qed.

End DescriptorFailures.

(** X4. When the extracted archive holds no entry whose name ends in ".kml"
    (in any letter case) at its top level, the conversion fails with
    "No KML found": the archive is recorded as failed, and the extraction is
    the only library call made, nothing is parsed. *)
Theorem no_kml_found (P : Platform) (kmz_path : string) (w w1 : World)
    (names : list string) :
  fs w !! out_tif_of P kmz_path = None ->
  extract_stage P kmz_path (announced kmz_path w) = (Ok tt, w1) ->
  fst (Os.listdir (tmp_dir_of P kmz_path) w1) = Ok names ->
  List.filter (fun f => Str.endswith (Str.lower f) ".kml") names = [] ->
  exists w',
    convert_kmz P kmz_path w = (Ok tt, w') /\
    w' = failed kmz_path (Exn PlainException "No KML found") w1 /\
    failed_list w' = failed_list w ++ [base_of kmz_path] /\
    calls w' = calls w ++ [ZipExtractAll kmz_path (tmp_dir_of P kmz_path)].
Proof.
  intros Hno Hex Hls Hnone.
  assert (Hd : descriptor_stage P kmz_path (announced kmz_path w)
               = (Raise (Exn PlainException "No KML found"), w1)).
  { unfold descriptor_stage.
    rewrite run_bind, (open_descriptor_after_extract P _ _ _ Hex), run_bind.
    pose proof (listdir_world (tmp_dir_of P kmz_path) w1) as Hw.
    destruct (Os.listdir (tmp_dir_of P kmz_path) w1) as [r w2].
    cbn in Hls, Hw. subst r w2. by rewrite Hnone. }
  eexists. split; [by apply convert_fails_in_descriptor|].
  split; [reflexivity|].
  pose proof (descriptor_stage_lists P kmz_path (announced kmz_path w)) as (_ & Hf & _).
  rewrite Hd in Hf. cbn in Hf.
  apply extract_stage_calls in Hex. cbn in Hex.
  cbn. split; congruence.
Qed.

(** X4, at "nokml.kmz", which holds an image and a text file. *)
Lemma no_kml_found_witness :
  exists w',
    convert_kmz Folder.platform "/in/nokml.kmz" Folder.world = (Ok tt, w') /\
    w' = failed "/in/nokml.kmz" (Exn PlainException "No KML found")
           (snd (extract_stage Folder.platform "/in/nokml.kmz"
                   (announced "/in/nokml.kmz" Folder.world))) /\
    failed_list w' = failed_list Folder.world ++ [base_of "/in/nokml.kmz"] /\
    calls w' = calls Folder.world ++
      [ZipExtractAll "/in/nokml.kmz" (tmp_dir_of Folder.platform "/in/nokml.kmz")].
Proof.
  apply (no_kml_found Folder.platform "/in/nokml.kmz" Folder.world
           (snd (extract_stage Folder.platform "/in/nokml.kmz"
                   (announced "/in/nokml.kmz" Folder.world)))
           ["img.png"; "notes.txt"]).
  - by vm_compute.
  - by vm_compute.
  - by vm_compute.
  - by vm_compute.
Defined.

Section ReadFailures.

Context (P : Platform).

Lemma descriptor_stage_after_open kmz_path w tmp_dir root w1 :
  open_descriptor P kmz_path (base_of kmz_path) w = (Ok (tmp_dir, root), w1) ->
  descriptor_stage P kmz_path w = read_descriptor tmp_dir root w1.
Proof. intros H. unfold descriptor_stage. by rewrite run_bind, H. Qed.

(** What is known once a descriptor-stage failure is identified. *)
Lemma read_failure kmz_path w tmp_dir root w1 e :
  fs w !! out_tif_of P kmz_path = None ->
  open_descriptor P kmz_path (base_of kmz_path) (announced kmz_path w)
    = (Ok (tmp_dir, root), w1) ->
  read_descriptor tmp_dir root w1 = (Raise e, w1) ->
  exists w',
    convert_kmz P kmz_path w = (Ok tt, w') /\
    w' = failed kmz_path e w1 /\
    failed_list w' = failed_list w ++ [base_of kmz_path] /\
    gdal_calls w' = gdal_calls w.
Proof.
  intros Hno Hopen Hread.
  assert (Hd : descriptor_stage P kmz_path (announced kmz_path w) = (Raise e, w1))
    by by rewrite (descriptor_stage_after_open _ _ _ _ _ Hopen).
  eexists. split; [by apply convert_fails_in_descriptor|].
  split; [reflexivity|].
  pose proof (descriptor_stage_lists P kmz_path (announced kmz_path w)) as (_ & Hf & _).
  pose proof (descriptor_stage_gdal P kmz_path (announced kmz_path w)) as Hg.
  rewrite Hd in Hf, Hg. cbn in Hf. cbn [snd] in Hg.
  cbn. split; [congruence | exact Hg].
Qed.

End ReadFailures.

(** X5. A descriptor without a LatLonQuad element holding a coordinates
    element makes the conversion fail with "No LatLonQuad found", before any
    GDAL function is called. *)
Theorem no_quad_found (P : Platform) (kmz_path : string) (w : World)
    (tmp_dir : string) (root : Element) (w1 : World) :
  fs w !! out_tif_of P kmz_path = None ->
  open_descriptor P kmz_path (base_of kmz_path) (announced kmz_path w)
    = (Ok (tmp_dir, root), w1) ->
  ET.find latlon_quad_path root = None ->
  exists w',
    convert_kmz P kmz_path w = (Ok tt, w') /\
    w' = failed kmz_path (Exn PlainException "No LatLonQuad found") w1 /\
    failed_list w' = failed_list w ++ [base_of kmz_path] /\
    gdal_calls w' = gdal_calls w.
Proof.
  intros Hno Hopen Hquad. apply (read_failure P _ _ _ _ _ _ Hno Hopen).
  unfold read_descriptor. by rewrite Hquad.
Qed.

(** X5, at "noquad.kmz". *)
Lemma no_quad_found_witness :
  exists w',
    convert_kmz Folder.platform "/in/noquad.kmz" Folder.world = (Ok tt, w') /\
    w' = failed "/in/noquad.kmz" (Exn PlainException "No LatLonQuad found")
           (snd (open_descriptor Folder.platform "/in/noquad.kmz" "noquad"
                   (announced "/in/noquad.kmz" Folder.world))) /\
    failed_list w' = failed_list Folder.world ++ [base_of "/in/noquad.kmz"] /\
    gdal_calls w' = gdal_calls Folder.world.
Proof.
  apply (no_quad_found Folder.platform "/in/noquad.kmz" Folder.world
           "/in/Converted GeoTIFFs/_temp/noquad" Folder.kml_noquad).
  - by vm_compute.
  - by vm_compute.
  - by vm_compute.
Defined.

(** X6. When the image the descriptor refers to is not among the extracted
    files, the conversion fails with "Image file not found: " followed by
    the path looked for, and [gdal.Open] is not called. *)
Theorem image_not_found (P : Platform) (kmz_path : string) (w : World)
    (tmp_dir : string) (root : Element) (w1 : World)
    (quad : Element) (text : string) (coords : list (list PyFloat.t))
    (go icon : Element) (href : string) :
  fs w !! out_tif_of P kmz_path = None ->
  open_descriptor P kmz_path (base_of kmz_path) (announced kmz_path w)
    = (Ok (tmp_dir, root), w1) ->
  ET.find latlon_quad_path root = Some quad ->
  ET.text quad = Some text ->
  parse_coords text = Ok coords ->
  length coords = 4%nat ->
  ET.find ground_overlay_path root = Some go ->
  ET.find icon_href_path go = Some icon ->
  ET.text icon = Some href ->
  fs w1 !! Path.join tmp_dir href = None ->
  exists w',
    convert_kmz P kmz_path w = (Ok tt, w') /\
    w' = failed kmz_path
           (Exn PlainException ("Image file not found: " +:+ Path.join tmp_dir href))
           w1 /\
    failed_list w' = failed_list w ++ [base_of kmz_path] /\
    gdal_calls w' = gdal_calls w.
Proof.
  intros Hno Hopen Hquad Htext Hparse Hlen Hgo Hicon Hhref Himg.
  apply (read_failure P _ _ _ _ _ _ Hno Hopen).
  unfold read_descriptor. rewrite Hquad, Htext. cbn [attr_of].
  rewrite run_bind. cbv [lift]. rewrite run_bind, Hparse, Hlen. cbn [Nat.eqb negb].
  rewrite Hgo. cbn [attr_of]. rewrite run_bind, run_bind, Hicon. cbn [attr_of].
  rewrite run_bind, Hhref. cbn [attr_of].
  rewrite run_bind, path_exists_run.
  by rewrite bool_decide_eq_false_2 by (rewrite Himg; by intros [? ?]).
Qed.

(** X6, at "noimage.kmz", whose descriptor "Doc.KML" names "img.png" and
    which holds no such file. *)
Lemma image_not_found_witness :
  exists w',
    convert_kmz Folder.platform "/in/noimage.kmz" Folder.world = (Ok tt, w') /\
    w' = failed "/in/noimage.kmz"
           (Exn PlainException
              ("Image file not found: " +:+
               Path.join "/in/Converted GeoTIFFs/_temp/noimage" "img.png"))
           (snd (open_descriptor Folder.platform "/in/noimage.kmz" "noimage"
                   (announced "/in/noimage.kmz" Folder.world))) /\
    failed_list w' = failed_list Folder.world ++ [base_of "/in/noimage.kmz"] /\
    gdal_calls w' = gdal_calls Folder.world.
Proof.
  apply (image_not_found Folder.platform "/in/noimage.kmz" Folder.world
           "/in/Converted GeoTIFFs/_temp/noimage" Folder.kml_good
           (snd (open_descriptor Folder.platform "/in/noimage.kmz" "noimage"
                   (announced "/in/noimage.kmz" Folder.world)))
           (Elem (qname kml_ns "coordinates") (Some Folder.quad4) []) Folder.quad4
           [[PyFloat.Finite true 1225 (-1); PyFloat.Finite false 378 (-1); PyFloat.Finite false 0 0];
            [PyFloat.Finite true 1224 (-1); PyFloat.Finite false 378 (-1); PyFloat.Finite false 0 0];
            [PyFloat.Finite true 1224 (-1); PyFloat.Finite false 377 (-1); PyFloat.Finite false 0 0];
            [PyFloat.Finite true 1225 (-1); PyFloat.Finite false 377 (-1); PyFloat.Finite false 0 0]]
           (Folder.overlay [Folder.icon (Some "img.png"); Folder.quad (Some Folder.quad4)])
           (Elem (qname kml_ns "href") (Some "img.png") []) "img.png").
  - by vm_compute.
  - by vm_compute.
  - by vm_compute.
  - reflexivity.
  - by vm_compute.
  - reflexivity.
  - by vm_compute.
  - by vm_compute.
  - reflexivity.
  - by vm_compute.
Defined.

(** X7. The script does not guard against a missing ground overlay: when
    the descriptor has a quad with four points but no GroundOverlay element
    below its root, the conversion fails with the description of the
    AttributeError raised by [go.find] on None, not with a message of its
    own; no GDAL function is called. *)
Theorem missing_overlay_is_an_attribute_error (P : Platform) (kmz_path : string)
    (w : World) (tmp_dir : string) (root : Element) (w1 : World)
    (quad : Element) (text : string) (coords : list (list PyFloat.t)) :
  fs w !! out_tif_of P kmz_path = None ->
  open_descriptor P kmz_path (base_of kmz_path) (announced kmz_path w)
    = (Ok (tmp_dir, root), w1) ->
  ET.find latlon_quad_path root = Some quad ->
  ET.text quad = Some text ->
  parse_coords text = Ok coords ->
  length coords = 4%nat ->
  ET.find ground_overlay_path root = None ->
  exists w',
    convert_kmz P kmz_path w = (Ok tt, w') /\
    w' = failed kmz_path
           (Exn AttributeError "'NoneType' object has no attribute 'find'") w1 /\
    failed_list w' = failed_list w ++ [base_of kmz_path] /\
    gdal_calls w' = gdal_calls w.
Proof.
  intros Hno Hopen Hquad Htext Hparse Hlen Hgo.
  apply (read_failure P _ _ _ _ _ _ Hno Hopen).
  unfold read_descriptor. rewrite Hquad, Htext. cbn [attr_of].
  rewrite run_bind. cbv [lift]. rewrite run_bind, Hparse, Hlen. cbn [Nat.eqb negb].
  by rewrite Hgo.
Qed.

(** X7, at "nooverlay.kmz", whose quad sits in a photo overlay. *)
Lemma missing_overlay_is_an_attribute_error_witness :
  exists w',
    convert_kmz Folder.platform "/in/nooverlay.kmz" Folder.world = (Ok tt, w') /\
    w' = failed "/in/nooverlay.kmz"
           (Exn AttributeError "'NoneType' object has no attribute 'find'")
           (snd (open_descriptor Folder.platform "/in/nooverlay.kmz" "nooverlay"
                   (announced "/in/nooverlay.kmz" Folder.world))) /\
    failed_list w' = failed_list Folder.world ++ [base_of "/in/nooverlay.kmz"] /\
    gdal_calls w' = gdal_calls Folder.world.
Proof.
  apply (missing_overlay_is_an_attribute_error Folder.platform "/in/nooverlay.kmz"
           Folder.world "/in/Converted GeoTIFFs/_temp/nooverlay" Folder.kml_nooverlay
           (snd (open_descriptor Folder.platform "/in/nooverlay.kmz" "nooverlay"
                   (announced "/in/nooverlay.kmz" Folder.world)))
           (Elem (qname kml_ns "coordinates") (Some Folder.quad4) []) Folder.quad4
           [[PyFloat.Finite true 1225 (-1); PyFloat.Finite false 378 (-1); PyFloat.Finite false 0 0];
            [PyFloat.Finite true 1224 (-1); PyFloat.Finite false 378 (-1); PyFloat.Finite false 0 0];
            [PyFloat.Finite true 1224 (-1); PyFloat.Finite false 377 (-1); PyFloat.Finite false 0 0];
            [PyFloat.Finite true 1225 (-1); PyFloat.Finite false 377 (-1); PyFloat.Finite false 0 0]]).
  - by vm_compute.
  - by vm_compute.
  - by vm_compute.
  - reflexivity.
  - by vm_compute.
  - reflexivity.
  - by vm_compute.
Defined.

(** ** Points that are too short *)

Lemma build_gcps_short (coords : list (list PyFloat.t)) (W H : Z) :
  length coords = 4%nat ->
  forallb has_lon_lat coords = false ->
  build_gcps coords W H = Raise (Exn IndexError "tuple index out of range").
Proof.
  destruct coords as [|c0 [|c1 [|c2 [|c3 [|c4 rest]]]]]; try discriminate.
  intros _. unfold build_gcps.
  destruct c0 as [|x0 [|y0 r0]]; try reflexivity.
  destruct c1 as [|x1 [|y1 r1]]; try reflexivity.
  destruct c2 as [|x2 [|y2 r2]]; try reflexivity.
  destruct c3 as [|x3 [|y3 r3]]; try reflexivity.
  discriminate.
Qed.

(** X8. A point with fewer than two fields is not caught by the parser nor
    by the count of points: with four points of which one is too short, the
    rectification opens the image and then fails with "tuple index out of
    range", before [gdal.Translate] is called; nothing is written. *)
Theorem short_point_fails_after_open (P : Platform) (base out_tif img data : string)
    (W H : Z) (coords : list (list PyFloat.t)) (w : World) :
  fs w !! img = Some (File data) ->
  raster_size P data = Ok (W, H) ->
  length coords = 4%nat ->
  forallb has_lon_lat coords = false ->
  rectify_and_encode P base out_tif coords img w =
  (Raise (Exn IndexError "tuple index out of range"),
   mkWorld (fs w) (success_list w) (failed_list w) (skipped_list w) (stdout w)
     (calls w ++ [GdalOpen img])).
Proof.
  intros Himg Hsize Hlen Hshort. unfold rectify_and_encode.
  assert (Hopen : gdal_Open P img w =
            (Ok (Some (mkDataset img data W H)),
             mkWorld (fs w) (success_list w) (failed_list w) (skipped_list w)
               (stdout w) (calls w ++ [GdalOpen img]))).
  { unfold gdal_Open, gdal_read.
    cbv [mbind M_bind trace get_fs lift mret M_ret]. cbn [fs].
    by rewrite Himg, Hsize. }
  rewrite run_bind, Hopen. cbn [RasterXSize RasterYSize].
  rewrite run_bind. cbv [lift]. by rewrite (build_gcps_short coords W H Hlen Hshort).
Qed.

(** X8, at the points "1 2 3 4" and the image of "short.kmz", once
    extracted. *)
Lemma short_point_fails_after_open_witness :
  let w := snd (open_descriptor Folder.platform "/in/short.kmz" "short" Folder.world) in
  let img := "/in/Converted GeoTIFFs/_temp/short/img.png" in
  let coords := [[PyFloat.Finite false 1 0]; [PyFloat.Finite false 2 0];
                 [PyFloat.Finite false 3 0]; [PyFloat.Finite false 4 0]] in
  parse_coords "1 2 3 4" = Ok coords /\
  rectify_and_encode Folder.platform "short" "/in/Converted GeoTIFFs/short.tif"
    coords img w =
  (Raise (Exn IndexError "tuple index out of range"),
   mkWorld (fs w) (success_list w) (failed_list w) (skipped_list w) (stdout w)
     (calls w ++ [GdalOpen img])).
Proof.
  intros w img coords. split; [reflexivity|].
  apply (short_point_fails_after_open Folder.platform "short"
           "/in/Converted GeoTIFFs/short.tif" img "png" 640 480 coords w).
  - by vm_compute.
  - by vm_compute.
  - reflexivity.
  - reflexivity.
Defined.

(** ** The library calls of a conversion that succeeds *)

Lemma traced_calls {A} (c : call) (m : M A) (w : World) :
  preserves same_calls m -> calls (snd ((trace c;; m) w)) = calls w ++ [c].
Proof.
  intros F. rewrite run_bind. cbv [trace].
  lazymatch goal with |- context [m ?w'] => specialize (F w') end.
  destruct (m _) as [[x|e] w1]; exact F.
Qed.

Section Trace.

Context (P : Platform).

Lemma zip_extractall_calls src dst w :
  calls (snd (zip_extractall P src dst w)) = calls w ++ [ZipExtractAll src dst].
Proof. unfold zip_extractall. apply traced_calls. script_frame. Qed.

Lemma ET_parse_calls path w :
  calls (snd (ET_parse P path w)) = calls w ++ [EtParse path].
Proof. unfold ET_parse. apply traced_calls. frame. Qed.

Lemma gdal_Translate_calls dst ds gcps srs w :
  calls (snd (gdal_Translate P dst ds gcps srs w)) =
  calls w ++ [GdalTranslate dst ds gcps srs].
Proof. unfold gdal_Translate. apply traced_calls. unfold gdal_write. frame. Qed.

Lemma gdal_Warp_calls dst src srs tps opts w :
  calls (snd (gdal_Warp P dst src srs tps opts w)) =
  calls w ++ [GdalWarp dst src srs tps opts].
Proof. unfold gdal_Warp. apply traced_calls. frame. Qed.

Lemma remove_calls p w : calls (snd (Os.remove p w)) = calls w ++ [OsRemove p].
Proof.
  unfold Os.remove. apply traced_calls.
  apply preserves_bind; [apply _ | auto with frame |].
  intros f. destruct (f !! p) as [[|data]|]; auto with frame.
Qed.

Lemma gdal_Open_ok path w ds w1 :
  gdal_Open P path w = (Ok ds, w1) ->
  exists d, ds = Some d /\ calls w1 = calls w ++ [GdalOpen path].
Proof.
  intros H.
  assert (Hc : calls (snd (gdal_Open P path w)) = calls w ++ [GdalOpen path]).
  { unfold gdal_Open. apply traced_calls. unfold gdal_read. frame. }
  rewrite H in Hc. cbn [snd] in Hc.
  unfold gdal_Open in H.
  step in H as [] e0 w0 E0; [|discriminate].
  step in H as data e2 w2 E2; [|discriminate].
  step in H as [W Hh] e3 w3 E3; [|discriminate].
  injection H as <- <-. by eexists.
Qed.

Lemma open_descriptor_ok kmz_path w tmp_dir root w1 :
  open_descriptor P kmz_path (base_of kmz_path) w = (Ok (tmp_dir, root), w1) ->
  tmp_dir = tmp_dir_of P kmz_path /\
  exists kml,
    calls w1 = calls w ++
      [ZipExtractAll kmz_path (tmp_dir_of P kmz_path);
       EtParse (Path.join (tmp_dir_of P kmz_path) kml)].
Proof.
  unfold open_descriptor. fold (tmp_dir_of P kmz_path). intros H.
  step in H as [] e0 w0 E0; [|discriminate].
  framed same_calls (Os.makedirs (tmp_dir_of P kmz_path)) w E0.
  step in H as [] e2 w2 E2; [|discriminate].
  pose proof (zip_extractall_calls kmz_path (tmp_dir_of P kmz_path) w0) as Hz.
  rewrite E2 in Hz. cbn [snd] in Hz.
  step in H as names e3 w3 E3; [|discriminate].
  pose proof (listdir_world (tmp_dir_of P kmz_path) w2) as Hl.
  rewrite E3 in Hl. cbn [snd] in Hl. subst w3.
  destruct (List.filter _ names) as [|kml rest]; [discriminate|].
  step in H as root' e4 w4 E4; [|discriminate].
  pose proof (ET_parse_calls (Path.join (tmp_dir_of P kmz_path) kml) w2) as Hp.
  rewrite E4 in Hp. cbn [snd] in Hp.
  injection H as <- <- <-. split; [reflexivity|]. exists kml.
  unfold same_calls in F. rewrite Hp, Hz, F, <- app_assoc. reflexivity.
Qed.

Lemma build_gcps_length coords W H gcps :
  build_gcps coords W H = Ok gcps -> length gcps = 4%nat.
Proof. unfold build_gcps. by intros ->%traverse_length. Qed.

Lemma rectify_and_encode_ok base out_tif coords img w w1 :
  rectify_and_encode P base out_tif coords img w = (Ok tt, w1) ->
  exists ds gcps,
    build_gcps coords (RasterXSize ds) (RasterYSize ds) = Ok gcps /\
    calls w1 = calls w ++
      [GdalOpen img;
       GdalTranslate (Path.join (OUTPUT_FOLDER P) (base +:+ "_with_gcps.tif"))
         ds gcps "EPSG:4326";
       GdalWarp out_tif (Path.join (OUTPUT_FOLDER P) (base +:+ "_with_gcps.tif"))
         "EPSG:4326" true creation_options;
       OsRemove (Path.join (OUTPUT_FOLDER P) (base +:+ "_with_gcps.tif"))].
Proof.
  unfold rectify_and_encode.
  set (tmp_tif := Path.join (OUTPUT_FOLDER P) (base +:+ "_with_gcps.tif")).
  intros H.
  step in H as ds e0 w0 E0; [|discriminate].
  apply gdal_Open_ok in E0 as (d & -> & Hc0).
  step in H as gcps e2 w2 E2; [|discriminate].
  cbv [lift] in E2. injection E2 as Hg <-.
  step in H as [] e3 w3 E3; [|discriminate].
  pose proof (gdal_Translate_calls tmp_tif d gcps "EPSG:4326" w0) as Hc3.
  rewrite E3 in Hc3. cbn [snd] in Hc3.
  step in H as [] e4 w4 E4; [|discriminate].
  pose proof (gdal_Warp_calls out_tif tmp_tif "EPSG:4326" true creation_options w3) as Hc4.
  rewrite E4 in Hc4. cbn [snd] in Hc4.
  step in H as [] e5 w5 E5; [|discriminate].
  pose proof (remove_calls tmp_tif w4) as Hc5.
  rewrite E5 in Hc5. cbn [snd] in Hc5.
  cbv [success_list_append print mbind M_bind] in H. injection H as <-.
  exists d, gcps. split; [exact Hg|]. cbn [calls].
  rewrite Hc5, Hc4, Hc3, Hc0, <- !app_assoc. reflexivity.
Qed.

End Trace.

(** X9. A conversion that succeeds has called the libraries six times, in
    this order: the archive is extracted into the working directory, one
    KML file of that directory is parsed, the image is opened, translated
    with four ground-control points and the reference system "EPSG:4326"
    into the intermediate file, the intermediate file is warped into the
    output file with [tps] set and the six creation options (tiling, JPEG
    compression at quality 50, BIGTIFF=IF_SAFER, 512 x 512 blocks), and the
    intermediate file is removed. *)
Theorem successful_conversion_trace (P : Platform) (kmz_path : string)
    (w w1 : World) :
  fs w !! out_tif_of P kmz_path = None ->
  body_of P kmz_path (announced kmz_path w) = (Ok tt, w1) ->
  convert_kmz P kmz_path w = (Ok tt, w1) /\
  exists kml img ds gcps,
    calls w1 = calls w ++ pipeline_calls P kmz_path kml img ds gcps /\
    length gcps = 4%nat.
Proof.
  intros Hno Hb. split; [by rewrite (convert_kmz_run P kmz_path w Hno), Hb|].
  rewrite body_of_stages in Hb.
  destruct (descriptor_stage P kmz_path (announced kmz_path w))
    as [[[coords img]|e] wd] eqn:Hd; [|discriminate].
  unfold descriptor_stage in Hd.
  step in Hd as [t root] e0 w0 E0; [|discriminate].
  apply open_descriptor_ok in E0 as (-> & kml & Hc0).
  pose proof (read_descriptor_calls (tmp_dir_of P kmz_path) root w0) as Hr.
  rewrite Hd in Hr. unfold same_calls in Hr. cbn [snd] in Hr.
  apply rectify_and_encode_ok in Hb as (ds & gcps & Hg & Hc).
  exists kml, img, ds, gcps. split; [|by apply build_gcps_length in Hg].
  unfold pipeline_calls, tmp_tif_of. rewrite Hc, Hr, Hc0. cbn [calls announced].
  by rewrite <- app_assoc.
Qed.

(** X9, at "site.kmz" of the second folder. *)
Lemma successful_conversion_trace_witness :
  let w1 := snd (body_of Folder.platform "/in/site.kmz"
                   (announced "/in/site.kmz" Folder.world)) in
  convert_kmz Folder.platform "/in/site.kmz" Folder.world = (Ok tt, w1) /\
  exists kml img ds gcps,
    calls w1 = calls Folder.world ++
               pipeline_calls Folder.platform "/in/site.kmz" kml img ds gcps /\
    length gcps = 4%nat.
Proof.
  apply (successful_conversion_trace Folder.platform "/in/site.kmz" Folder.world).
  - by vm_compute.
  - by vm_compute.
Defined.

(** ** Converting again *)

(** X10. Converting an archive a second time right after it was converted
    successfully takes the skip path: the second call makes no library call
    and leaves the file system as the first call left it; the base name is
    then once in the success list and once in the skipped list. *)
Theorem reconversion_is_skipped (P : Platform) (kmz_path : string) (w w1 : World) :
  fs w !! out_tif_of P kmz_path = None ->
  body_of P kmz_path (announced kmz_path w) = (Ok tt, w1) ->
  exists w2,
    (convert_kmz P kmz_path;; convert_kmz P kmz_path) w = (Ok tt, w2) /\
    fs w2 = fs w1 /\
    calls w2 = calls w1 /\
    success_list w2 = success_list w ++ [base_of kmz_path] /\
    skipped_list w2 = skipped_list w ++ [base_of kmz_path] /\
    failed_list w2 = failed_list w.
Proof.
  intros Hno Hb. exists (skipped kmz_path w1).
  split; [by apply convert_again_after_success|].
  pose proof (convert_body_outcome P kmz_path (announced kmz_path w)) as H.
  rewrite Hb in H. destruct H as (Hs & Hf & Hk & _). cbn in Hs, Hf, Hk.
  cbn. repeat split; congruence.
Qed.

(** X10, at "site.kmz" of the second folder. *)
Lemma reconversion_is_skipped_witness :
  let w1 := snd (body_of Folder.platform "/in/site.kmz"
                   (announced "/in/site.kmz" Folder.world)) in
  exists w2,
    (convert_kmz Folder.platform "/in/site.kmz";;
     convert_kmz Folder.platform "/in/site.kmz") Folder.world = (Ok tt, w2) /\
    fs w2 = fs w1 /\
    calls w2 = calls w1 /\
    success_list w2 = success_list Folder.world ++ [base_of "/in/site.kmz"] /\
    skipped_list w2 = skipped_list Folder.world ++ [base_of "/in/site.kmz"] /\
    failed_list w2 = failed_list Folder.world.
Proof.
  apply (reconversion_is_skipped Folder.platform "/in/site.kmz" Folder.world).
  - by vm_compute.
  - by vm_compute.
Defined.

(** X11. The intermediate file of an archive A has the path of the output
    file of an archive named A followed by "_with_gcps": when A is
    converted successfully, that path is written and then removed, so the
    output of the other archive, if it was there, is gone afterwards. *)
Theorem intermediate_name_collision (P : Platform) (kmz_a kmz_b : string)
    (w w1 : World) :
  base_of kmz_b = base_of kmz_a +:+ "_with_gcps" ->
  fs w !! out_tif_of P kmz_a = None ->
  body_of P kmz_a (announced kmz_a w) = (Ok tt, w1) ->
  convert_kmz P kmz_a w = (Ok tt, w1) /\
  out_tif_of P kmz_b = tmp_tif_of P kmz_a /\
  fs w1 !! out_tif_of P kmz_b = None.
Proof.
  intros Hbase Hno Hb.
  assert (Hpath : out_tif_of P kmz_b = tmp_tif_of P kmz_a).
  { unfold out_tif_of, tmp_tif_of. by rewrite Hbase, app_assoc_str. }
  split; [by rewrite (convert_kmz_run P kmz_a w Hno), Hb|].
  split; [exact Hpath|]. rewrite Hpath.
  pose proof (convert_body_outcome P kmz_a (announced kmz_a w)) as H.
  rewrite Hb in H. by destruct H as (_ & _ & _ & Htmp & _).
Qed.

(** X11, at "site.kmz" and "site_with_gcps.kmz" of the second folder, where
    "site_with_gcps.tif" is there before "site.kmz" is converted. *)
Lemma intermediate_name_collision_witness :
  let w1 := snd (body_of Folder.platform "/in/site.kmz"
                   (announced "/in/site.kmz" Folder.world)) in
  fs Folder.world !! out_tif_of Folder.platform "/in/site_with_gcps.kmz"
    = Some (File "an earlier output") /\
  convert_kmz Folder.platform "/in/site.kmz" Folder.world = (Ok tt, w1) /\
  out_tif_of Folder.platform "/in/site_with_gcps.kmz"
    = tmp_tif_of Folder.platform "/in/site.kmz" /\
  fs w1 !! out_tif_of Folder.platform "/in/site_with_gcps.kmz" = None.
Proof.
  intros w1. split; [by vm_compute|].
  apply (intermediate_name_collision Folder.platform "/in/site.kmz"
           "/in/site_with_gcps.kmz" Folder.world).
  - by vm_compute.
  - by vm_compute.
  - by vm_compute.
Defined.

(** ** The end of a run *)

Section RunEnd.

Context (P : Platform).

Lemma log_nothing_to_report w :
  success_list w = [] -> log_successful_conversions P w = (Ok tt, w).
Proof.
  intros Hs. unfold log_successful_conversions.
  rewrite run_bind. cbv [get_success_list]. by rewrite Hs.
Qed.

(** What a batch over a list of archives comes to. *)
Lemma batch_cases kmz_files w :
  (kmz_files = [] /\
   batch P kmz_files w =
   (Ok tt, printed ["No KMZ files found in: " +:+ SCRIPT_DIR P] w))
  \/
  (kmz_files <> [] /\
   exists w1,
     for_each kmz_files (process P) w = (Ok tt, w1) /\
     fs w1 !! LOG_FILE P = fs w !! LOG_FILE P /\
     batch P kmz_files w =
     log_successful_conversions P (printed (summary_lines P w1) w1)).
Proof.
  destruct kmz_files as [|kmz l]; [left; by split | right].
  split; [done|].
  destruct (loop_outcomes P (kmz :: l) w) as (w1 & run & Hloop & _).
  exists w1. split; [exact Hloop|].
  pose proof (loop_log P (kmz :: l) w) as Hlog.
  rewrite Hloop in Hlog. split; [exact Hlog|].
  by apply batch_run.
Qed.

End RunEnd.

(** X12. A batch run in which no archive is converted successfully (all are
    skipped or fail, or there is none) returns normally and leaves the log
    file as it was; if there was no log file, none is created. *)
Theorem run_without_success_leaves_log (P : Platform) (kmz_files : list string)
    (w : World) :
  success_list (snd (for_each kmz_files (process P) w)) = [] ->
  exists w',
    batch P kmz_files w = (Ok tt, w') /\
    fs w' !! LOG_FILE P = fs w !! LOG_FILE P.
Proof.
  intros Hs.
  destruct (batch_cases P kmz_files w) as [[-> ->] | [_ (w1 & Hloop & Hlog & ->)]].
  - by eexists.
  - rewrite Hloop in Hs. cbn [snd] in Hs.
    rewrite log_nothing_to_report by exact Hs.
    eexists. split; [reflexivity|]. exact Hlog.
Qed.

(** X12, at three failing archives of the second folder. *)
Lemma run_without_success_leaves_log_witness :
  exists w',
    batch Folder.platform ["nokml.kmz"; "noquad.kmz"; "short.kmz"] Folder.world
      = (Ok tt, w') /\
    fs w' !! LOG_FILE Folder.platform = fs Folder.world !! LOG_FILE Folder.platform.
Proof.
  apply (run_without_success_leaves_log Folder.platform
           ["nokml.kmz"; "noquad.kmz"; "short.kmz"] Folder.world).
  by vm_compute.
Defined.

(** X13. [main] returns normally whatever the archives hold: provided the
    script's directory can be listed and the log path does not name a
    directory, no failure of a conversion, of whatever kind, makes [main]
    raise. *)
Theorem main_returns_normally (P : Platform) (w : World) :
  fs w !! SCRIPT_DIR P = Some Dir ->
  fs w !! LOG_FILE P <> Some Dir ->
  exists w', main P w = (Ok tt, w').
Proof.
  intros Hdir Hlog. unfold main. rewrite run_bind.
  cbv [Os.listdir mbind M_bind get_fs mret M_ret]. rewrite Hdir.
  set (kmz_files := List.filter _ _).
  destruct (batch_cases P kmz_files w) as [[_ ->] | [_ (w1 & Hloop & Hl & ->)]].
  - by eexists.
  - destruct (success_list w1) as [|s0 ss] eqn:Hs.
    + rewrite log_nothing_to_report by exact Hs. by eexists.
    + rewrite log_successful_conversions_run; [by eexists | |].
      * cbn [printed success_list]. by rewrite Hs.
      * cbn [printed fs]. by rewrite Hl.
Qed.

(** X13, at the second folder. *)
Lemma main_returns_normally_witness :
  exists w', main Folder.platform Folder.world = (Ok tt, w').
Proof.
  apply (main_returns_normally Folder.platform Folder.world).
  - by vm_compute.
  - by vm_compute.
Defined.

(** X14. The log writer is not guarded: when the log path names a directory
    and at least one archive was converted, the run raises the error of
    [open] after all archives have been processed and the summary printed;
    nothing of the conversions is undone. *)
Theorem log_failure_escapes (P : Platform) (kmz_files : list string)
    (files : gmap string node) :
  let w0 := initial_world files in
  let w1 := snd (for_each kmz_files (process P) w0) in
  success_list w1 <> [] ->
  files !! LOG_FILE P = Some Dir ->
  batch P kmz_files w0 =
  (Raise (Os.os_error "[Errno 21] Is a directory" (LOG_FILE P)),
   printed (summary_lines P w1) w1).
Proof.
  intros w0 w1 Hs Hlog.
  destruct (batch_cases P kmz_files w0) as [[-> _] | [_ (w1' & Hloop & Hl & ->)]].
  - by destruct Hs.
  - assert (w1 = w1') as <- by (unfold w1; by rewrite Hloop).
    unfold log_successful_conversions. rewrite run_bind. cbv [get_success_list].
    cbn [printed success_list].
    destruct (success_list w1) as [|s0 ss]; [done|].
    rewrite run_bind.
    cbv [Os.append_file mbind M_bind get_fs raise]. cbn [printed fs].
    cbn [w0 initial_world fs] in Hl. by rewrite Hl, Hlog.
Qed.

(** X14, at the second folder with a directory in the place of the log. *)
Lemma log_failure_escapes_witness :
  let files := <["/in/Converted GeoTIFFs/conversion_log.txt" := Dir]> Folder.files in
  let w1 := snd (for_each ["noquad.kmz"; "site.kmz"] (process Folder.platform)
                   (initial_world files)) in
  success_list w1 = ["site"] /\
  (exists data, fs w1 !! "/in/Converted GeoTIFFs/site.tif" = Some (File data)) /\
  batch Folder.platform ["noquad.kmz"; "site.kmz"] (initial_world files) =
  (Raise (Os.os_error "[Errno 21] Is a directory" (LOG_FILE Folder.platform)),
   printed (summary_lines Folder.platform w1) w1).
Proof.
  intros files w1. split; [by vm_compute|]. split; [vm_compute; by eexists|].
  apply (log_failure_escapes Folder.platform ["noquad.kmz"; "site.kmz"] files).
  - by vm_compute.
  - by vm_compute.
Defined.

(** ** Commas and whitespace in the coordinate text *)

Lemma split_on_go_app (d : ascii) (cur a b : string) :
  Str.split_on_go d cur (a +:+ String d b) =
  Str.split_on_go d cur a ++ Str.split_on d b.
Proof.
  revert cur. induction a as [|c a IH]; intros cur.
  - rewrite app_nil_l_str. cbn [Str.split_on_go].
    by rewrite bool_decide_eq_true_2.
  - rewrite app_cons. cbn [Str.split_on_go].
    destruct (bool_decide (c = d)); by rewrite IH.
Qed.

Lemma split_on_app (d : ascii) (a b : string) :
  Str.split_on d (a +:+ String d b) = Str.split_on d a ++ Str.split_on d b.
Proof. apply split_on_go_app. Qed.

Lemma parse_point_comma (a b : string) :
  is_ok (parse_point (a +:+ "," +:+ b)) = is_ok (parse_point a) && is_ok (parse_point b).
Proof.
  unfold parse_point. rewrite !traverse_is_ok.
  change ("," +:+ b) with (String "," b). by rewrite split_on_app, forallb_app.
Qed.

(** X15. The fields of a coordinate token are what the commas separate,
    empty fields included: a token is accepted exactly when the text before
    and the text after any of its commas are, and the empty text is not.
    So a token that ends with a comma, begins with one or has two commas in
    a row is rejected, and with it the whole archive. *)
Theorem empty_field_is_rejected (a b : string) :
  is_ok (parse_point (a +:+ "," +:+ b)) = is_ok (parse_point a) && is_ok (parse_point b) /\
  is_ok (parse_point "") = false /\
  is_ok (parse_point (a +:+ ",")) = false /\
  is_ok (parse_point ("," +:+ b)) = false /\
  is_ok (parse_point (a +:+ ",," +:+ b)) = false.
Proof.
  split; [apply parse_point_comma|]. split; [reflexivity|].
  split; [|split].
  - change (a +:+ ",") with (a +:+ "," +:+ ""). rewrite parse_point_comma.
    apply andb_false_r.
  - change ("," +:+ b) with ("" +:+ "," +:+ b). by rewrite parse_point_comma.
  - change (",," +:+ b) with ("," +:+ ("," +:+ b)).
    rewrite parse_point_comma.
    change ("," +:+ b) with ("" +:+ "," +:+ b). rewrite parse_point_comma.
    apply andb_false_r.
Qed.

Lemma rev_involutive_str (s : string) : String.rev (String.rev s) = s.
Proof.
  induction s as [|c s IH]; [reflexivity|].
  by rewrite rev_cons, rev_app_distr_str, IH.
Qed.

Lemma existsb_rev f (s : string) : Str.existsb f (String.rev s) = Str.existsb f s.
Proof.
  induction s as [|c s IH]; [reflexivity|].
  rewrite rev_cons, existsb_app, IH. cbn. by rewrite orb_false_r, orb_comm.
Qed.

Lemma all_space_cons c s :
  all_space (String c s) = Str.is_space c && all_space s.
Proof. unfold all_space. cbn [Str.existsb]. by rewrite negb_orb, negb_involutive. Qed.

(** What [lstrip] removes is whitespace. *)
Lemma lstrip_split (s : string) :
  exists sp, all_space sp = true /\ s = sp +:+ Str.lstrip s.
Proof.
  induction s as [|c s (sp & Hsp & Hs)]; [by exists ""|].
  cbn [Str.lstrip]. destruct (Str.is_space c) eqn:Hc.
  - exists (String c sp). rewrite all_space_cons, Hc, Hsp.
    split; [reflexivity|]. by rewrite app_cons, <- Hs.
  - by exists "".
Qed.

Lemma split_ws_go_trailing (cur post : string) :
  all_space post = true -> Str.split_ws_go cur post = Str.split_ws_go cur "".
Proof.
  revert cur. induction post as [|c post IH]; intros cur; [reflexivity|].
  rewrite all_space_cons. intros [Hc Hp]%andb_true_iff.
  cbn [Str.split_ws_go]. rewrite Hc.
  destruct cur as [|a cur]; rewrite (IH "" Hp); reflexivity.
Qed.

Lemma split_ws_go_app_space (cur s post : string) :
  all_space post = true -> Str.split_ws_go cur (s +:+ post) = Str.split_ws_go cur s.
Proof.
  intros Hp. revert cur. induction s as [|c s IH]; intros cur.
  - rewrite app_nil_l_str. by apply split_ws_go_trailing.
  - rewrite app_cons. cbn [Str.split_ws_go].
    destruct (Str.is_space c); [destruct cur|]; by rewrite IH.
Qed.

Lemma split_ws_leading (pre s : string) :
  all_space pre = true -> Str.split_ws (pre +:+ s) = Str.split_ws s.
Proof.
  induction pre as [|c pre IH]; [reflexivity|].
  rewrite all_space_cons. intros [Hc Hp]%andb_true_iff.
  rewrite app_cons. unfold Str.split_ws. cbn [Str.split_ws_go]. rewrite Hc.
  by apply IH.
Qed.

(** [text.strip().split()] is [text.split()]. *)
Lemma split_ws_strip (s : string) : Str.split_ws (Str.strip s) = Str.split_ws s.
Proof.
  unfold Str.strip.
  destruct (lstrip_split s) as (pre & Hpre & Hs).
  destruct (lstrip_split (String.rev (Str.lstrip s))) as (post & Hpost & Hr).
  apply (f_equal String.rev) in Hr.
  rewrite rev_involutive_str, rev_app_distr_str in Hr.
  rewrite Hs at 2. rewrite (split_ws_leading pre _ Hpre).
  rewrite Hr at 2. unfold Str.split_ws. rewrite split_ws_go_app_space; [reflexivity|].
  unfold all_space. rewrite existsb_rev. exact Hpost.
Qed.

(** X16. Whitespace around the coordinate text does not matter: text with
    any whitespace (blanks, tabs, line ends) put before and after it parses
    to the same points, or fails in the same way. *)
Theorem surrounding_whitespace_is_ignored (pre text post : string) :
  all_space pre = true ->
  all_space post = true ->
  parse_coords (pre +:+ text +:+ post) = parse_coords text.
Proof.
  intros Hpre Hpost. unfold parse_coords. rewrite !split_ws_strip.
  rewrite (split_ws_leading pre _ Hpre).
  unfold Str.split_ws. by rewrite split_ws_go_app_space.
Qed.

(** X16, at a line end and blanks before the four points and a line end and
    a tab after them. *)
Lemma surrounding_whitespace_is_ignored_witness :
  parse_coords (String "010" "    " +:+ Folder.quad4 +:+ String "010" (String "009" ""))
  = parse_coords Folder.quad4.
Proof.
  apply (surrounding_whitespace_is_ignored (String "010" "    ") Folder.quad4
           (String "010" (String "009" ""))).
  - reflexivity.
  - reflexivity.
Defined.

(** ** The base name of an archive *)

Lemma rfind_go_none f s i best :
  Str.existsb f s = false -> Str.rfind_go f i best s = best.
Proof.
  revert i best. induction s as [|c s IH]; intros i best; cbn; [done|].
  intros [-> Hs]%orb_false_iff. by apply IH.
Qed.

Lemma rfind_go_app f s t i best :
  Str.rfind_go f i best (s +:+ t) =
  Str.rfind_go f (i + Z.of_nat (String.length s)) (Str.rfind_go f i best s) t.
Proof.
  revert i best. induction s as [|c s IH]; intros i best.
  - rewrite app_nil_l_str. cbn. by rewrite Z.add_0_r.
  - rewrite app_cons. cbn [Str.rfind_go String.length]. rewrite IH.
    f_equal. lia.
Qed.

(** The last occurrence: [c] is one, and none follows. *)
Lemma rfind_last f x c t :
  f c = true -> Str.existsb f t = false ->
  Str.rfind f (x +:+ String c t) = Z.of_nat (String.length x).
Proof.
  intros Hc Ht. unfold Str.rfind. rewrite rfind_go_app.
  cbn [Str.rfind_go]. rewrite Hc. rewrite rfind_go_none by exact Ht. lia.
Qed.

Lemma drop_app_length (s t : string) : Str.drop (String.length s) (s +:+ t) = t.
Proof. induction s as [|c s IH]; [by destruct t|]. by rewrite app_cons. Qed.

Lemma take_app_length (s t : string) : Str.take (String.length s) (s +:+ t) = s.
Proof.
  induction s as [|c s IH]; [by destruct t|].
  rewrite app_cons. cbn. by rewrite IH.
Qed.

Lemma endswith_sep_inv (a : string) :
  Str.endswith a "/" = true -> exists x, a = x +:+ "/".
Proof.
  unfold Str.endswith. change (String.rev "/") with "/".
  intros [r Hr]%startswith_inv. exists (String.rev r).
  apply (f_equal String.rev) in Hr.
  by rewrite rev_involutive_str, rev_app_distr_str in Hr.
Qed.

Lemma join_shape (a g : string) :
  Str.startswith g "/" = false ->
  Path.join a g = g \/ exists x, Path.join a g = x +:+ String "/" g.
Proof.
  intros Hg. unfold Path.join. rewrite Hg.
  destruct (bool_decide (a = "")) eqn:Ha; cbn [orb].
  - apply bool_decide_eq_true in Ha as ->. by left.
  - destruct (Str.endswith a "/") eqn:He.
    + apply endswith_sep_inv in He as [x ->]. right. exists x.
      by rewrite app_assoc_str.
    + right. by exists a.
Qed.

(** The base name of a name joined to a directory is the name. *)
Lemma basename_join (a f : string) :
  Str.existsb Str.is_sep f = false -> Path.basename (Path.join a f) = f.
Proof.
  intros Hf.
  destruct (join_shape a f (no_sep_not_absolute f Hf)) as [-> | [x ->]];
    unfold Path.basename.
  - unfold Str.rfind. by rewrite rfind_go_none.
  - rewrite rfind_last by done.
    replace (Z.to_nat (Z.of_nat (String.length x) + 1))
      with (String.length (x +:+ "/")).
    + change (String "/" f) with ("/" +:+ f).
      by rewrite <- app_assoc_str, drop_app_length.
    + induction x as [|c x IH]; [reflexivity|].
      rewrite app_cons. cbn [String.length]. lia.
Qed.

Lemma lower_ascii_dot (c : ascii) : Str.lower_ascii c = "."%char -> c = "."%char.
Proof.
  destruct c as [[] [] [] [] [] [] [] []]; vm_compute; congruence.
Qed.

(** A letter of the extension is neither a dot nor a separator. *)
Lemma lower_ascii_letter (c d : ascii) :
  Str.lower_ascii c = d -> d <> "."%char -> d <> "/"%char ->
  Str.is_dot c = false /\ Str.is_sep c = false.
Proof.
  intros Hl Hdot Hsep. unfold Str.is_dot, Str.is_sep.
  split; apply bool_decide_eq_false; intros ->; vm_compute in Hl; congruence.
Qed.

Lemma lower_app (s t : string) : Str.lower (s +:+ t) = Str.lower s +:+ Str.lower t.
Proof.
  unfold Str.lower. induction s as [|c s IH]; [reflexivity|].
  rewrite app_cons. cbn [Str.map]. by rewrite IH.
Qed.

Lemma endswith_app (s p : string) : Str.endswith (s +:+ p) p = true.
Proof. unfold Str.endswith. rewrite rev_app_distr_str. apply startswith_app. Qed.

(** X17. A file whose name is a stem followed by ".kmz" in any letter case
    is picked up by [main], and the base name of its path is the stem, so
    that its output is "<stem>.tif" in the output folder - provided the stem
    has a character other than a dot. *)
Theorem archive_base_name (P : Platform) (stem ext : string) :
  Str.existsb Str.is_sep stem = false ->
  Str.existsb (fun c => negb (Str.is_dot c)) stem = true ->
  Str.lower ext = ".kmz" ->
  let f := stem +:+ ext in
  Str.endswith (Str.lower f) ".kmz" = true /\
  base_of (Path.join (SCRIPT_DIR P) f) = stem /\
  out_tif_of P (Path.join (SCRIPT_DIR P) f) = OUTPUT_FOLDER P +:+ "/" +:+ stem +:+ ".tif".
Proof.
  intros Hstem Hname Hext f.
  assert (Hshape : exists c1 c2 c3,
             ext = String "." (String c1 (String c2 (String c3 ""))) /\
             Str.existsb Str.is_dot (String c1 (String c2 (String c3 ""))) = false /\
             Str.existsb Str.is_sep ext = false).
  { destruct ext as [|c0 [|c1 [|c2 [|c3 [|c4 rest]]]]]; try discriminate.
    injection Hext as H0 H1 H2 H3.
    apply lower_ascii_dot in H0 as ->.
    apply lower_ascii_letter in H1 as [D1 S1]; [|discriminate..].
    apply lower_ascii_letter in H2 as [D2 S2]; [|discriminate..].
    apply lower_ascii_letter in H3 as [D3 S3]; [|discriminate..].
    exists c1, c2, c3. cbn [Str.existsb]. rewrite D1, D2, D3, S1, S2, S3.
    by repeat split. }
  destruct Hshape as (c1 & c2 & c3 & Hshape & Hdots & Hseps).
  assert (Hf : Str.existsb Str.is_sep f = false)
    by (unfold f; by rewrite existsb_app, Hstem, Hseps).
  assert (Hbase : base_of (Path.join (SCRIPT_DIR P) f) = stem).
  { unfold base_of. rewrite basename_join by exact Hf.
    unfold Path.splitext.
    assert (Hsep : Str.rfind Str.is_sep f = -1)
      by (unfold Str.rfind; by rewrite rfind_go_none).
    assert (Hdot : Str.rfind Str.is_dot f = Z.of_nat (String.length stem)).
    { unfold f. rewrite Hshape. by apply rfind_last. }
    rewrite Hsep, Hdot.
    change (Z.to_nat (-1 + 1)) with 0%nat. cbn [Str.drop].
    replace (Z.to_nat (Z.of_nat (String.length stem) - (-1 + 1)))
      with (String.length stem) by lia.
    rewrite Nat2Z.id.
    replace (Str.drop 0 f) with f by by destruct f.
    unfold f. rewrite !take_app_length, Hname.
    replace (-1 <? Z.of_nat (String.length stem)) with true
      by (symmetry; apply Z.ltb_lt; lia).
    reflexivity. }
  split; [|split].
  - unfold f. rewrite lower_app, Hext. apply endswith_app.
  - exact Hbase.
  - by rewrite out_tif_eq, Hbase.
Qed.

(** X17, at "Site A.KMZ". *)
Lemma archive_base_name_witness :
  let f := "Site A" +:+ ".KMZ" in
  Str.endswith (Str.lower f) ".kmz" = true /\
  base_of (Path.join (SCRIPT_DIR Folder.platform) f) = "Site A" /\
  out_tif_of Folder.platform (Path.join (SCRIPT_DIR Folder.platform) f)
    = OUTPUT_FOLDER Folder.platform +:+ "/" +:+ "Site A" +:+ ".tif".
Proof.
  apply (archive_base_name Folder.platform "Site A" ".KMZ").
  - reflexivity.
  - reflexivity.
  - reflexivity.
Defined.

(** ** Two archives with one base name *)

(** X18. Two archives with the same base name share one output path: once
    the first is converted successfully, the conversion of the second takes
    the skip path - the second archive is never extracted nor converted,
    and the output stays that of the first. *)
Theorem same_base_name_is_skipped (P : Platform) (kmz_a kmz_b : string)
    (w w1 : World) :
  base_of kmz_b = base_of kmz_a ->
  fs w !! out_tif_of P kmz_a = None ->
  body_of P kmz_a (announced kmz_a w) = (Ok tt, w1) ->
  exists w2,
    (convert_kmz P kmz_a;; convert_kmz P kmz_b) w = (Ok tt, w2) /\
    fs w2 = fs w1 /\
    calls w2 = calls w1 /\
    success_list w2 = success_list w ++ [base_of kmz_a] /\
    skipped_list w2 = skipped_list w ++ [base_of kmz_b].
Proof.
  intros Hbase Hno Hb.
  pose proof (convert_body_outcome P kmz_a (announced kmz_a w)) as H.
  rewrite Hb in H. destruct H as (Hs & _ & Hk & _ & data & Hout).
  cbn in Hs, Hk.
  exists (skipped kmz_b w1). split.
  - rewrite run_bind, (convert_kmz_run P kmz_a w Hno), Hb.
    apply convert_kmz_skip. unfold out_tif_of in *. rewrite Hbase, Hout. by eexists.
  - cbn. repeat split; congruence.
Qed.

(** X18, at "site.kmz" and "site.KMZ" of the second folder. *)
Lemma same_base_name_is_skipped_witness :
  let w1 := snd (body_of Folder.platform "/in/site.kmz"
                   (announced "/in/site.kmz" Folder.world)) in
  exists w2,
    (convert_kmz Folder.platform "/in/site.kmz";;
     convert_kmz Folder.platform "/in/site.KMZ") Folder.world = (Ok tt, w2) /\
    fs w2 = fs w1 /\
    calls w2 = calls w1 /\
    success_list w2 = success_list Folder.world ++ [base_of "/in/site.kmz"] /\
    skipped_list w2 = skipped_list Folder.world ++ [base_of "/in/site.KMZ"].
Proof.
  apply (same_base_name_is_skipped Folder.platform "/in/site.kmz" "/in/site.KMZ"
           Folder.world).
  - reflexivity.
  - by vm_compute.
  - by vm_compute.
Defined.

(** ** Loading the module *)

(** Making directories up to a path at which a file sits fails, having
    made directories only. *)
Lemma makedirs_blocked (l : list string) (p data : string) (w : World) :
  fs w !! p = Some (File data) ->
  exists e w',
    for_each (l ++ [p]) Os.mkdir_exist_ok w = (Raise e, w') /\
    exn_cls e = OSError /\
    same_lists w w' /\ stdout w' = stdout w /\ calls w' = calls w.
Proof.
  revert w. induction l as [|d l IH]; intros w Hp; cbn [app].
  - rewrite run_for_each_cons.
    cbv [Os.mkdir_exist_ok mbind M_bind get_fs set_fs raise mret M_ret].
    rewrite Hp. eexists _, w. by repeat split.
  - rewrite run_for_each_cons.
    assert (Fk : preserves (kept p (File data)) (Os.mkdir_exist_ok d))
      by auto with frame.
    assert (Fl : preserves same_lists (Os.mkdir_exist_ok d)) by auto with frame.
    assert (Fs : preserves same_stdout (Os.mkdir_exist_ok d)) by auto with frame.
    assert (Fc : preserves same_calls (Os.mkdir_exist_ok d)) by auto with frame.
    specialize (Fk w). specialize (Fl w). specialize (Fs w). specialize (Fc w).
    destruct (Os.mkdir_exist_ok d w) as [[[]|e] w1] eqn:E; cbn [snd] in *.
    + destruct (IH w1 (Fk Hp)) as (e & w' & Hrun & Hcls & Hl & Hs & Hc).
      exists e, w'. split; [exact Hrun|]. split; [exact Hcls|].
      unfold same_stdout, same_calls in *.
      split; [by etrans|]. split; congruence.
    + exists e, w1. split; [reflexivity|].
      assert (exn_cls e = OSError).
      { revert E. cbv [Os.mkdir_exist_ok mbind M_bind get_fs set_fs raise mret M_ret].
        destruct (fs w !! d) as [[|data']|]; intros H; by simplify_eq. }
      split; [assumption|]. split; [exact Fl|]. split; [exact Fs | exact Fc].
Qed.

(** X19. When a file sits where the output folder is to be, the script
    stops while the module is loaded (line 11) with an OSError: [main] is not
    run, nothing is printed, no archive is touched and no library is
    called. *)
Theorem blocked_output_folder_stops_script (P : Platform) (w : World)
    (data : string) :
  fs w !! OUTPUT_FOLDER P = Some (File data) ->
  exists e w',
    script P w = (Raise e, w') /\
    exn_cls e = OSError /\
    stdout w' = stdout w /\
    calls w' = calls w /\
    success_list w' = success_list w.
Proof.
  intros Hout. unfold script, Os.makedirs. rewrite run_bind.
  destruct (makedirs_blocked (Path.ancestors (OUTPUT_FOLDER P)) _ _ w Hout)
    as (e & w' & -> & Hcls & (Hs & _) & Hstd & Hc).
  by exists e, w'.
Qed.

(** X19, at the second folder with a file named "Converted GeoTIFFs". *)
Lemma blocked_output_folder_stops_script_witness :
  let w := initial_world (<["/in/Converted GeoTIFFs" := File "notes"]> Folder.files) in
  exists e w',
    script Folder.platform w = (Raise e, w') /\
    exn_cls e = OSError /\
    stdout w' = stdout w /\
    calls w' = calls w /\
    success_list w' = success_list w.
Proof.
  intros w.
  apply (blocked_output_folder_stops_script Folder.platform w "notes").
  by vm_compute.
Defined.

(** ** What the output file holds *)

Section Dataflow.

Context (P : Platform).

Lemma gdal_Open_inv path w d w0 :
  gdal_Open P path w = (Ok (Some d), w0) ->
  fs w0 = fs w /\
  d = mkDataset path (ds_data d) (RasterXSize d) (RasterYSize d) /\
  fs w !! path = Some (File (ds_data d)) /\
  raster_size P (ds_data d) = Ok (RasterXSize d, RasterYSize d).
Proof.
  cbv [gdal_Open gdal_read trace lift mbind M_bind mret M_ret get_fs raise].
  cbn [fs]. destruct (fs w !! path) as [[|data]|] eqn:Hp; try discriminate.
  destruct (raster_size P data) as [[W H]|e] eqn:Hs; [|discriminate].
  intros [= <- <-]. by repeat split.
Qed.

Lemma gdal_Translate_inv dst ds gcps srs w w' :
  gdal_Translate P dst ds gcps srs w = (Ok tt, w') ->
  exists mid,
    translate_output P ds gcps srs = Ok mid /\
    fs w' = <[dst := File mid]> (fs w).
Proof.
  cbv [gdal_Translate gdal_write trace lift mbind M_bind mret M_ret get_fs set_fs raise].
  cbn [fs]. destruct (translate_output P ds gcps srs) as [mid|e] eqn:Hmid;
    [|discriminate].
  intros H. cbn [fs] in H. exists mid. split; [reflexivity|].
  destruct (fs w !! dst) as [[|data]|]; by simplify_eq.
Qed.

Lemma gdal_Warp_inv dst src srs tps opts w w' :
  gdal_Warp P dst src srs tps opts w = (Ok tt, w') ->
  exists data res,
    fs w !! src = Some (File data) /\
    warp_output P data srs tps opts = Ok res /\
    fs w' = <[dst := File res]> (fs w).
Proof.
  cbv [gdal_Warp gdal_read gdal_write trace lift mbind M_bind mret M_ret
       get_fs set_fs raise].
  cbn [fs]. destruct (fs w !! src) as [[|data]|] eqn:Hsrc; try discriminate.
  destruct (warp_output P data srs tps opts) as [res|e] eqn:Hres; [|discriminate].
  intros H. cbn [fs] in H.
  exists data, res. split; [reflexivity|]. split; [exact Hres|].
  destruct (fs w !! dst) as [[|data']|]; by simplify_eq.
Qed.

Lemma rectify_and_encode_dataflow base out_tif coords img w w1 :
  rectify_and_encode P base out_tif coords img w = (Ok tt, w1) ->
  exists ds gcps mid res,
    fs w !! img = Some (File (ds_data ds)) /\
    raster_size P (ds_data ds) = Ok (RasterXSize ds, RasterYSize ds) /\
    build_gcps coords (RasterXSize ds) (RasterYSize ds) = Ok gcps /\
    translate_output P ds gcps "EPSG:4326" = Ok mid /\
    warp_output P mid "EPSG:4326" true creation_options = Ok res /\
    fs w1 =
      delete (Path.join (OUTPUT_FOLDER P) (base +:+ "_with_gcps.tif"))
        (<[out_tif := File res]>
           (<[Path.join (OUTPUT_FOLDER P) (base +:+ "_with_gcps.tif") := File mid]>
              (fs w))).
Proof.
  unfold rectify_and_encode.
  set (tmp_tif := Path.join (OUTPUT_FOLDER P) (base +:+ "_with_gcps.tif")).
  intros H.
  step in H as ds e0 w0 E0; [|discriminate].
  destruct ds as [ds|]; [|discriminate].
  apply gdal_Open_inv in E0 as (Hfs0 & _ & Himg & Hsize).
  step in H as gcps e2 w2 E2; [|discriminate].
  cbv [lift] in E2. injection E2 as Hg <-.
  step in H as [] e3 w3 E3; [|discriminate].
  apply gdal_Translate_inv in E3 as (mid & Hmid & Hfs3).
  step in H as [] e4 w4 E4; [|discriminate].
  apply gdal_Warp_inv in E4 as (data & res & Hsrc & Hres & Hfs4).
  rewrite Hfs3, lookup_insert_eq in Hsrc. injection Hsrc as <-.
  step in H as [] e5 w5 E5; [|discriminate].
  apply remove_ok in E5.
  cbv [success_list_append print mbind M_bind] in H. injection H as <-.
  exists ds, gcps, mid, res. cbn [fs].
  repeat split; try assumption. by rewrite E5, Hfs4, Hfs3, Hfs0.
Qed.

End Dataflow.

(** X20. After a successful conversion the output file holds what
    [gdal.Warp], with the reference system "EPSG:4326", [tps] and the six
    creation options, made of the intermediate raster, which is what
    [gdal.Translate] made of the opened image and the four ground-control
    points built from the descriptor's coordinates and the image size; the
    rest of the file system is as the descriptor stage left it. *)
Theorem output_is_warp_of_translate (P : Platform) (kmz_path : string)
    (w w1 : World) :
  fs w !! out_tif_of P kmz_path = None ->
  body_of P kmz_path (announced kmz_path w) = (Ok tt, w1) ->
  exists coords img wd ds gcps mid res,
    descriptor_stage P kmz_path (announced kmz_path w) = (Ok (coords, img), wd) /\
    fs wd !! img = Some (File (ds_data ds)) /\
    raster_size P (ds_data ds) = Ok (RasterXSize ds, RasterYSize ds) /\
    build_gcps coords (RasterXSize ds) (RasterYSize ds) = Ok gcps /\
    translate_output P ds gcps "EPSG:4326" = Ok mid /\
    warp_output P mid "EPSG:4326" true creation_options = Ok res /\
    fs w1 !! out_tif_of P kmz_path = Some (File res) /\
    (forall k, k <> out_tif_of P kmz_path -> k <> tmp_tif_of P kmz_path ->
               fs w1 !! k = fs wd !! k).
Proof.
  intros Hno Hb. rewrite body_of_stages in Hb.
  destruct (descriptor_stage P kmz_path (announced kmz_path w))
    as [[[coords img]|e] wd] eqn:Hd; [|discriminate].
  apply rectify_and_encode_dataflow in Hb
    as (ds & gcps & mid & res & Himg & Hsize & Hg & Hmid & Hres & Hfs).
  fold (tmp_tif_of P kmz_path) in Hfs.
  exists coords, img, wd, ds, gcps, mid, res.
  repeat split; try assumption.
  - rewrite Hfs, lookup_delete_ne by (symmetry; apply out_tif_ne_tmp_tif).
    apply lookup_insert_eq.
  - intros k Hk1 Hk2. rewrite Hfs.
    by rewrite lookup_delete_ne, !lookup_insert_ne.
Qed.

(** X20, at "site.kmz" of the second folder. *)
Lemma output_is_warp_of_translate_witness :
  let w1 := snd (body_of Folder.platform "/in/site.kmz"
                   (announced "/in/site.kmz" Folder.world)) in
  fs w1 !! "/in/Converted GeoTIFFs/site.tif" = Some (File "geotiff of gcps+png") /\
  exists coords img wd ds gcps mid res,
    descriptor_stage Folder.platform "/in/site.kmz"
      (announced "/in/site.kmz" Folder.world) = (Ok (coords, img), wd) /\
    fs wd !! img = Some (File (ds_data ds)) /\
    raster_size Folder.platform (ds_data ds) = Ok (RasterXSize ds, RasterYSize ds) /\
    build_gcps coords (RasterXSize ds) (RasterYSize ds) = Ok gcps /\
    translate_output Folder.platform ds gcps "EPSG:4326" = Ok mid /\
    warp_output Folder.platform mid "EPSG:4326" true creation_options = Ok res /\
    fs w1 !! out_tif_of Folder.platform "/in/site.kmz" = Some (File res) /\
    (forall k, k <> out_tif_of Folder.platform "/in/site.kmz" ->
               k <> tmp_tif_of Folder.platform "/in/site.kmz" ->
               fs w1 !! k = fs wd !! k).
Proof.
  intros w1. split; [by vm_compute|].
  apply (output_is_warp_of_translate Folder.platform "/in/site.kmz" Folder.world).
  - by vm_compute.
  - by vm_compute.
Defined.

(** * The working area of a conversion *)

(** A loop over two lists in a row. *)
Lemma run_for_each_app {A} (l1 l2 : list A) (body : A -> M unit) (w : World) :
  for_each (l1 ++ l2) body w =
  match for_each l1 body w with
  | (Ok _, w1) => for_each l2 body w1
  | (Raise e, w1) => (Raise e, w1)
  end.
Proof.
  revert w. induction l1 as [|x l1 IH]; intros w; [reflexivity|].
  cbn [app]. rewrite !run_for_each_cons.
  destruct (body x w) as [[[]|e] w1]; [apply IH | reflexivity].
Qed.

(** Making directories creates no file and changes none. *)
Lemma mkdirs_no_new_file (l : list string) (w : World) r w' k data :
  for_each l Os.mkdir_exist_ok w = (r, w') ->
  fs w' !! k = Some (File data) -> fs w !! k = Some (File data).
Proof.
  revert w. induction l as [|d l IH]; intros w.
  - by intros [= _ <-].
  - rewrite run_for_each_cons.
    destruct (Os.mkdir_exist_ok d w) as [[[]|e] w1] eqn:Hd.
    + intros Hl Hk. specialize (IH w1 Hl Hk). revert Hd.
      cbv [Os.mkdir_exist_ok mbind M_bind get_fs set_fs raise mret M_ret].
      destruct (fs w !! d) as [[|data']|] eqn:Hwd; intros [= <-]; cbn [fs] in IH;
        [exact IH|].
      destruct (decide (d = k)) as [->|Hne].
      * by rewrite lookup_insert_eq in IH.
      * by rewrite lookup_insert_ne in IH.
    + intros [= _ <-] Hk. revert Hd.
      cbv [Os.mkdir_exist_ok mbind M_bind get_fs set_fs raise mret M_ret].
      by destruct (fs w !! d) as [[|data']|]; intros [= _ <-].
Qed.

Section WorkingArea.

Context (P : Platform).

(** A member that was extracted is there, with its content. *)
Lemma extract_member_ok dst name content w w' :
  extract_member dst (name, content) w = (Ok tt, w') ->
  fs w' !! (dst +:+ "/" +:+ name) = Some (File content).
Proof.
  unfold extract_member. cbn [fst snd].
  step as [] e w1 E; [|discriminate].
  cbv [Os.write_file mbind M_bind get_fs set_fs raise mret M_ret].
  destruct (fs w1 !! _) as [[|data]|]; intros [= <-]; cbn [fs];
    apply lookup_insert_eq.
Qed.

(** The extraction of a member under another name leaves it alone. *)
Lemma extract_member_kept dst name content m :
  fst m <> name ->
  preserves (kept (dst +:+ "/" +:+ name) (File content)) (extract_member dst m).
Proof.
  intros Hne. unfold extract_member.
  repeat frame_step; try solve [eauto with frame].
  apply write_file_kept. intros H. apply Hne.
  apply (inj (String.app dst)) in H. by apply (inj (String.app "/")) in H.
Qed.

(** After [extractall], every member is at its place below the
    destination; of two members of the same name, the later one. *)
Lemma extracted_members dst members w w2 pre name content post :
  for_each members (extract_member dst) w = (Ok tt, w2) ->
  members = pre ++ (name, content) :: post ->
  name ∉ map fst post ->
  fs w2 !! (dst +:+ "/" +:+ name) = Some (File content).
Proof.
  intros Hrun -> Hlast. rewrite run_for_each_app in Hrun.
  destruct (for_each pre (extract_member dst) w) as [[[]|e] wa]; [|discriminate].
  rewrite run_for_each_cons in Hrun.
  destruct (extract_member dst (name, content) wa) as [[[]|e] wb] eqn:Hm;
    [|discriminate].
  apply extract_member_ok in Hm.
  assert (F : preserves (kept (dst +:+ "/" +:+ name) (File content))
                (for_each post (extract_member dst))).
  { apply preserves_for_each; [apply _|]. intros m Hin.
    apply extract_member_kept. intros <-. apply Hlast.
    apply list_elem_of_fmap. by exists m. }
  specialize (F wb). rewrite Hrun in F. by apply F.
Qed.

Lemma zip_extractall_ok src dst w w2 :
  zip_extractall P src dst w = (Ok tt, w2) ->
  exists data members,
    fs w !! src = Some (File data) /\
    zip_members P data = Ok members /\
    forall pre name content post,
      members = pre ++ (name, content) :: post ->
      name ∉ map fst post ->
      fs w2 !! (dst +:+ "/" +:+ name) = Some (File content).
Proof.
  unfold zip_extractall. rewrite run_bind. cbv [trace].
  rewrite run_bind. cbv [Os.read_file]. rewrite run_bind. cbv [get_fs].
  cbn [fs].
  destruct (fs w !! src) as [[|data]|] eqn:Hsrc; cbv [raise]; try discriminate.
  cbv [mret M_ret]. rewrite run_bind. cbv [lift].
  destruct (zip_members P data) as [members|e] eqn:Hz; [|discriminate].
  intros Hrun. exists data, members. split; [done|]. split; [done|].
  intros pre name content post. by eapply extracted_members.
Qed.

(** The raster files of a conversion are not below its working directory. *)
Lemma raster_not_below kmz_path (stem k : string) :
  Str.existsb Str.is_sep stem = false ->
  below (tmp_dir_of P kmz_path) k = true ->
  OUTPUT_FOLDER P +:+ "/" +:+ base_of kmz_path +:+ stem <> k.
Proof.
  intros Hs Hb <-. unfold below in Hb. apply startswith_inv in Hb as [r Hr].
  rewrite tmp_dir_eq, !app_assoc_str in Hr. symmetry in Hr.
  revert Hr. apply name_ne_temp. by rewrite existsb_app, base_of_no_sep, Hs.
Qed.

End WorkingArea.

(** C4, as the code has it.  The working directory of an archive is not
    destroyed, and neither is what was extracted into it.  Once line 36 has
    created the directory, it is still there when the conversion returns,
    whether the conversion succeeded or failed; every path below it is as
    the extraction (lines 37-38) left it; and when the extraction went
    through, every member of the archive is there under its name, with its
    content (of two members of the same name, the later one). *)
Theorem working_area_survives (P : Platform) (kmz_path : string)
    (w w1 : World) (r : result unit) (w2 : World) :
  fs w !! out_tif_of P kmz_path = None ->
  Os.makedirs (tmp_dir_of P kmz_path) (announced kmz_path w) = (Ok tt, w1) ->
  zip_extractall P kmz_path (tmp_dir_of P kmz_path) w1 = (r, w2) ->
  exists w',
    convert_kmz P kmz_path w = (Ok tt, w') /\
    fs w' !! tmp_dir_of P kmz_path = Some Dir /\
    (forall k, below (tmp_dir_of P kmz_path) k = true -> fs w' !! k = fs w2 !! k) /\
    (r = Ok tt ->
     exists data members,
       fs w !! kmz_path = Some (File data) /\
       zip_members P data = Ok members /\
       forall pre name content post,
         members = pre ++ (name, content) :: post ->
         name ∉ map fst post ->
         fs w' !! (tmp_dir_of P kmz_path +:+ "/" +:+ name) = Some (File content)).
Proof.
  intros Hno Hmk Hzip.
  pose proof (makedirs_ok _ _ _ Hmk) as Hdir.
  assert (Hbody : exists rb wb,
            body_of P kmz_path (announced kmz_path w) = (rb, wb) /\
            fs wb !! tmp_dir_of P kmz_path = Some Dir /\
            forall k, below (tmp_dir_of P kmz_path) k = true ->
                      fs wb !! k = fs w2 !! k).
  { unfold body_of, convert_body, open_descriptor.
    fold (tmp_dir_of P kmz_path) (tmp_tif_of P kmz_path).
    rewrite run_bind_assoc, run_bind, Hmk.
    rewrite run_bind_assoc, run_bind, Hzip.
    assert (Hdir2 : fs w2 !! tmp_dir_of P kmz_path = Some Dir).
    { assert (F : preserves dirs_kept (zip_extractall P kmz_path (tmp_dir_of P kmz_path)))
        by script_frame.
      specialize (F w1). rewrite Hzip in F. by apply F. }
    destruct r as [[]|e]; [|by exists (Raise e), w2].
    lazymatch goal with
    | |- exists rb wb, ?m w2 = _ /\ _ =>
        assert (Fd : preserves dirs_kept m) by script_frame;
        assert (Fk : forall k, below (tmp_dir_of P kmz_path) k = true ->
                               preserves (same_node k) m);
        [| destruct (m w2) as [rb wb] eqn:Hrest; exists rb, wb ]
    end.
    - intros k Hk.
      unfold rectify_and_encode, read_descriptor, gdal_Warp, gdal_Translate,
        gdal_Open, ET_parse.
      fold (tmp_tif_of P kmz_path).
      rewrite out_tif_eq, tmp_tif_eq.
      repeat frame_step; try solve [eauto with frame].
      all: first [ apply gdal_write_same_node | apply remove_same_node ];
        by apply raster_not_below.
    - split; [done|]. split.
      + specialize (Fd w2). rewrite Hrest in Fd. by apply Fd.
      + intros k Hk. specialize (Fk k Hk w2). by rewrite Hrest in Fk. }
  destruct Hbody as (rb & wb & Hb & Hd & Hk).
  assert (Hmembers : r = Ok tt ->
            exists data members,
              fs w !! kmz_path = Some (File data) /\
              zip_members P data = Ok members /\
              forall pre name content post,
                members = pre ++ (name, content) :: post ->
                name ∉ map fst post ->
                fs wb !! (tmp_dir_of P kmz_path +:+ "/" +:+ name) = Some (File content)).
  { intros ->. apply zip_extractall_ok in Hzip as (data & members & Hsrc & Hz & Hm).
    exists data, members. split; [|split; [exact Hz|]].
    - by apply (mkdirs_no_new_file _ _ _ _ _ _ Hmk) in Hsrc.
    - intros pre name content post Heq Hlast.
      rewrite Hk by (unfold below; rewrite <- app_assoc_str; apply startswith_app).
      by eapply Hm. }
  rewrite (convert_kmz_run P kmz_path w Hno), Hb.
  destruct rb as [[]|e].
  - by exists wb.
  - by exists (failed kmz_path e wb).
Qed.

(** C4 as amended, at "b.KMZ" of the sample folder, whose conversion
    fails after the extraction. *)
Lemma working_area_survives_witness :
  let tmp_dir := tmp_dir_of Sample.platform "/maps/b.KMZ" in
  let w1 := snd (Os.makedirs tmp_dir (announced "/maps/b.KMZ" Sample.world)) in
  let w2 := snd (zip_extractall Sample.platform "/maps/b.KMZ" tmp_dir w1) in
  exists w',
    convert_kmz Sample.platform "/maps/b.KMZ" Sample.world = (Ok tt, w') /\
    fs w' !! tmp_dir = Some Dir /\
    (forall k, below tmp_dir k = true -> fs w' !! k = fs w2 !! k) /\
    (Ok tt = Ok tt ->
     exists data members,
       fs Sample.world !! "/maps/b.KMZ" = Some (File data) /\
       zip_members Sample.platform data = Ok members /\
       forall pre name content post,
         members = pre ++ (name, content) :: post ->
         name ∉ map fst post ->
         fs w' !! (tmp_dir +:+ "/" +:+ name) = Some (File content)).
Proof.
  intros tmp_dir w1 w2.
  apply (working_area_survives Sample.platform "/maps/b.KMZ" Sample.world w1
           (Ok tt) w2).
  - vm_compute. reflexivity.
  - vm_compute. reflexivity.
  - vm_compute. reflexivity.
Defined.
